(** * SimpleRDBMS: a shallow embedding of [rdbms.py] and its properties

    The engine of [rdbms.py] (class [SimpleRDBMS] with the dataclasses
    [Column], [Index] and [Table]) is embedded as executable Rocq
    functions over an explicit engine state.  Python exceptions are an
    explicit outcome, and since an exception does not undo the mutations
    made before it, every operation returns the state it leaves behind
    together with its outcome.

    Modelling conventions.
    - Text is ASCII: [str.upper], [str.isdigit], [str.isspace], [\w]
      and [\s] are modelled on the ASCII range; bytes above 127 are kept
      as they are.
    - [int(s)] converts a text of digits of any length; the interpreter
      refuses, by default, a text of more than 4300 digits, so what is
      stated of integer literals is stated of tokens within that length.
    - A Python [float] obtained from a literal is kept as the exact
      decimal fraction [m / 10^e] it denotes.  Python rounds to binary64,
      which agrees with the exact value on [==] and [<] for literals of
      at most 15 significant digits.
    - A [dict] is an association list in insertion order with unique
      keys; assignment to a present key keeps its position.
    - [pickle.dump] / [pickle.load] of a table is a copy of the table
      value: the directory of snapshots is a dict from table name to
      table.
    - [re.match(p, str(v))] on the pattern built by LIKE from user text
      is a host-library call on an arbitrary pattern; it is a parameter
      of the predicate evaluator. *)

From Stdlib Require Import Bool Arith ZArith List Ascii String Lia.
From Stdlib Require Import DecimalNat DecimalString.
Import ListNotations.

Local Open Scope string_scope.
Local Open Scope list_scope.

(** ** Python strings (ASCII) *)

Module PyStr.

Definition nat_of (c : ascii) : nat := nat_of_ascii c.

(** [c.isspace()] on the ASCII range: TAB, LF, VT, FF, CR, FS, GS, RS,
    US and SPACE. *)
Definition isspace_char (c : ascii) : bool :=
  let n := nat_of c in
  (Nat.leb 9 n && Nat.leb n 13) || (Nat.leb 28 n && Nat.leb n 32).

Definition isdigit_char (c : ascii) : bool :=
  let n := nat_of c in Nat.leb 48 n && Nat.leb n 57.

Definition islower_char (c : ascii) : bool :=
  let n := nat_of c in Nat.leb 97 n && Nat.leb n 122.

Definition isupper_char (c : ascii) : bool :=
  let n := nat_of c in Nat.leb 65 n && Nat.leb n 90.

Definition upper_char (c : ascii) : ascii :=
  if islower_char c then ascii_of_nat (nat_of c - 32) else c.

(** [\w] of a str pattern, ASCII range. *)
Definition isword_char (c : ascii) : bool :=
  islower_char c || isupper_char c || isdigit_char c || Ascii.eqb c "_".

Fixpoint upper (s : string) : string :=
  match s with
  | EmptyString => EmptyString
  | String c s' => String (upper_char c) (upper s')
  end.

Fixpoint all_chars (p : ascii -> bool) (s : string) : bool :=
  match s with
  | EmptyString => true
  | String c s' => p c && all_chars p s'
  end.

(** [s.isdigit()]: non-empty and every character a digit. *)
Definition isdigit (s : string) : bool :=
  match s with
  | EmptyString => false
  | _ => all_chars isdigit_char s
  end.

Fixpoint rev_acc (s acc : string) : string :=
  match s with
  | EmptyString => acc
  | String c s' => rev_acc s' (String c acc)
  end.

Definition rev (s : string) : string := rev_acc s EmptyString.

Fixpoint lstrip_by (p : ascii -> bool) (s : string) : string :=
  match s with
  | EmptyString => EmptyString
  | String c s' => if p c then lstrip_by p s' else s
  end.

Definition strip_by (p : ascii -> bool) (s : string) : string :=
  rev (lstrip_by p (rev (lstrip_by p s))).

(** [s.strip()] *)
Definition strip (s : string) : string := strip_by isspace_char s.

(** [s.strip("'")] *)
Definition strip_quote (s : string) : string :=
  strip_by (Ascii.eqb "'") s.

(** [s.replace(a, b)] for one-character [a] and [b]. *)
Fixpoint replace_char (a b : ascii) (s : string) : string :=
  match s with
  | EmptyString => EmptyString
  | String c s' =>
      String (if Ascii.eqb c a then b else c) (replace_char a b s')
  end.

(** [s.replace(a, '', 1)] for a one-character [a]. *)
Fixpoint remove_first (a : ascii) (s : string) : string :=
  match s with
  | EmptyString => EmptyString
  | String c s' => if Ascii.eqb c a then s' else String c (remove_first a s')
  end.

Fixpoint startswith (p s : string) : bool :=
  match p, s with
  | EmptyString, _ => true
  | String a p', String b s' => Ascii.eqb a b && startswith p' s'
  | String _ _, EmptyString => false
  end.

(** [p in s] *)
Fixpoint contains (p s : string) : bool :=
  startswith p s ||
  match s with
  | EmptyString => false
  | String _ s' => contains p s'
  end.

Fixpoint drop (n : nat) (s : string) : string :=
  match n, s with
  | O, _ => s
  | S n', String _ s' => drop n' s'
  | S _, EmptyString => EmptyString
  end.

(** Adds a character in front of the first piece of a split. *)
Definition cons_head (c : ascii) (l : list string) : list string :=
  match l with
  | [] => [String c EmptyString]
  | p :: ps => String c p :: ps
  end.

(** [s.split(sep)] for a one-character [sep]. *)
Fixpoint split_char (sep : ascii) (s : string) : list string :=
  match s with
  | EmptyString => [EmptyString]
  | String c s' =>
      if Ascii.eqb c sep then EmptyString :: split_char sep s'
      else cons_head c (split_char sep s')
  end.

(** [s.split(sep, 1)]: [(before, Some after)] at the first occurrence of
    [sep], [(s, None)] when there is none (a one-element list). *)
Fixpoint split_once (sep : string) (s : string) : string * option string :=
  if startswith sep s then (EmptyString, Some (drop (String.length sep) s))
  else
    match s with
    | EmptyString => (EmptyString, None)
    | String c s' =>
        let '(a, b) := split_once sep s' in (String c a, b)
    end.

(** [s.split()]: the maximal runs of non-whitespace characters.  With
    [inword] the head of the result continues the current run. *)
Fixpoint split_ws_aux (s : string) (inword : bool) : list string :=
  match s with
  | EmptyString => if inword then [EmptyString] else []
  | String c s' =>
      if isspace_char c then
        (if inword then EmptyString :: split_ws_aux s' false
         else split_ws_aux s' false)
      else cons_head c (split_ws_aux s' true)
  end.

Definition split_ws (s : string) : list string := split_ws_aux s false.

Definition digit_val (c : ascii) : Z := Z.of_nat (nat_of c - 48).

Fixpoint int_acc (s : string) (acc : Z) : Z :=
  match s with
  | EmptyString => acc
  | String c s' => int_acc s' (10 * acc + digit_val c)%Z
  end.

(** [int(s)] for an all-digit [s]. *)
Definition int_of (s : string) : Z := int_acc s 0%Z.

(** Number of characters after the first [.] *)
Fixpoint frac_len (s : string) : nat :=
  match s with
  | EmptyString => 0
  | String c s' =>
      if Ascii.eqb c "." then String.length s' else frac_len s'
  end.

(** [str(n)] for a non-negative int. *)
Definition of_nat (n : nat) : string :=
  NilZero.string_of_uint (Nat.to_uint n).

Definition concat (l : list string) : string :=
  List.fold_right String.append EmptyString l.

End PyStr.

(** ** Python dicts: association lists in insertion order *)

Module Dict.
Section WithKey.
Context {K V : Type}.
Variable keq : K -> K -> bool.

(** [d.get(k)] *)
Fixpoint get (d : list (K * V)) (k : K) : option V :=
  match d with
  | [] => None
  | (k', v) :: d' => if keq k' k then Some v else get d' k
  end.

(** [k in d] *)
Definition mem (d : list (K * V)) (k : K) : bool :=
  match get d k with Some _ => true | None => false end.

(** [d[k] = v]: a present key keeps its place (and its key object). *)
Fixpoint set (d : list (K * V)) (k : K) (v : V) : list (K * V) :=
  match d with
  | [] => [(k, v)]
  | (k', v') :: d' =>
      if keq k' k then (k', v) :: d' else (k', v') :: set d' k v
  end.

(** [del d[k]] *)
Fixpoint del (d : list (K * V)) (k : K) : list (K * V) :=
  match d with
  | [] => []
  | (k', v') :: d' => if keq k' k then d' else (k', v') :: del d' k
  end.
End WithKey.
End Dict.

(** ** Dynamically typed values *)

Inductive value : Type :=
| VNone
| VBool (b : bool)
| VInt (z : Z)
| VFloat (m : Z) (e : nat)   (* the decimal fraction m / 10^e *)
| VText (s : string).

(** [float(s)] for digits with one dot. *)
Definition float_of (s : string) : value :=
  VFloat (PyStr.int_of (PyStr.remove_first "." s)) (PyStr.frac_len s).

(** The number behind an int, float or bool, as [m / 10^e]. *)
Definition num_of (v : value) : option (Z * nat) :=
  match v with
  | VBool b => Some (if b then 1%Z else 0%Z, 0)
  | VInt z => Some (z, 0)
  | VFloat m e => Some (m, e)
  | _ => None
  end.

Definition num_compare (a b : Z * nat) : comparison :=
  let '(m1, e1) := a in
  let '(m2, e2) := b in
  Z.compare (m1 * 10 ^ Z.of_nat e2) (m2 * 10 ^ Z.of_nat e1).

(** [a == b] *)
Definition py_eq (a b : value) : bool :=
  match a, b with
  | VNone, VNone => true
  | VText s, VText t => String.eqb s t
  | _, _ =>
      match num_of a, num_of b with
      | Some x, Some y =>
          match num_compare x y with Eq => true | _ => false end
      | _, _ => false
      end
  end.

(** Python exceptions raised by the engine. *)
Inductive exn : Type :=
| ValueError (msg : string)
| KeyError (key : string)
| IndexError
| TypeError
| RecursionError.

Inductive outcome (A : Type) : Type :=
| Ok (a : A)
| Raise (e : exn).
Arguments Ok {A} a.
Arguments Raise {A} e.

Definition bind {A B : Type} (x : outcome A) (f : A -> outcome B) : outcome B :=
  match x with
  | Ok a => f a
  | Raise e => Raise e
  end.

Notation "'do' x <- c ; k" := (bind c (fun x => k))
  (at level 10, x pattern, c at level 100, k at level 200).

(** The ordering [a ? b] of two values; [TypeError] unless both are
    numbers or both are text. *)
Definition py_compare (a b : value) : outcome comparison :=
  match a, b with
  | VText s, VText t => Ok (String.compare s t)
  | _, _ =>
      match num_of a, num_of b with
      | Some x, Some y => Ok (num_compare x y)
      | _, _ => Raise TypeError
      end
  end.

Definition py_lt (a b : value) : outcome bool :=
  do c <- py_compare a b; Ok (match c with Lt => true | _ => false end).
Definition py_gt (a b : value) : outcome bool :=
  do c <- py_compare a b; Ok (match c with Gt => true | _ => false end).
Definition py_le (a b : value) : outcome bool :=
  do c <- py_compare a b; Ok (match c with Gt => false | _ => true end).
Definition py_ge (a b : value) : outcome bool :=
  do c <- py_compare a b; Ok (match c with Lt => false | _ => true end).

(** [isinstance(v, int)]: [bool] is a subclass of [int]. *)
Definition isinstance_int (v : value) : bool :=
  match v with VInt _ | VBool _ => true | _ => false end.

(** [isinstance(v, (int, float))] *)
Definition isinstance_int_float (v : value) : bool :=
  match v with VInt _ | VBool _ | VFloat _ _ => true | _ => false end.

(** [isinstance(v, bool)] *)
Definition isinstance_bool (v : value) : bool :=
  match v with VBool _ => true | _ => false end.

Definition is_none (v : value) : bool :=
  match v with VNone => true | _ => false end.

(** Tuples of values as dict keys: equal when of equal length and
    pointwise [==]. *)
Fixpoint tuple_eq (a b : list value) : bool :=
  match a, b with
  | [], [] => true
  | x :: a', y :: b' => py_eq x y && tuple_eq a' b'
  | _, _ => false
  end.

(** ** Regular expressions: the fragment used by the engine

    A backtracking matcher in continuation-passing style, with the
    ordered choice of [re]: a greedy repetition tries the longest run
    first, a lazy one the shortest, an optional group is tried before it
    is skipped.  Literals match case-insensitively ([re.IGNORECASE]). *)

Module Re.

Inductive cls : Type :=
| CDot (dotall : bool)     (* .   *)
| CWord                    (* \w  *)
| CSpace                   (* \s  *)
| CNot (c : ascii)         (* [^c] *)
| CLit (c : ascii).        (* c, ignoring case *)

Definition cls_match (k : cls) (c : ascii) : bool :=
  match k with
  | CDot dotall => dotall || negb (Ascii.eqb c "010")
  | CWord => PyStr.isword_char c
  | CSpace => PyStr.isspace_char c
  | CNot x => negb (Ascii.eqb c x)
  | CLit x => Ascii.eqb (PyStr.upper_char c) (PyStr.upper_char x)
  end.

Inductive re : Type :=
| Eps
| Chr (k : cls)
| Seq (a b : re)
| Star (k : cls) (greedy : bool)   (* k* or k*? *)
| Grp (n : nat) (a : re)           (* capture group n *)
| Opt (a : re)                     (* (?:a)? *)
| Eos.                             (* $ *)

Definition caps : Type := list (nat * string).

Section Match.
Context {R : Type}.

Fixpoint rep (k : cls) (greedy : bool) (s : string)
    (cont : string -> option R) : option R :=
  match s with
  | EmptyString => cont s
  | String c s' =>
      if cls_match k c then
        if greedy then
          match rep k greedy s' cont with
          | Some r => Some r
          | None => cont s
          end
        else
          match cont s with
          | Some r => Some r
          | None => rep k greedy s' cont
          end
      else cont s
  end.

(** The text consumed between [s] and its suffix [s1]. *)
Definition consumed (s s1 : string) : string :=
  String.substring 0 (String.length s - String.length s1) s.

Fixpoint run (r : re) (s : string) (c : caps)
    (cont : string -> caps -> option R) : option R :=
  match r with
  | Eps => cont s c
  | Chr k =>
      match s with
      | String x s' => if cls_match k x then cont s' c else None
      | EmptyString => None
      end
  | Seq a b => run a s c (fun s1 c1 => run b s1 c1 cont)
  | Star k g => rep k g s (fun s1 => cont s1 c)
  | Grp n a => run a s c (fun s1 c1 => cont s1 ((n, consumed s s1) :: c1))
  | Opt a =>
      match run a s c cont with
      | Some r => Some r
      | None => cont s c
      end
  | Eos =>
      match s with
      | EmptyString => cont s c
      | String x EmptyString => if Ascii.eqb x "010" then cont s c else None
      | _ => None
      end
  end.
End Match.

(** [re.match(r, s)]: anchored at the start only. *)
Definition rmatch (r : re) (s : string) : option caps :=
  run r s [] (fun _ c => Some c).

(** [m.group(n)], [None] for a group that did not take part. *)
Definition group (m : caps) (n : nat) : option string :=
  Dict.get Nat.eqb m n.

(** Length of the match of [r] at the start of [s]. *)
Definition match_len (r : re) (s : string) : option nat :=
  run r s [] (fun s1 _ => Some (String.length s - String.length s1)).

Fixpoint lit (s : string) : re :=
  match s with
  | EmptyString => Eps
  | String c s' => Seq (Chr (CLit c)) (lit s')
  end.

Definition plus (k : cls) (greedy : bool) : re := Seq (Chr k) (Star k greedy).

Fixpoint seq (l : list re) : re :=
  match l with
  | [] => Eps
  | r :: l' => Seq r (seq l')
  end.

(** [re.split(r, s)] for a pattern that matches no empty text: [skip]
    counts the characters of the current match still to be dropped; the
    head of the result is the piece being collected. *)
Fixpoint split_aux (r : re) (s : string) (skip : nat) : list string :=
  match s with
  | EmptyString => [EmptyString]
  | String c s' =>
      match skip with
      | S n => split_aux r s' n
      | O =>
          match match_len r s with
          | Some (S n) => EmptyString :: split_aux r s' n
          | _ => PyStr.cons_head c (split_aux r s' 0)
          end
      end
  end.

Definition split (r : re) (s : string) : list string := split_aux r s 0.

(** [\s+KW\s+] *)
Definition spaced (kw : string) : re :=
  seq [plus CSpace true; lit kw; plus CSpace true].

End Re.

(** ** The schema model: [DataType], [Column], [Index], [Table] *)

Inductive DataType : Type := INTEGER | TEXT | REAL | BOOLEAN | DATE.

Definition DataType_eqb (a b : DataType) : bool :=
  match a, b with
  | INTEGER, INTEGER | TEXT, TEXT | REAL, REAL
  | BOOLEAN, BOOLEAN | DATE, DATE => true
  | _, _ => false
  end.

(** [DataType(s)]: the enum member whose value is [s]. *)
Definition DataType_of_string (s : string) : outcome DataType :=
  if String.eqb s "INTEGER" then Ok INTEGER
  else if String.eqb s "TEXT" then Ok TEXT
  else if String.eqb s "REAL" then Ok REAL
  else if String.eqb s "BOOLEAN" then Ok BOOLEAN
  else if String.eqb s "DATE" then Ok DATE
  else Raise (ValueError ("'" ++ s ++ "' is not a valid DataType")).

(** A row: a dict from column name to value. *)
Definition row : Type := list (string * value).

Definition row_get (r : row) (k : string) : option value :=
  Dict.get String.eqb r k.
Definition row_mem (r : row) (k : string) : bool :=
  Dict.mem String.eqb r k.
Definition row_set (r : row) (k : string) (v : value) : row :=
  Dict.set String.eqb r k v.

(** [r.get(k)] and [r.get(k, None)] *)
Definition row_get_none (r : row) (k : string) : value :=
  match row_get r k with Some v => v | None => VNone end.

Module Column.
Record t : Type := mk {
  name : string;
  data_type : DataType;
  is_primary : bool;
  is_unique : bool;
  is_nullable : bool
}.

(** Dataclass equality: field by field. *)
Definition eqb (a b : t) : bool :=
  String.eqb (name a) (name b) && DataType_eqb (data_type a) (data_type b)
  && Bool.eqb (is_primary a) (is_primary b)
  && Bool.eqb (is_unique a) (is_unique b)
  && Bool.eqb (is_nullable a) (is_nullable b).
End Column.

Module Index.
Record t : Type := mk {
  column_names : list string;
  entries : list (list value * list nat)
}.

(** [Index(column_names)] *)
Definition new (cols : list string) : t := mk cols [].

Definition entries_get (e : list (list value * list nat)) (k : list value) :=
  Dict.get tuple_eq e k.

(** [if key not in entries: entries[key] = []] then
    [entries[key].append(i)] *)
Definition add (e : list (list value * list nat)) (k : list value) (i : nat)
  : list (list value * list nat) :=
  match entries_get e k with
  | Some l => Dict.set tuple_eq e k (l ++ [i])
  | None => Dict.set tuple_eq e k [i]
  end.
End Index.

Module Table.
Record t : Type := mk {
  name : string;
  columns : list Column.t;
  rows : list row;
  indexes : list (string * Index.t);
  next_row_id : nat;
  primary_key_column : option Column.t
}.

Definition set_rows (tb : t) (rs : list row) : t :=
  mk (name tb) (columns tb) rs (indexes tb) (next_row_id tb)
     (primary_key_column tb).

Definition set_indexes (tb : t) (ix : list (string * Index.t)) : t :=
  mk (name tb) (columns tb) (rows tb) ix (next_row_id tb)
     (primary_key_column tb).

(** [col != self.primary_key_column] *)
Definition differs_from_primary (pk : option Column.t) (c : Column.t) : bool :=
  match pk with
  | Some p => negb (Column.eqb c p)
  | None => true
  end.

Definition _create_default_indexes (pk : option Column.t)
    (cols : list Column.t) : list (string * Index.t) :=
  let start :=
    match pk with
    | Some p => [("__primary", Index.new [Column.name p])]
    | None => []
    end in
  fold_left
    (fun ix c =>
       if Column.is_unique c && differs_from_primary pk c
       then Dict.set String.eqb ix ("__unique_" ++ Column.name c)%string
              (Index.new [Column.name c])
       else ix)
    cols start.

(** [Table(name, columns)] with [__post_init__]. *)
Definition new (nm : string) (cols : list Column.t) : t :=
  let pk := find Column.is_primary cols in
  mk nm cols [] (_create_default_indexes pk cols) 1 pk.

(** [tuple(row[col] for col in cols)]: [KeyError] on a missing key. *)
Fixpoint strict_key (r : row) (cols : list string) : outcome (list value) :=
  match cols with
  | [] => Ok []
  | c :: cs =>
      match row_get r c with
      | None => Raise (KeyError c)
      | Some v => do k <- strict_key r cs; Ok (v :: k)
      end
  end.

(** The loop of [Table._rebuild_index] from position [i] on; the
    entries built so far stay when a row raises. *)
Fixpoint rebuild_from (cols : list string) (rs : list row) (i : nat)
    (e : list (list value * list nat))
  : list (list value * list nat) * outcome unit :=
  match rs with
  | [] => (e, Ok tt)
  | r :: rs' =>
      match strict_key r cols with
      | Raise x => (e, Raise x)
      | Ok k => rebuild_from cols rs' (S i) (Index.add e k i)
      end
  end.

Definition _rebuild_index (tb : t) (index_name : string) : t * outcome unit :=
  match Dict.get String.eqb (indexes tb) index_name with
  | None => (tb, Ok tt)
  | Some idx =>
      let '(e, o) := rebuild_from (Index.column_names idx) (rows tb) 0 [] in
      (set_indexes tb
         (Dict.set String.eqb (indexes tb) index_name
            (Index.mk (Index.column_names idx) e)), o)
  end.

Definition add_index (tb : t) (nm : string) (cols : list string)
  : t * outcome unit :=
  _rebuild_index
    (set_indexes tb (Dict.set String.eqb (indexes tb) nm (Index.new cols)))
    nm.
End Table.

(** ** The engine: class [SimpleRDBMS] *)

Module SimpleRDBMS.

(** The engine object: the catalog [tables], the snapshot directory
    [disk] (one pickled table per name), the transaction log and the
    transaction flag. *)
Record engine : Type := mk {
  tables : list (string * Table.t);
  disk : list (string * Table.t);
  transaction_log : list string;
  _in_transaction : bool
}.

Definition set_tables (st : engine) (ts : list (string * Table.t)) : engine :=
  mk ts (disk st) (transaction_log st) (_in_transaction st).
Definition set_disk (st : engine) (d : list (string * Table.t)) : engine :=
  mk (tables st) d (transaction_log st) (_in_transaction st).
Definition set_log (st : engine) (l : list string) : engine :=
  mk (tables st) (disk st) l (_in_transaction st).
Definition set_in_transaction (st : engine) (b : bool) : engine :=
  mk (tables st) (disk st) (transaction_log st) b.

Definition get_table (st : engine) (table_name : string) : option Table.t :=
  Dict.get String.eqb (tables st) table_name.

(** Writes the (mutated) table object back under its name. *)
Definition put_table (st : engine) (table_name : string) (tb : Table.t)
  : engine :=
  set_tables st (Dict.set String.eqb (tables st) table_name tb).

(** A result row: a status record or a data row. *)
Definition result : Type := list row.

Definition unpack_error : exn :=
  ValueError "not enough values to unpack (expected 2, got 1)".

Definition no_table (table_name : string) : exn :=
  ValueError ("Table '" ++ table_name ++ "' does not exist").

(** *** Literal coercion, as written at its three sites *)

(** [_execute_insert], the body of the loop over [values_str.split(",")]. *)
Definition insert_value (v : string) : value :=
  let v := PyStr.strip_quote (PyStr.strip v) in
  if PyStr.isdigit v then VInt (PyStr.int_of v)
  else if PyStr.isdigit (PyStr.remove_first "." v) then float_of v
  else if String.eqb (PyStr.upper v) "TRUE" || String.eqb (PyStr.upper v) "FALSE"
  then VBool (String.eqb (PyStr.upper v) "TRUE")
  else if String.eqb v "NULL" then VNone
  else VText v.

(** [_execute_update], the value of one assignment of the SET clause. *)
Definition update_value (val : string) : value :=
  let val := PyStr.strip_quote (PyStr.strip val) in
  if PyStr.isdigit val then VInt (PyStr.int_of val)
  else if PyStr.isdigit (PyStr.remove_first "." val) then float_of val
  else if String.eqb (PyStr.upper val) "TRUE"
          || String.eqb (PyStr.upper val) "FALSE"
  then VBool (String.eqb (PyStr.upper val) "TRUE")
  else if String.eqb val "NULL" then VNone
  else VText val.

(** [_evaluate_where], the right-hand side of a comparison; [right] has
    been stripped of blanks and quotes by the caller. *)
Definition where_value (rhs : string) : value :=
  if PyStr.isdigit rhs then VInt (PyStr.int_of rhs)
  else if PyStr.isdigit (PyStr.remove_first "." rhs) then float_of rhs
  else if String.eqb (PyStr.upper rhs) "TRUE"
          || String.eqb (PyStr.upper rhs) "FALSE"
  then VBool (String.eqb (PyStr.upper rhs) "TRUE")
  else if String.eqb rhs "NULL" then VNone
  else VText rhs.

(** *** [_validate_row] *)

Definition type_check (col : Column.t) (v : value) : outcome unit :=
  if negb (is_none v) then
    if DataType_eqb (Column.data_type col) INTEGER && negb (isinstance_int v)
    then Raise (ValueError ("Column '" ++ Column.name col ++ "' expects INTEGER"))
    else if DataType_eqb (Column.data_type col) REAL
            && negb (isinstance_int_float v)
    then Raise (ValueError ("Column '" ++ Column.name col ++ "' expects REAL"))
    else if DataType_eqb (Column.data_type col) BOOLEAN
            && negb (isinstance_bool v)
    then Raise (ValueError ("Column '" ++ Column.name col ++ "' expects BOOLEAN"))
    else Ok tt
  else Ok tt.

Definition duplicate_error (col_name : string) : exn :=
  ValueError ("Duplicate value for unique column '" ++ col_name ++ "'").

Fixpoint unique_scan (col_name : string) (v : value) (rs : list row)
  : outcome unit :=
  match rs with
  | [] => Ok tt
  | existing_row :: rs' =>
      if py_eq (row_get_none existing_row col_name) v
      then Raise (duplicate_error col_name)
      else unique_scan col_name v rs'
  end.

Definition unique_check (rs : list row) (col : Column.t) (v : value)
  : outcome unit :=
  if Column.is_unique col && negb (is_none v)
  then unique_scan (Column.name col) v rs
  else Ok tt.

Fixpoint validate_columns (rs : list row) (r : row) (cols : list Column.t)
  : outcome unit :=
  match cols with
  | [] => Ok tt
  | col :: cols' =>
      match row_get r (Column.name col) with
      | None =>
          if negb (Column.is_nullable col)
          then Raise (ValueError
                        ("Column '" ++ Column.name col ++ "' cannot be NULL"))
          else validate_columns rs r cols'
      | Some v =>
          do _ <- type_check col v;
          do _ <- unique_check rs col v;
          validate_columns rs r cols'
      end
  end.

Definition _validate_row (table : Table.t) (r : row) : outcome unit :=
  validate_columns (Table.rows table) r (Table.columns table).

(** *** [_evaluate_where] *)

Definition operators : list string :=
  ["="; "!="; "<"; ">"; "<="; ">="; "LIKE"; "IS NULL"; "IS NOT NULL"].

(** [all(f(p) for p in parts)] and [any(...)]: lazy, left to right. *)
Fixpoint all_of (f : string -> option (outcome bool)) (parts : list string)
  : option (outcome bool) :=
  match parts with
  | [] => Some (Ok true)
  | p :: ps =>
      match f p with
      | None => None
      | Some (Raise e) => Some (Raise e)
      | Some (Ok b) => if b then all_of f ps else Some (Ok false)
      end
  end.

Fixpoint any_of (f : string -> option (outcome bool)) (parts : list string)
  : option (outcome bool) :=
  match parts with
  | [] => Some (Ok false)
  | p :: ps =>
      match f p with
      | None => None
      | Some (Raise e) => Some (Raise e)
      | Some (Ok b) => if b then Some (Ok true) else any_of f ps
      end
  end.

Section Engine.

(** [like_match right left_val] stands for
    [bool(re.match(right.replace("%", ".*"), str(left_val or '')))]. *)
Variable like_match : string -> value -> outcome bool.

(** The loop over [operators] for a condition without AND / OR. *)
Fixpoint scan_operators (r : row) (condition : string) (ops : list string)
  : outcome bool :=
  match ops with
  | [] => Ok false
  | op :: ops' =>
      if PyStr.contains (" " ++ op ++ " ") (PyStr.upper condition) then
        match PyStr.split_once (" " ++ op ++ " ") condition with
        | (_, None) => Raise unpack_error
        | (lhs, Some rhs) =>
            let lhs := PyStr.strip lhs in
            let rhs := PyStr.strip_quote (PyStr.strip rhs) in
            let left_val := row_get_none r lhs in
            if String.eqb (PyStr.upper op) "IS NULL" then
              Ok (is_none left_val)
            else if String.eqb (PyStr.upper op) "IS NOT NULL" then
              Ok (negb (is_none left_val))
            else if String.eqb (PyStr.upper op) "LIKE" then
              like_match rhs left_val
            else
              let right_val := where_value rhs in
              if String.eqb op "=" then Ok (py_eq left_val right_val)
              else if String.eqb op "!=" then
                Ok (negb (py_eq left_val right_val))
              else if String.eqb op "<" then py_lt left_val right_val
              else if String.eqb op ">" then py_gt left_val right_val
              else if String.eqb op "<=" then py_le left_val right_val
              else if String.eqb op ">=" then py_ge left_val right_val
              else scan_operators r condition ops'
        end
      else scan_operators r condition ops'
  end.

(** The recursion of [_evaluate_where], bounded by [fuel]; [None] when
    the bound is reached. *)
Fixpoint evaluate_fuel (fuel : nat) (r : row) (condition : string)
  : option (outcome bool) :=
  match fuel with
  | O => None
  | S fuel' =>
      let condition := PyStr.strip condition in
      if PyStr.contains " AND " (PyStr.upper condition) then
        all_of (evaluate_fuel fuel' r)
          (Re.split (Re.spaced "AND") condition)
      else if PyStr.contains " OR " (PyStr.upper condition) then
        any_of (evaluate_fuel fuel' r)
          (Re.split (Re.spaced "OR") condition)
      else Some (scan_operators r condition operators)
  end.

(** Every recursive call is on a strictly shorter text (see
    [evaluate_fuel_total]), so this bound is never reached. *)
Definition _evaluate_where (r : row) (condition : string) : outcome bool :=
  match evaluate_fuel (S (String.length condition)) r condition with
  | Some o => o
  | None => Raise RecursionError
  end.

(** *** The statement patterns *)

(** The pattern of [_execute_create_table], compiled with re.DOTALL:
    the words CREATE TABLE, a name (group 1), optional blanks, and
    between parentheses any text, newlines included (group 2, greedy). *)
Definition create_table_pattern : Re.re :=
  Re.seq [Re.lit "CREATE TABLE "; Re.Grp 1 (Re.plus Re.CWord true);
          Re.Star Re.CSpace true; Re.lit "(";
          Re.Grp 2 (Re.Star (Re.CDot true) true); Re.lit ")"].

(** "INSERT INTO (\w+)\s*(?:\(([^)]+)\))?\s*VALUES\s*\(([^)]+)\)" *)
Definition insert_pattern : Re.re :=
  Re.seq [Re.lit "INSERT INTO "; Re.Grp 1 (Re.plus Re.CWord true);
          Re.Star Re.CSpace true;
          Re.Opt (Re.seq [Re.lit "(";
                          Re.Grp 2 (Re.plus (Re.CNot ")") true);
                          Re.lit ")"]);
          Re.Star Re.CSpace true; Re.lit "VALUES"; Re.Star Re.CSpace true;
          Re.lit "("; Re.Grp 3 (Re.plus (Re.CNot ")") true); Re.lit ")"].

(** "SELECT (.+?) FROM (.+?)(?: WHERE (.+?))?(?: ORDER BY (.+?))?$" *)
Definition select_pattern : Re.re :=
  Re.seq [Re.lit "SELECT "; Re.Grp 1 (Re.plus (Re.CDot false) false);
          Re.lit " FROM "; Re.Grp 2 (Re.plus (Re.CDot false) false);
          Re.Opt (Re.seq [Re.lit " WHERE ";
                          Re.Grp 3 (Re.plus (Re.CDot false) false)]);
          Re.Opt (Re.seq [Re.lit " ORDER BY ";
                          Re.Grp 4 (Re.plus (Re.CDot false) false)]);
          Re.Eos].

(** "UPDATE (\w+) SET (.+?)(?: WHERE (.+))?$" *)
Definition update_pattern : Re.re :=
  Re.seq [Re.lit "UPDATE "; Re.Grp 1 (Re.plus Re.CWord true);
          Re.lit " SET "; Re.Grp 2 (Re.plus (Re.CDot false) false);
          Re.Opt (Re.seq [Re.lit " WHERE ";
                          Re.Grp 3 (Re.plus (Re.CDot false) true)]);
          Re.Eos].

(** "DELETE FROM (\w+)(?: WHERE (.+))?$" *)
Definition delete_pattern : Re.re :=
  Re.seq [Re.lit "DELETE FROM "; Re.Grp 1 (Re.plus Re.CWord true);
          Re.Opt (Re.seq [Re.lit " WHERE ";
                          Re.Grp 2 (Re.plus (Re.CDot false) true)]);
          Re.Eos].

(** "DROP TABLE (\w+)" *)
Definition drop_table_pattern : Re.re :=
  Re.seq [Re.lit "DROP TABLE "; Re.Grp 1 (Re.plus Re.CWord true)].

(** "CREATE INDEX (\w+) ON (\w+) \((.+?)\)" *)
Definition create_index_pattern : Re.re :=
  Re.seq [Re.lit "CREATE INDEX "; Re.Grp 1 (Re.plus Re.CWord true);
          Re.lit " ON "; Re.Grp 2 (Re.plus Re.CWord true);
          Re.lit " ("; Re.Grp 3 (Re.plus (Re.CDot false) false);
          Re.lit ")"].

(** [m.group(n)] of a group that took part in every match. *)
Definition group_str (m : Re.caps) (n : nat) : string :=
  match Re.group m n with Some s => s | None => EmptyString end.

Definition group_or_empty (o : option string) : string :=
  match o with Some s => s | None => EmptyString end.

(** Truthiness of an optional group: present and not empty. *)
Definition truthy (o : option string) : bool :=
  match o with
  | Some (String _ _) => true
  | _ => false
  end.

(** *** Persistence *)

Definition _save_table (st : engine) (table_name : string)
  : engine * outcome unit :=
  match get_table st table_name with
  | None => (st, Raise (KeyError table_name))
  | Some table =>
      (set_disk st (Dict.set String.eqb (disk st) table_name table), Ok tt)
  end.

(** One snapshot file per table; every file read is stored under its
    name, a table without a file is left as it is. *)
Definition _load_tables (st : engine) : engine :=
  set_tables st
    (fold_left
       (fun ts f => Dict.set String.eqb ts (fst f) (snd f))
       (disk st) (tables st)).

(** *** CREATE TABLE *)

(** One column definition of the list; [None] for an empty one
    ([continue]). *)
Definition parse_column (col_def : string) : outcome (option Column.t) :=
  let col_def := PyStr.strip col_def in
  match col_def with
  | EmptyString => Ok None
  | _ =>
      match PyStr.split_ws col_def with
      | col_name :: type_str :: _ =>
          do data_type <- DataType_of_string (PyStr.upper type_str);
          let is_primary := PyStr.contains "PRIMARY KEY" (PyStr.upper col_def) in
          let is_unique :=
            PyStr.contains "UNIQUE" (PyStr.upper col_def) || is_primary in
          let is_nullable :=
            negb (PyStr.contains "NOT NULL" (PyStr.upper col_def)) in
          Ok (Some (Column.mk col_name data_type is_primary is_unique
                      is_nullable))
      | _ => Raise IndexError
      end
  end.

Fixpoint parse_columns (defs : list string) : outcome (list Column.t) :=
  match defs with
  | [] => Ok []
  | d :: defs' =>
      do c <- parse_column d;
      do cs <- parse_columns defs';
      Ok (match c with Some col => col :: cs | None => cs end)
  end.

Definition _execute_create_table (st : engine) (sql : string)
  : engine * outcome result :=
  match Re.rmatch create_table_pattern sql with
  | None => (st, Raise (ValueError "Invalid CREATE TABLE syntax"))
  | Some m =>
      let table_name := group_str m 1 in
      let columns_sql := PyStr.strip (group_str m 2) in
      if Dict.mem String.eqb (tables st) table_name then
        (st, Raise (ValueError ("Table '" ++ table_name ++ "' already exists")))
      else
        match parse_columns (PyStr.split_char "," columns_sql) with
        | Raise e => (st, Raise e)
        | Ok columns =>
            let st1 := put_table st table_name (Table.new table_name columns) in
            let '(st2, o) := _save_table st1 table_name in
            (st2,
             do _ <- o;
             Ok [[("status",
                   VText ("Table '" ++ table_name ++ "' created successfully"));
                  ("columns", VInt (Z.of_nat (List.length columns)))]])
        end
  end.

(** *** INSERT *)

(** [for col_name, value in zip(col_names, values): row[col_name] = value] *)
Definition make_row (col_names : list string) (values : list value) : row :=
  fold_left (fun r cv => row_set r (fst cv) (snd cv))
    (combine col_names values) [].

(** [tuple(row[col] for col in cols if col in row)] *)
Fixpoint index_key (r : row) (cols : list string) : list value :=
  match cols with
  | [] => []
  | c :: cs =>
      match row_get r c with
      | Some v => v :: index_key r cs
      | None => index_key r cs
      end
  end.

(** The index update of [_execute_insert] for the row stored at [pos]. *)
Definition index_append (r : row) (pos : nat) (idx : Index.t) : Index.t :=
  Index.mk (Index.column_names idx)
    (Index.add (Index.entries idx) (index_key r (Index.column_names idx)) pos).

Definition map_values {A : Type} (f : A -> A) (d : list (string * A))
  : list (string * A) :=
  map (fun kv => (fst kv, f (snd kv))) d.

(** [table.rows.append(row)] and the loop over [table.indexes.values()]. *)
Definition append_row (table : Table.t) (r : row) : Table.t :=
  let rows' := Table.rows table ++ [r] in
  Table.set_indexes (Table.set_rows table rows')
    (map_values (index_append r (List.length rows' - 1)) (Table.indexes table)).

(** The column names and the candidate row of an INSERT. *)
Definition insert_col_names (table : Table.t) (columns_str : option string)
  : list string :=
  if truthy columns_str
  then map PyStr.strip (PyStr.split_char "," (group_or_empty columns_str))
  else map Column.name (Table.columns table).

Definition insert_values (values_str : string) : list value :=
  map insert_value (PyStr.split_char "," values_str).

Definition _execute_insert (st : engine) (sql : string)
  : engine * outcome result :=
  match Re.rmatch insert_pattern sql with
  | None => (st, Raise (ValueError "Invalid INSERT syntax"))
  | Some m =>
      let table_name := group_str m 1 in
      let columns_str := Re.group m 2 in
      let values_str := group_str m 3 in
      match get_table st table_name with
      | None => (st, Raise (no_table table_name))
      | Some table =>
          let col_names := insert_col_names table columns_str in
          let values := insert_values values_str in
          if negb (List.length col_names =? List.length values)%nat then
            (st, Raise (ValueError "Column count doesn't match value count"))
          else
            let r := make_row col_names values in
            match _validate_row table r with
            | Raise e => (st, Raise e)
            | Ok _ =>
                let table' := append_row table r in
                let st1 := put_table st table_name table' in
                let '(st2, o) := _save_table st1 table_name in
                (st2,
                 do _ <- o;
                 Ok [[("status", VText "Row inserted successfully");
                      ("row_id",
                       VInt (Z.of_nat (List.length (Table.rows table'))))]])
            end
      end
  end.

(** *** SELECT *)

(** The FROM clause: the table names and the ON conditions. *)
Fixpoint parse_join_parts (parts : list string)
  : outcome (list string * list string) :=
  match parts with
  | [] => Ok ([], [])
  | part :: parts' =>
      if PyStr.contains " ON " (PyStr.upper part) then
        match PyStr.split_once " ON " part with
        | (_, None) => Raise unpack_error
        | (table_part, Some condition) =>
            do rest <- parse_join_parts parts';
            Ok (PyStr.strip table_part :: fst rest,
                PyStr.strip condition :: snd rest)
        end
      else
        do rest <- parse_join_parts parts';
        Ok (PyStr.strip part :: fst rest, snd rest)
  end.

Definition parse_from (from_clause : string)
  : outcome (list string * list string) :=
  if PyStr.contains " JOIN " (PyStr.upper from_clause)
  then parse_join_parts (Re.split (Re.spaced "JOIN") from_clause)
  else Ok ([from_clause], []).

Fixpoint get_table_objs (st : engine) (names : list string)
  : outcome (list Table.t) :=
  match names with
  | [] => Ok []
  | table_name :: names' =>
      match get_table st table_name with
      | None => Raise (no_table table_name)
      | Some t => do ts <- get_table_objs st names'; Ok (t :: ts)
      end
  end.

Definition select_columns (select_clause : string) (table_objs : list Table.t)
  : outcome (list string) :=
  if String.eqb select_clause "*" then
    match table_objs with
    | t0 :: _ => Ok (map Column.name (Table.columns t0))
    | [] => Raise IndexError
    end
  else Ok (map PyStr.strip (PyStr.split_char "," select_clause)).

(** [{**row1, **{f"{prefix}.{k}": v for k, v in row2.items()}}] *)
Definition joined_row (prefix : string) (row1 row2 : row) : row :=
  let qualified :=
    fold_left (fun d kv => row_set d (prefix ++ "." ++ fst kv) (snd kv))
      row2 [] in
  fold_left (fun d kv => row_set d (fst kv) (snd kv)) qualified row1.

(** The rows before WHERE: a copy of the rows of a single table, else
    the nested loop over [table_objs[0]] and [table_objs[1]]. *)
Definition materialize (names : list string) (table_objs : list Table.t)
  : outcome (list row) :=
  match table_objs with
  | [t0] => Ok (Table.rows t0)
  | t0 :: t1 :: _ =>
      Ok (flat_map
            (fun row1 =>
               map (fun row2 => joined_row (nth 1 names EmptyString) row1 row2)
                 (Table.rows t1))
            (Table.rows t0))
  | [] => Raise IndexError
  end.

Fixpoint filter_where (where_clause : string) (rs : list row)
  : outcome (list row) :=
  match rs with
  | [] => Ok []
  | r :: rs' =>
      do b <- _evaluate_where r where_clause;
      do rest <- filter_where where_clause rs';
      Ok (if b then r :: rest else rest)
  end.

(** [a < b] on tuples: the first pair of unequal items decides. *)
Fixpoint tuple_lt (a b : list value) : outcome bool :=
  match a, b with
  | x :: a', y :: b' => if py_eq x y then tuple_lt a' b' else py_lt x y
  | [], _ :: _ => Ok true
  | _, [] => Ok false
  end.

(** [x.get(col, "")] for the ORDER BY columns. *)
Definition sort_key (order_cols : list string) (r : row) : list value :=
  map (fun col => match row_get r col with
                  | Some v => v
                  | None => VText EmptyString
                  end) order_cols.

Fixpoint insert_sorted (kx : list value * row) (l : list (list value * row))
  : outcome (list (list value * row)) :=
  match l with
  | [] => Ok [kx]
  | ky :: l' =>
      do b <- tuple_lt (fst kx) (fst ky);
      if b then Ok (kx :: l)
      else do r <- insert_sorted kx l'; Ok (ky :: r)
  end.

(** [results.sort(key=...)] as a stable insertion sort.  It gives the
    list Python gives whenever the keys are pairwise comparable;
    otherwise Python raises [TypeError] too, at a pair that depends on
    its sorting algorithm. *)
Definition sort_rows (order_cols : list string) (rs : list row)
  : outcome (list row) :=
  do sorted <-
     fold_left (fun acc r => do a <- acc;
                             insert_sorted (sort_key order_cols r, r) a)
       rs (Ok []);
  Ok (map snd sorted).

(** The projection of one result row on the requested columns. *)
Definition project_row (columns : list string) (r : row) : row :=
  fold_left
    (fun final_row col =>
       match row_get r col with
       | Some v => row_set final_row col v
       | None =>
           if PyStr.contains "." col
           then row_set final_row col (row_get_none r col)
           else final_row
       end)
    columns [].

(** [_execute_select] once the statement has matched its pattern. *)
Definition select_groups (st : engine) (select_clause from_clause : string)
    (where_clause order_clause : option string) : outcome result :=
  do parsed <- parse_from from_clause;
  let names := fst parsed in
  do table_objs <- get_table_objs st names;
  do columns <- select_columns select_clause table_objs;
  do results <- materialize names table_objs;
  do results <-
     (if truthy where_clause
      then filter_where (group_or_empty where_clause) results
      else Ok results);
  do results <-
     (if truthy order_clause
      then sort_rows
             (map PyStr.strip
                (PyStr.split_char "," (group_or_empty order_clause)))
             results
      else Ok results);
  Ok (map (project_row columns) results).

Definition _execute_select (st : engine) (sql : string)
  : engine * outcome result :=
  match Re.rmatch select_pattern sql with
  | None => (st, Raise (ValueError "Invalid SELECT syntax"))
  | Some m =>
      (st, select_groups st (PyStr.strip (group_str m 1))
             (PyStr.strip (group_str m 2)) (Re.group m 3) (Re.group m 4))
  end.

(** *** Index rebuild ([SimpleRDBMS._rebuild_index]) *)

Fixpoint build_entries (cols : list string) (rs : list row) (i : nat)
    (e : list (list value * list nat)) : list (list value * list nat) :=
  match rs with
  | [] => e
  | r :: rs' => build_entries cols rs' (S i) (Index.add e (index_key r cols) i)
  end.

(** [self.tables[table_name]] is the table whose rows the caller has
    just changed; its rows are passed directly. *)
Definition _rebuild_index (rs : list row) (index : Index.t) : Index.t :=
  Index.mk (Index.column_names index)
    (build_entries (Index.column_names index) rs 0 []).

Definition rebuild_all (table : Table.t) : Table.t :=
  Table.set_indexes table
    (map_values (_rebuild_index (Table.rows table)) (Table.indexes table)).

(** *** UPDATE *)

Fixpoint parse_assignments (assignments : list string) (updates : row)
  : outcome row :=
  match assignments with
  | [] => Ok updates
  | assignment :: rest =>
      match PyStr.split_once "=" assignment with
      | (_, None) => Raise unpack_error
      | (col, Some val) =>
          parse_assignments rest
            (row_set updates (PyStr.strip col) (update_value val))
      end
  end.

(** [for j, other_row in enumerate(table.rows): if j != i and ...] *)
Fixpoint other_rows_scan (col : string) (v : value) (i j : nat)
    (rs : list row) : outcome unit :=
  match rs with
  | [] => Ok tt
  | other_row :: rs' =>
      if negb (j =? i)%nat && py_eq (row_get_none other_row col) v
      then Raise (duplicate_error col)
      else other_rows_scan col v i (S j) rs'
  end.

(** The validation of the assignments for the row at position [i]. *)
Fixpoint check_updates (columns : list Column.t) (rs : list row) (i : nat)
    (updates : row) : outcome unit :=
  match updates with
  | [] => Ok tt
  | (col, v) :: updates' =>
      match find (fun c => String.eqb (Column.name c) col) columns with
      | None => Raise (ValueError ("Column '" ++ col ++ "' does not exist"))
      | Some col_obj =>
          do _ <- (if Column.is_unique col_obj && negb (is_none v)
                   then other_rows_scan col v i 0 rs
                   else Ok tt);
          check_updates columns rs i updates'
      end
  end.

(** [row.update(updates)] *)
Definition row_update (r updates : row) : row :=
  fold_left (fun d kv => row_set d (fst kv) (snd kv)) updates r.

(** The sweep over [enumerate(table.rows)]: [done] holds the rows
    before position [i] as the sweep left them, [todo] the rows from
    [i] on.  The rows are changed in place, so the list returned is the
    content of [table.rows] also when the sweep raises. *)
Fixpoint update_sweep (columns : list Column.t) (where_clause : option string)
    (updates : row) (i : nat) (done todo : list row) (updated_count : nat)
  : list row * outcome nat :=
  match todo with
  | [] => (done, Ok updated_count)
  | r :: rest =>
      match (if negb (truthy where_clause) then Ok true
             else _evaluate_where r (group_or_empty where_clause)) with
      | Raise e => (done ++ todo, Raise e)
      | Ok false =>
          update_sweep columns where_clause updates (S i) (done ++ [r]) rest
            updated_count
      | Ok true =>
          match check_updates columns (done ++ todo) i updates with
          | Raise e => (done ++ todo, Raise e)
          | Ok _ =>
              update_sweep columns where_clause updates (S i)
                (done ++ [row_update r updates]) rest (S updated_count)
          end
      end
  end.

Definition rows_status (n : nat) (what : string) : result :=
  [[("status", VText (PyStr.of_nat n ++ " row(s) " ++ what))]].

Definition _execute_update (st : engine) (sql : string)
  : engine * outcome result :=
  match Re.rmatch update_pattern sql with
  | None => (st, Raise (ValueError "Invalid UPDATE syntax"))
  | Some m =>
      let table_name := group_str m 1 in
      let set_clause := PyStr.strip (group_str m 2) in
      let where_clause := Re.group m 3 in
      match get_table st table_name with
      | None => (st, Raise (no_table table_name))
      | Some table =>
          match parse_assignments (PyStr.split_char "," set_clause) [] with
          | Raise e => (st, Raise e)
          | Ok updates =>
              let '(rows', swept) :=
                update_sweep (Table.columns table) where_clause updates 0 []
                  (Table.rows table) 0 in
              let table1 := Table.set_rows table rows' in
              match swept with
              | Raise e => (put_table st table_name table1, Raise e)
              | Ok updated_count =>
                  if (0 <? updated_count)%nat then
                    let st1 := put_table st table_name (rebuild_all table1) in
                    let '(st2, o) := _save_table st1 table_name in
                    (st2, do _ <- o; Ok (rows_status updated_count "updated"))
                  else
                    (put_table st table_name table1,
                     Ok (rows_status updated_count "updated"))
              end
          end
      end
  end.

(** *** DELETE *)

Fixpoint rows_to_delete (where_clause : option string) (i : nat)
    (rs : list row) : outcome (list nat) :=
  match rs with
  | [] => Ok []
  | r :: rs' =>
      do b <- (if negb (truthy where_clause) then Ok true
               else _evaluate_where r (group_or_empty where_clause));
      do rest <- rows_to_delete where_clause (S i) rs';
      Ok (if b then i :: rest else rest)
  end.

(** [l.pop(i)] for a position within the list. *)
Fixpoint pop {A : Type} (i : nat) (l : list A) : list A :=
  match i, l with
  | _, [] => []
  | O, _ :: l' => l'
  | S i', x :: l' => x :: pop i' l'
  end.

(** [for i in sorted(rows_to_delete, reverse=True): table.rows.pop(i)];
    the positions were collected in increasing order. *)
Definition delete_positions (positions : list nat) (rs : list row) : list row :=
  fold_left (fun l i => pop i l) (List.rev positions) rs.

Definition _execute_delete (st : engine) (sql : string)
  : engine * outcome result :=
  match Re.rmatch delete_pattern sql with
  | None => (st, Raise (ValueError "Invalid DELETE syntax"))
  | Some m =>
      let table_name := group_str m 1 in
      let where_clause := Re.group m 2 in
      match get_table st table_name with
      | None => (st, Raise (no_table table_name))
      | Some table =>
          match rows_to_delete where_clause 0 (Table.rows table) with
          | Raise e => (st, Raise e)
          | Ok positions =>
              let deleted_count := List.length positions in
              let table1 :=
                Table.set_rows table
                  (delete_positions positions (Table.rows table)) in
              if (0 <? deleted_count)%nat then
                let st1 := put_table st table_name (rebuild_all table1) in
                let '(st2, o) := _save_table st1 table_name in
                (st2, do _ <- o; Ok (rows_status deleted_count "deleted"))
              else
                (put_table st table_name table1,
                 Ok (rows_status deleted_count "deleted"))
          end
      end
  end.

(** *** DROP TABLE and CREATE INDEX *)

Definition _execute_drop_table (st : engine) (sql : string)
  : engine * outcome result :=
  match Re.rmatch drop_table_pattern sql with
  | None => (st, Raise (ValueError "Invalid DROP TABLE syntax"))
  | Some m =>
      let table_name := group_str m 1 in
      if negb (Dict.mem String.eqb (tables st) table_name) then
        (st, Raise (no_table table_name))
      else
        let st1 := set_tables st (Dict.del String.eqb (tables st) table_name) in
        (set_disk st1 (Dict.del String.eqb (disk st1) table_name),
         Ok [[("status",
               VText ("Table '" ++ table_name ++ "' dropped successfully"))]])
  end.

Fixpoint check_index_columns (table_name : string) (columns : list Column.t)
    (column_names : list string) : outcome unit :=
  match column_names with
  | [] => Ok tt
  | col_name :: rest =>
      if existsb (fun col => String.eqb (Column.name col) col_name) columns
      then check_index_columns table_name columns rest
      else Raise (ValueError ("Column '" ++ col_name
                              ++ "' does not exist in table '"
                              ++ table_name ++ "'"))
  end.

Definition _execute_create_index (st : engine) (sql : string)
  : engine * outcome result :=
  match Re.rmatch create_index_pattern sql with
  | None => (st, Raise (ValueError "Invalid CREATE INDEX syntax"))
  | Some m =>
      let index_name := group_str m 1 in
      let table_name := group_str m 2 in
      let columns_str := group_str m 3 in
      match get_table st table_name with
      | None => (st, Raise (no_table table_name))
      | Some table =>
          let column_names :=
            map PyStr.strip (PyStr.split_char "," columns_str) in
          match check_index_columns table_name (Table.columns table)
                  column_names with
          | Raise e => (st, Raise e)
          | Ok _ =>
              let '(table', added) :=
                Table.add_index table index_name column_names in
              let st1 := put_table st table_name table' in
              match added with
              | Raise e => (st1, Raise e)
              | Ok _ =>
                  let '(st2, o) := _save_table st1 table_name in
                  (st2,
                   do _ <- o;
                   Ok [[("status",
                         VText ("Index '" ++ index_name ++ "' created on '"
                                ++ table_name ++ "'"))]])
              end
          end
      end
  end.

(** *** Transactions *)

Definition _begin_transaction (st : engine) : engine :=
  set_log (set_in_transaction st true) [].

Definition _commit_transaction (st : engine) : engine * list string :=
  let result := transaction_log st in
  (set_log (set_in_transaction st false) [], result).

Definition _rollback_transaction (st : engine) : engine :=
  _load_tables (set_log (set_in_transaction st false) []).

(** *** The entry point *)

(** [sql.strip().replace("\n", " ").replace("\t", " ")] *)
Definition normalize (sql : string) : string :=
  PyStr.replace_char "009" " " (PyStr.replace_char "010" " " (PyStr.strip sql)).

(** [if self._in_transaction: self.transaction_log.append(sql)] *)
Definition log_statement (st : engine) (sql : string) : engine :=
  if _in_transaction st then set_log st (transaction_log st ++ [sql]) else st.

(** The chain of [startswith] tests on the upper-cased statement. *)
Definition dispatch (st : engine) (sql : string) : engine * outcome result :=
  let sql_upper := PyStr.upper sql in
  if PyStr.startswith "CREATE TABLE" sql_upper then _execute_create_table st sql
  else if PyStr.startswith "INSERT" sql_upper then _execute_insert st sql
  else if PyStr.startswith "SELECT" sql_upper then _execute_select st sql
  else if PyStr.startswith "UPDATE" sql_upper then _execute_update st sql
  else if PyStr.startswith "DELETE" sql_upper then _execute_delete st sql
  else if PyStr.startswith "DROP TABLE" sql_upper then _execute_drop_table st sql
  else if PyStr.startswith "CREATE INDEX" sql_upper
  then _execute_create_index st sql
  else if PyStr.startswith "BEGIN TRANSACTION" sql_upper
          || PyStr.startswith "BEGIN" sql_upper
  then (_begin_transaction st, Ok [[("status", VText "Transaction started")]])
  else if PyStr.startswith "COMMIT" sql_upper then
    let '(st1, logged) := _commit_transaction st in
    (st1, Ok [[("status", VText "Transaction committed");
               ("operations", VInt (Z.of_nat (List.length logged)))]])
  else if PyStr.startswith "ROLLBACK" sql_upper then
    (_rollback_transaction st,
     Ok [[("status", VText "Transaction rolled back")]])
  else (st, Raise (ValueError ("Unsupported SQL command: " ++ sql))).

Definition execute_sql (st : engine) (sql : string) : engine * outcome result :=
  let sql := normalize sql in
  dispatch (log_statement st sql) sql.

(** A session: the statements run one after the other, each on the
    state the previous one left, whether it returned or raised. *)
Fixpoint run (st : engine) (sqls : list string) : engine :=
  match sqls with
  | [] => st
  | sql :: rest => run (fst (execute_sql st sql)) rest
  end.

End Engine.

(** [SimpleRDBMS(data_dir)] on a directory of snapshots. *)
Definition init (files : list (string * Table.t)) : engine :=
  _load_tables (mk [] files [] false).

End SimpleRDBMS.

(** ** Definitions used in the statements of the properties *)

(** A host function for LIKE, for the runs of the examples: patterns
    whose only special character is [%], matched as [re.match] does
    (anchored at the start only), against text, bool, int and null
    values.  The statements of the examples contain no LIKE. *)
Module Like.
Fixpoint star (f : string -> bool) (s : string) : bool :=
  f s ||
  match s with
  | EmptyString => false
  | String c s' => negb (Ascii.eqb c "010") && star f s'
  end.

Fixpoint prefix_match (p : string) : string -> bool :=
  match p with
  | EmptyString => fun _ => true
  | String c p' =>
      if Ascii.eqb c "%" then star (prefix_match p')
      else fun s =>
             match s with
             | String d s' => Ascii.eqb c d && prefix_match p' s'
             | EmptyString => false
             end
  end.

(** [str(left_val or '')] *)
Definition text_of (v : value) : outcome string :=
  match v with
  | VNone => Ok EmptyString
  | VText s => Ok s
  | VBool b => Ok (if b then "True" else EmptyString)
  | VInt z =>
      Ok (if Z.eqb z 0 then EmptyString
          else NilZero.string_of_int (Z.to_int z))
  | VFloat _ _ => Raise TypeError
  end.

Definition percent (rhs : string) (left_val : value) : outcome bool :=
  do s <- text_of left_val; Ok (prefix_match rhs s).
End Like.

Module Demo.
Import SimpleRDBMS.

Definition run := SimpleRDBMS.run Like.percent.
Definition execute_sql := SimpleRDBMS.execute_sql Like.percent.

Definition create_t : string :=
  "CREATE TABLE t (id INTEGER PRIMARY KEY, name TEXT UNIQUE)".

(** An engine started on an empty directory. *)
Definition fresh : engine := init [].

(** Table [t] with the rows (1, a) and (2, b). *)
Definition two_rows : engine :=
  run fresh [create_t; "INSERT INTO t VALUES (1,'a')";
             "INSERT INTO t VALUES (2,'b')"].

Definition rows_of (st : engine) (table_name : string) : list row :=
  match get_table st table_name with
  | Some t => Table.rows t
  | None => []
  end.

Definition persisted_rows (st : engine) (table_name : string) : list row :=
  match Dict.get String.eqb (disk st) table_name with
  | Some t => Table.rows t
  | None => []
  end.

Definition table_of (st : engine) (table_name : string) : Table.t :=
  match get_table st table_name with
  | Some t => t
  | None => Table.new table_name []
  end.

Definition id_column : Column.t := Column.mk "id" INTEGER true true true.

Definition row_1a : row := [("id", VInt 1); ("name", VText "a")].
Definition row_2b : row := [("id", VInt 2); ("name", VText "b")].
Definition row_3c : row := [("id", VInt 3); ("name", VText "c")].

(** A transaction opened on [two_rows]. *)
Definition opened : engine := fst (execute_sql two_rows "BEGIN").

(** An INSERT into a table that does not exist, written with a tab. *)
Definition tabbed_insert : string :=
  "INSERT INTO" ++ String "009" "missing VALUES (1)".

(** Table [u] with a NOT NULL column declared before an INTEGER one. *)
Definition with_u : engine :=
  run fresh ["CREATE TABLE u (id INTEGER NOT NULL, n INTEGER)"].

Definition n_column : Column.t := Column.mk "n" INTEGER false false true.
Definition id_not_null : Column.t := Column.mk "id" INTEGER false false false.
End Demo.

(** The branch of [dispatch] a statement takes. *)
Inductive kind : Type :=
| KCreateTable | KInsert | KSelect | KUpdate | KDelete | KDropTable
| KCreateIndex | KBegin | KCommit | KRollback | KUnsupported.

Definition classify (sql : string) : kind :=
  let sql_upper := PyStr.upper sql in
  if PyStr.startswith "CREATE TABLE" sql_upper then KCreateTable
  else if PyStr.startswith "INSERT" sql_upper then KInsert
  else if PyStr.startswith "SELECT" sql_upper then KSelect
  else if PyStr.startswith "UPDATE" sql_upper then KUpdate
  else if PyStr.startswith "DELETE" sql_upper then KDelete
  else if PyStr.startswith "DROP TABLE" sql_upper then KDropTable
  else if PyStr.startswith "CREATE INDEX" sql_upper then KCreateIndex
  else if PyStr.startswith "BEGIN TRANSACTION" sql_upper
          || PyStr.startswith "BEGIN" sql_upper then KBegin
  else if PyStr.startswith "COMMIT" sql_upper then KCommit
  else if PyStr.startswith "ROLLBACK" sql_upper then KRollback
  else KUnsupported.

(** The statements that only handle the transaction: the three last
    branches of [dispatch]. *)
Definition is_control (k : kind) : bool :=
  match k with
  | KBegin | KCommit | KRollback => true
  | _ => false
  end.

(** The coercion of a literal token in the words of the specification:
    integer if all-digit, else real if digits with one dot, else boolean
    if TRUE or FALSE whatever the case, else null if literally NULL, else
    the text itself. *)
Module Spec.
Fixpoint count_char (c : ascii) (s : string) : nat :=
  match s with
  | EmptyString => 0
  | String x s' => (if Ascii.eqb x c then 1 else 0) + count_char c s'
  end.

Definition all_digit (tok : string) : bool :=
  Nat.ltb 0 (String.length tok) && PyStr.all_chars PyStr.isdigit_char tok.

(** Digits and exactly one dot, with at least one digit. *)
Definition digits_with_one_dot (tok : string) : bool :=
  Nat.eqb (count_char "." tok) 1
  && PyStr.all_chars (fun c => PyStr.isdigit_char c || Ascii.eqb c ".") tok
  && Nat.ltb 1 (String.length tok).

Definition coerce (tok : string) : value :=
  if all_digit tok then VInt (PyStr.int_of tok)
  else if digits_with_one_dot tok then float_of tok
  else if String.eqb (PyStr.upper tok) "TRUE" then VBool true
  else if String.eqb (PyStr.upper tok) "FALSE" then VBool false
  else if String.eqb tok "NULL" then VNone
  else VText tok.

(** The coercion as the specification words it, on the token itself:
    the quotes are taken off a token that is kept as text, and off no
    other. *)
Definition coerce_token (tok : string) : value :=
  if all_digit tok then VInt (PyStr.int_of tok)
  else if digits_with_one_dot tok then float_of tok
  else if String.eqb (PyStr.upper tok) "TRUE" then VBool true
  else if String.eqb (PyStr.upper tok) "FALSE" then VBool false
  else if String.eqb tok "NULL" then VNone
  else VText (PyStr.strip_quote tok).
End Spec.

(** The join of the specification: the rows of the first table, crossed
    in a nested loop with the rows of each subsequent table in turn, the
    keys of a subsequent table prefixed with its name and a dot. *)
Definition cross_with (acc : list row) (named : string * Table.t) : list row :=
  flat_map
    (fun row1 =>
       map (fun row2 => SimpleRDBMS.joined_row (fst named) row1 row2)
         (Table.rows (snd named)))
    acc.

Definition join_all (names : list string) (table_objs : list Table.t)
  : list row :=
  match names, table_objs with
  | _ :: later_names, t0 :: later =>
      fold_left cross_with (combine later_names later) (Table.rows t0)
  | _, _ => []
  end.

(** The value a projected row holds for a requested column [col], as a
    function of the result row [r]. *)
Definition projected (r : row) (col : string) : option value :=
  match row_get r col with
  | Some v => Some v
  | None => if PyStr.contains "." col then Some VNone else None
  end.

(** Index consistency, as the specification states it: the entry of the
    key of every row holds the position of the row (nothing missing),
    and every position held by an entry is the position of a row with
    that key (nothing stale). *)
Definition no_missing (rs : list row) (idx : Index.t) : Prop :=
  forall p r,
    nth_error rs p = Some r ->
    exists l,
      Index.entries_get (Index.entries idx)
        (SimpleRDBMS.index_key r (Index.column_names idx)) = Some l
      /\ In p l.

Definition no_stale (rs : list row) (idx : Index.t) : Prop :=
  forall k l p,
    In (k, l) (Index.entries idx) -> In p l ->
    exists r,
      nth_error rs p = Some r
      /\ tuple_eq (SimpleRDBMS.index_key r (Index.column_names idx)) k = true.

Definition index_consistent (table : Table.t) : Prop :=
  forall index_name idx,
    Dict.get String.eqb (Table.indexes table) index_name = Some idx ->
    no_missing (Table.rows table) idx /\ no_stale (Table.rows table) idx.

(** The invariant the code maintains on success: the entries of every
    index are the ones a rebuild gives on the current rows. *)
Definition built (rs : list row) (idx : Index.t) : Prop :=
  Index.entries idx
  = SimpleRDBMS.build_entries (Index.column_names idx) rs 0 [].

Definition indexes_built (table : Table.t) : Prop :=
  Forall (fun named => built (Table.rows table) (snd named))
    (Table.indexes table).

Definition tables_built (st : SimpleRDBMS.engine) : Prop :=
  forall table_name table,
    SimpleRDBMS.get_table st table_name = Some table -> indexes_built table.

(** [Index.add] as one pass over the entries. *)
Fixpoint add_entry (e : list (list value * list nat)) (k : list value)
    (i : nat) : list (list value * list nat) :=
  match e with
  | [] => [(k, [i])]
  | (k', l) :: e' =>
      if tuple_eq k' k then (k', l ++ [i]) :: e' else (k', l) :: add_entry e' k i
  end.

(** The type-mismatch error of [_validate_row] for a column. *)
Definition expects_error (c : Column.t) : exn :=
  match Column.data_type c with
  | INTEGER => ValueError ("Column '" ++ Column.name c ++ "' expects INTEGER")
  | REAL => ValueError ("Column '" ++ Column.name c ++ "' expects REAL")
  | _ => ValueError ("Column '" ++ Column.name c ++ "' expects BOOLEAN")
  end.

(** Predicates as blank-separated words.  [join_words ws] is
    [" ".join(ws)]; a word is a non-empty text without whitespace; a
    word is the keyword [kw] when it matches it whatever the case. *)
Definition is_word (w : string) : bool :=
  Nat.ltb 0 (String.length w)
  && PyStr.all_chars (fun c => negb (PyStr.isspace_char c)) w.

Fixpoint join_words (ws : list string) : string :=
  match ws with
  | [] => EmptyString
  | w :: ws' =>
      match ws' with
      | [] => w
      | _ :: _ => (w ++ " " ++ join_words ws')%string
      end
  end.

(** [kw] is a prefix of [s], whatever the case of [s]. *)
Fixpoint ci_prefix (kw s : string) : bool :=
  match kw, s with
  | EmptyString, _ => true
  | String c kw', String x s' => Re.cls_match (Re.CLit c) x && ci_prefix kw' s'
  | String _ _, EmptyString => false
  end.

Definition is_keyword (kw w : string) : bool :=
  ci_prefix kw w && Nat.eqb (String.length w) (String.length kw).

(** A list of words none of which is the keyword. *)
Definition plain_words (kw : string) (ws : list string) : bool :=
  forallb (fun w => is_word w && negb (is_keyword kw w)) ws.

(** Puts a text in front of the first piece of a split. *)
Definition prepend (x : string) (l : list string) : list string :=
  match l with
  | [] => [x]
  | p :: ps => (x ++ p)%string :: ps
  end.

(** [a and b] and [a or b] on outcomes, the right operand being looked
    at only when the left one does not decide. *)
Definition and_then (a b : outcome bool) : outcome bool :=
  do x <- a; if x then b else Ok false.

Definition or_else (a b : outcome bool) : outcome bool :=
  do x <- a; if x then Ok true else b.

(** [all(f(p) for p in parts)] and [any(f(p) for p in parts)]. *)
Fixpoint conj_lazy (f : string -> outcome bool) (parts : list string)
  : outcome bool :=
  match parts with
  | [] => Ok true
  | p :: ps => and_then (f p) (conj_lazy f ps)
  end.

Fixpoint disj_lazy (f : string -> outcome bool) (parts : list string)
  : outcome bool :=
  match parts with
  | [] => Ok false
  | p :: ps => or_else (f p) (disj_lazy f ps)
  end.

(** What is left to match once the leading blanks are consumed. *)
Definition after_blanks {R} (kw : string) (cont : string -> option R)
    (s1 : string) : option R :=
  if ci_prefix kw s1 then
    match PyStr.drop (String.length kw) s1 with
    | String d s2 =>
        if PyStr.isspace_char d then Re.rep Re.CSpace true s2 cont else None
    | EmptyString => None
    end
  else None.

(** A keyword whose letters no whitespace character matches. *)
Definition letters (kw : string) : bool :=
  PyStr.all_chars (fun c => negb (PyStr.isspace_char (PyStr.upper_char c))) kw.

(** The characters in the pieces of a split. *)
Definition total_length (parts : list string) : nat :=
  list_sum (map String.length parts).

(** The text of the keyword in upper case. *)
Definition uppercase (kw : string) : bool :=
  PyStr.all_chars (fun c => Ascii.eqb (PyStr.upper_char c) c) kw.

(** The two states agree on the transaction log and flag. *)
Definition same_txn (a b : SimpleRDBMS.engine) : Prop :=
  SimpleRDBMS.transaction_log a = SimpleRDBMS.transaction_log b
  /\ SimpleRDBMS._in_transaction a = SimpleRDBMS._in_transaction b.

(** The results of COMMIT and ROLLBACK. *)
Definition committed (operations : nat) : SimpleRDBMS.result :=
  [[("status", VText "Transaction committed");
    ("operations", VInt (Z.of_nat operations))]].

Definition rolled_back : SimpleRDBMS.result :=
  [[("status", VText "Transaction rolled back")]].

(** An item of a row under the key prefixed for a join. *)
Definition qualify (prefix : string) (kv : string * value) : string * value :=
  ((prefix ++ "." ++ fst kv)%string, snd kv).

(** *** Sessions *)

Definition is_raise {A : Type} (o : outcome A) : bool :=
  match o with Raise _ => true | Ok _ => false end.

(** The two statements whose handler changes the table object in place
    before its last check: the sweep of UPDATE and the rebuild of
    CREATE INDEX. *)
Definition raises_midway (k : kind) : bool :=
  match k with
  | KUpdate | KCreateIndex => true
  | _ => false
  end.

(** A session in which no UPDATE and no CREATE INDEX statement raises. *)
Fixpoint clean_run (like_match : string -> value -> outcome bool)
    (st : SimpleRDBMS.engine) (sqls : list string) : bool :=
  match sqls with
  | [] => true
  | sql :: rest =>
      let after := SimpleRDBMS.execute_sql like_match st sql in
      (negb (is_raise (snd after))
       || negb (raises_midway (classify (SimpleRDBMS.normalize sql))))
      && clean_run like_match (fst after) rest
  end.

(** The catalog in memory is the snapshot directory, no name occurs
    twice, and every index is the rebuild on the rows of its table. *)
Definition settled (st : SimpleRDBMS.engine) : Prop :=
  SimpleRDBMS.tables st = SimpleRDBMS.disk st
  /\ NoDup (map fst (SimpleRDBMS.tables st))
  /\ tables_built st.

(** *** Conditions *)

(** The six comparison operators of [_evaluate_where] and the value each
    one returns for the left and the right value. *)
Definition comparison_ops : list string := ["="; "!="; "<"; ">"; "<="; ">="].

Definition compare_by (op : string) (left_val right_val : value)
  : outcome bool :=
  if String.eqb op "=" then Ok (py_eq left_val right_val)
  else if String.eqb op "!=" then Ok (negb (py_eq left_val right_val))
  else if String.eqb op "<" then py_lt left_val right_val
  else if String.eqb op ">" then py_gt left_val right_val
  else if String.eqb op "<=" then py_le left_val right_val
  else if String.eqb op ">=" then py_ge left_val right_val
  else Ok false.

(** A text without the blank character. *)
Definition no_blank (s : string) : bool :=
  PyStr.all_chars (fun c => negb (Ascii.eqb c " ")) s.

(** A text of characters of the ASCII range. *)
Definition ascii_text (s : string) : bool :=
  PyStr.all_chars (fun c => Nat.ltb (PyStr.nat_of c) 128) s.

(** A text that neither begins nor ends with a character of [p]. *)
Definition bare (p : ascii -> bool) (s : string) : bool :=
  match s with
  | EmptyString => true
  | String a _ => negb (p a)
  end
  && match PyStr.rev s with
     | EmptyString => true
     | String z _ => negb (p z)
     end.

(** A comparison of a column with a literal: three words, none of them
    AND or OR, the one in the middle a comparison operator. *)
Definition comparison (a op b : string) : bool :=
  plain_words "AND" [a; op; b] && plain_words "OR" [a; op; b]
  && existsb (String.eqb op) comparison_ops.

(** What the comparison [a op b] says of a row: the value held for [a],
    null when the row has no such key, against the coerced literal. *)
Definition holds (r : row) (a op b : string) : outcome bool :=
  compare_by op (row_get_none r a) (Spec.coerce (PyStr.strip_quote b)).

(** *** Sweeps *)

(** The test of the sweeps of UPDATE and DELETE on one row: every row
    without a condition, else the rows on which the condition holds. *)
Definition selected (like_match : string -> value -> outcome bool)
    (where_clause : option string) (r : row) : bool :=
  match (if negb (SimpleRDBMS.truthy where_clause) then Ok true
         else SimpleRDBMS._evaluate_where like_match r
                (SimpleRDBMS.group_or_empty where_clause)) with
  | Ok b => b
  | Raise _ => false
  end.

(** *** Unique columns *)

(** No two rows hold values that are equal, other than null, under the
    key [col]. *)
Definition distinct_on (col : string) (rs : list row) : Prop :=
  forall i j ri rj,
    nth_error rs i = Some ri -> nth_error rs j = Some rj -> i <> j ->
    row_get_none ri col <> VNone ->
    py_eq (row_get_none ri col) (row_get_none rj col) = false.

(** Inputs of the examples of the further properties. *)
Module Sample.
Import SimpleRDBMS.

Definition name_column : Column.t := Column.mk "name" TEXT false true true.

(** A session on an empty directory; the third INSERT raises. *)
Definition session : list string :=
  [Demo.create_t; "INSERT INTO t VALUES (1,'a')"; "INSERT INTO t VALUES (2,'b')";
   "INSERT INTO t VALUES (1,'c')"; "UPDATE t SET name = 'z' WHERE id = 1";
   "DELETE FROM t WHERE id = 2"; "BEGIN"; "INSERT INTO t VALUES (3,'c')";
   "ROLLBACK"].

(** Table [t] with a third row that has no key [name]. *)
Definition partial : engine :=
  Demo.run Demo.two_rows ["INSERT INTO t (id) VALUES (3)"].
End Sample.

(** ** The callers of the engine: [TodoApp], [main], [WebRDBMS] *)

(** A triple-quoted literal, line by line: [lines l] is the lines of [l]
    joined by newline characters. *)
Fixpoint lines (l : list string) : string :=
  match l with
  | [] => EmptyString
  | [x] => x
  | x :: l' => (x ++ String "010" (lines l'))%string
  end.

(** [str(z)] for an int. *)
Definition str_int (z : Z) : string :=
  if (z <? 0)%Z then ("-" ++ PyStr.of_nat (Z.to_nat (- z)))%string
  else PyStr.of_nat (Z.to_nat z).

(** [bool(v)] *)
Definition py_truth (v : value) : bool :=
  match v with
  | VNone => false
  | VBool b => b
  | VInt z => negb (Z.eqb z 0)
  | VFloat m _ => negb (Z.eqb m 0)
  | VText s => negb (String.eqb s EmptyString)
  end.

(** [sep.join(l)] *)
Fixpoint join (sep : string) (l : list string) : string :=
  match l with
  | [] => EmptyString
  | [x] => x
  | x :: l' => (x ++ sep ++ join sep l')%string
  end.

Module TodoApp.
Import SimpleRDBMS.

(** The statement of [_init_database]. *)
Definition create_todos : string :=
  lines
    [EmptyString;
     "                CREATE TABLE todos (";
     "                    id INTEGER PRIMARY KEY,";
     "                    title TEXT NOT NULL,";
     "                    description TEXT,";
     "                    completed BOOLEAN DEFAULT FALSE,";
     "                    created_at TEXT,";
     "                    priority INTEGER DEFAULT 3";
     "                )";
     "            "].

(** The statement of [get_all_todos]. *)
Definition select_todos : string :=
  lines
    [EmptyString;
     "            SELECT * FROM todos ";
     "            ORDER BY ";
     "                CASE WHEN completed THEN 1 ELSE 0 END,";
     "                priority,";
     "                created_at DESC";
     "        "].

(** The f-string of [update_todo], its two fields as texts. *)
Definition update_statement (set_clause todo_id : string) : string :=
  lines
    [EmptyString;
     "            UPDATE todos ";
     ("            SET " ++ set_clause)%string;
     ("            WHERE id = " ++ todo_id)%string;
     "        "].

(** The f-string of [add_todo], its five fields as texts. *)
Definition insert_statement
    (next_id title description created_at priority : string) : string :=
  lines
    [EmptyString;
     "            INSERT INTO todos (id, title, description, completed, created_at, priority)";
     ("            VALUES (" ++ next_id ++ ", '" ++ title ++ "', '"
      ++ description ++ "', FALSE, '" ++ created_at ++ "', " ++ priority
      ++ ")")%string;
     "        "].

(** A keyword argument of [update_todo]: a str, or another value given
    by the text [str] makes of it. *)
Inductive kwarg : Type :=
| Str (s : string)
| NotStr (shown : string).

(** [", ".join([f"{k} = '{v}'" if isinstance(v, str) else f"{k} = {v}" ...])] *)
Definition set_clause_of (updates : list (string * kwarg)) : string :=
  join ", "
    (map (fun kv =>
            match snd kv with
            | Str v => (fst kv ++ " = '" ++ v ++ "'")%string
            | NotStr v => (fst kv ++ " = " ++ v)%string
            end) updates).

Section App.
Variable like_match : string -> value -> outcome bool.

(** [try: ... except: pass] *)
Definition _init_database (st : engine) : engine :=
  fst (execute_sql like_match st create_todos).

(** [TodoApp()] on the snapshot files of its data directory. *)
Definition new (files : list (string * Table.t)) : engine :=
  _init_database (init files).

Definition get_all_todos (st : engine) : engine * outcome result :=
  execute_sql like_match st select_todos.

(** [results[0] if results else None] *)
Definition get_todo (st : engine) (todo_id : Z)
  : engine * outcome (option row) :=
  let '(st1, o) :=
    execute_sql like_match st
      ("SELECT * FROM todos WHERE id = " ++ str_int todo_id) in
  (st1, do results <- o; Ok (hd_error results)).

Definition update_todo (st : engine) (todo_id : Z)
    (updates : list (string * kwarg)) : engine * outcome (option row) :=
  match updates with
  | [] => (st, Ok None)
  | _ :: _ =>
      let '(st1, o) :=
        execute_sql like_match st
          (update_statement (set_clause_of updates) (str_int todo_id)) in
      match o with
      | Raise e => (st1, Raise e)
      | Ok _ => get_todo st1 todo_id
      end
  end.

Definition delete_todo (st : engine) (todo_id : Z) : engine * outcome bool :=
  let '(st1, o) :=
    execute_sql like_match st
      ("DELETE FROM todos WHERE id = " ++ str_int todo_id) in
  (st1, do _ <- o; Ok true).

Definition toggle_todo (st : engine) (todo_id : Z)
  : engine * outcome (option row) :=
  let '(st1, o) := get_todo st todo_id in
  match o with
  | Raise e => (st1, Raise e)
  | Ok None => (st1, Ok None)
  | Ok (Some []) => (st1, Ok None)
  | Ok (Some ((_ :: _) as todo)) =>
      match row_get todo "completed" with
      | None => (st1, Raise (KeyError "completed"))
      | Some completed =>
          let new_status := negb (py_truth completed) in
          update_todo st1 todo_id
            [("completed", NotStr (if new_status then "True" else "False"))]
      end
  end.
End App.
End TodoApp.

(** The columns that [_init_database] declares. *)
Definition todos_columns : list Column.t :=
  [Column.mk "id" INTEGER true true true;
   Column.mk "title" TEXT false false false;
   Column.mk "description" TEXT false false true;
   Column.mk "completed" BOOLEAN false false true;
   Column.mk "created_at" TEXT false false true;
   Column.mk "priority" INTEGER false false true].

(** The values of the statement of [add_todo], between the parentheses. *)
Definition insert_fields
    (next_id title description created_at priority : string) : string :=
  (next_id ++ ", '" ++ title ++ "', '" ++ description ++ "', FALSE, '"
   ++ created_at ++ "', " ++ priority)%string.

(** A text after the two replacements of [execute_sql]. *)
Definition blanked (s : string) : string :=
  PyStr.replace_char "009" " " (PyStr.replace_char "010" " " s).

(** A text without a closing parenthesis. *)
Definition no_paren (s : string) : bool :=
  PyStr.all_chars (fun c => negb (Ascii.eqb c ")")) s.

(** A todo application for the properties at concrete inputs. *)
Module TodoDemo.
Import SimpleRDBMS.

(** Started on an empty directory, with two todos. *)
Definition app : engine :=
  Demo.run (TodoApp.new Like.percent [])
    ["INSERT INTO todos VALUES (1, 'milk', 'two litres', FALSE, 'monday', 2)";
     "INSERT INTO todos VALUES (2, 'eggs', 'a dozen', TRUE, 'tuesday', 1)"].

Definition milk : row :=
  [("id", VInt 1); ("title", VText "milk"); ("description", VText "two litres");
   ("completed", VBool false); ("created_at", VText "monday");
   ("priority", VInt 2)].

Definition eggs : row :=
  [("id", VInt 2); ("title", VText "eggs"); ("description", VText "a dozen");
   ("completed", VBool true); ("created_at", VText "tuesday");
   ("priority", VInt 1)].

(** A table todos without the columns of the application, with one row
    that holds an id only. *)
Definition odd : engine :=
  Demo.run Demo.fresh
    ["CREATE TABLE todos (a TEXT)"; "INSERT INTO todos (id) VALUES (1)"].
End TodoDemo.

(** The sample data of [main] in web mode:
    [try: execute_sql(...); execute_sql(...) except: pass]. *)
Module Main.
Import SimpleRDBMS.

Definition create_users : string :=
  lines
    [EmptyString;
     "                CREATE TABLE IF NOT EXISTS users (";
     "                    id INTEGER PRIMARY KEY,";
     "                    name TEXT NOT NULL,";
     "                    email TEXT UNIQUE,";
     "                    age INTEGER";
     "                )";
     "            "].

Definition insert_users : string :=
  lines
    [EmptyString;
     "                INSERT INTO users VALUES ";
     "                (1, 'Alice Johnson', 'alice@example.com', 28),";
     "                (2, 'Bob Smith', 'bob@example.com', 32),";
     "                (3, 'Charlie Brown', 'charlie@example.com', 25)";
     "            "].

Definition sample_data (like_match : string -> value -> outcome bool)
    (st : engine) : engine :=
  match execute_sql like_match st create_users with
  | (st1, Raise _) => st1
  | (st1, Ok _) => fst (execute_sql like_match st1 insert_users)
  end.
End Main.
(** [WebRDBMS]: the request handler.  The JSON object of a response is
    a [payload]; the body of a POST request is a JSON object with text
    values. *)
Module WebRDBMS.
Import SimpleRDBMS.

Inductive payload : Type :=
| TablesInfo (tables : list (string * nat * nat))
    (* "tables": a list of "name", "columns", "rows" *)
| Results (results : result)                    (* "results" *)
| TableRows (table : string) (columns : list string) (rows : result)
    (* "table", "columns", "rows" *)
| ErrorText (message : string)                  (* "error": a literal text *)
| ErrorOf (e : exn).                            (* "error": str(e) *)

Section Requests.
Variable like_match : string -> value -> outcome bool.

Definition handle_request (st : engine) (path method : string)
    (data : list (string * string)) : engine * (nat * payload) :=
  if String.eqb path "/api/tables" && String.eqb method "GET" then
    (st,
     (200,
      TablesInfo
        (map (fun named =>
                (fst named, List.length (Table.columns (snd named)),
                 List.length (Table.rows (snd named))))
           (tables st))))
  else if String.eqb path "/api/query" && String.eqb method "POST" then
    let sql :=
      match Dict.get String.eqb data "sql" with
      | Some s => s
      | None => EmptyString
      end in
    match sql with
    | EmptyString => (st, (400, ErrorText "SQL query required"))
    | _ =>
        match execute_sql like_match st sql with
        | (st1, Ok results) => (st1, (200, Results results))
        | (st1, Raise e) => (st1, (400, ErrorOf e))
        end
    end
  else if PyStr.startswith "/api/table/" path && String.eqb method "GET" then
    let table_name := List.last (PyStr.split_char "/" path) EmptyString in
    if negb (Dict.mem String.eqb (tables st) table_name) then
      (st, (404, ErrorText ("Table '" ++ table_name ++ "' not found")))
    else
      match execute_sql like_match st ("SELECT * FROM " ++ table_name) with
      | (st1, Raise e) => (st1, (400, ErrorOf e))
      | (st1, Ok results) =>
          match get_table st1 table_name with
          | None => (st1, (400, ErrorOf (KeyError table_name)))
          | Some table =>
              (st1,
               (200,
                TableRows table_name (map Column.name (Table.columns table))
                  results))
          end
      end
  else (st, (404, ErrorText "Not found")).
End Requests.
End WebRDBMS.


(** ** Properties *)

Set Default Proof Using "Type".

(** *** Strings *)

Lemma append_assoc a b c : ((a ++ b) ++ c)%string = (a ++ (b ++ c))%string.
Proof. induction a as [|x a IH]; simpl; [reflexivity | rewrite IH; reflexivity]. Qed.

Lemma length_append a b :
  String.length (a ++ b) = String.length a + String.length b.
Proof. induction a as [|x a IH]; simpl; [reflexivity | rewrite IH; reflexivity]. Qed.

Lemma rev_acc_app s : forall acc,
  PyStr.rev_acc s acc = (PyStr.rev_acc s EmptyString ++ acc)%string.
Proof.
  induction s as [|c s IH]; intros acc; simpl; [reflexivity|].
  rewrite (IH (String c acc)), (IH (String c EmptyString)).
  rewrite append_assoc. reflexivity.
Qed.

Lemma rev_cons c s :
  PyStr.rev (String c s) = (PyStr.rev s ++ String c EmptyString)%string.
Proof. unfold PyStr.rev. simpl. apply rev_acc_app. Qed.

Lemma append_empty_r s : (s ++ EmptyString)%string = s.
Proof. induction s as [|c s IH]; simpl; [reflexivity | rewrite IH; reflexivity]. Qed.

Lemma rev_app a b : PyStr.rev (a ++ b) = (PyStr.rev b ++ PyStr.rev a)%string.
Proof.
  induction a as [|c a IH]; simpl.
  - rewrite append_empty_r. reflexivity.
  - rewrite !rev_cons, IH, append_assoc. reflexivity.
Qed.

Lemma rev_involutive s : PyStr.rev (PyStr.rev s) = s.
Proof.
  induction s as [|c s IH]; [reflexivity|].
  rewrite rev_cons, rev_app, IH. reflexivity.
Qed.

Lemma rev_length s : String.length (PyStr.rev s) = String.length s.
Proof.
  induction s as [|c s IH]; [reflexivity|].
  rewrite rev_cons, length_append, IH. simpl. lia.
Qed.

Lemma lstrip_length p s :
  String.length (PyStr.lstrip_by p s) <= String.length s.
Proof.
  induction s as [|c s IH]; simpl; [lia|].
  destruct (p c); simpl; lia.
Qed.

Lemma strip_length s : String.length (PyStr.strip s) <= String.length s.
Proof.
  unfold PyStr.strip, PyStr.strip_by. rewrite rev_length.
  etransitivity; [apply lstrip_length|]. rewrite rev_length.
  apply lstrip_length.
Qed.

(** A text that neither begins nor ends with whitespace is its own strip. *)
Lemma strip_id a body z :
  PyStr.isspace_char a = false -> PyStr.isspace_char z = false ->
  PyStr.strip (String a (body ++ String z EmptyString))
  = String a (body ++ String z EmptyString).
Proof.
  intros Ha Hz. unfold PyStr.strip, PyStr.strip_by.
  simpl PyStr.lstrip_by at 2. rewrite Ha.
  rewrite rev_cons, rev_app. simpl PyStr.rev at 1.
  change (PyStr.rev (String z EmptyString)) with (String z EmptyString).
  simpl. rewrite Hz.
  change (String z (PyStr.rev body ++ String a EmptyString))
    with (String z EmptyString ++ (PyStr.rev body ++ String a EmptyString))%string.
  rewrite rev_app, rev_app, rev_involutive. reflexivity.
Qed.

Lemma strip_single a :
  PyStr.isspace_char a = false ->
  PyStr.strip (String a EmptyString) = String a EmptyString.
Proof.
  intros Ha. unfold PyStr.strip, PyStr.strip_by. simpl. rewrite Ha.
  simpl. rewrite Ha. reflexivity.
Qed.

Lemma upper_app a b : PyStr.upper (a ++ b) = (PyStr.upper a ++ PyStr.upper b)%string.
Proof. induction a as [|c a IH]; simpl; [reflexivity | rewrite IH; reflexivity]. Qed.

Lemma startswith_app p s : PyStr.startswith p (p ++ s) = true.
Proof.
  induction p as [|c p IH]; simpl; [reflexivity|].
  rewrite Ascii.eqb_refl. exact IH.
Qed.

Lemma contains_app_r p a b :
  PyStr.contains p b = true -> PyStr.contains p (a ++ b) = true.
Proof.
  intros H. induction a as [|c a IH]; simpl; [exact H|].
  rewrite IH. apply orb_true_r.
Qed.

Lemma space_is_not_changed x :
  PyStr.isspace_char x = true -> PyStr.upper_char x = x.
Proof.
  destruct x as [[] [] [] [] [] [] [] []]; vm_compute; congruence.
Qed.

Lemma upper_space_is_space x :
  PyStr.upper_char x = " "%char -> x = " "%char.
Proof.
  destruct x as [[] [] [] [] [] [] [] []]; vm_compute; congruence.
Qed.

(** *** The keyword pattern: blanks, keyword, blanks *)

Lemma rep_ext {R} k g s (c1 c2 : string -> option R) :
  (forall t, c1 t = c2 t) -> Re.rep k g s c1 = Re.rep k g s c2.
Proof.
  intros E. induction s as [|x s IH]; simpl; [apply E|].
  rewrite IH, E. reflexivity.
Qed.

(** A greedy run whose continuation always answers ends somewhere in
    the text. *)
Lemma rep_greedy_total {R} k s (cont : string -> option R) :
  (forall t, cont t <> None) ->
  exists t, Re.rep k true s cont = cont t /\ String.length t <= String.length s.
Proof.
  intros T. induction s as [|x s IH]; simpl.
  - exists EmptyString. auto.
  - destruct (Re.cls_match k x).
    + destruct IH as [t [E L]]. rewrite E.
      destruct (cont t) eqn:C; [|destruct (T t C)].
      exists t. rewrite C. split; [reflexivity | lia].
    + exists (String x s). auto.
Qed.

Lemma run_lit {R} kw : forall s c (cont : string -> Re.caps -> option R),
  Re.run (Re.lit kw) s c cont
  = if ci_prefix kw s then cont (PyStr.drop (String.length kw) s) c else None.
Proof.
  induction kw as [|k kw IH]; intros s c cont;
    cbn [Re.lit Re.run ci_prefix String.length PyStr.drop].
  - destruct s; reflexivity.
  - destruct s as [|x s]; [reflexivity|].
    destruct (Re.cls_match (Re.CLit k) x); [apply IH | reflexivity].
Qed.

Lemma run_spaced {R} kw s (cont : string -> Re.caps -> option R) :
  Re.run (Re.spaced kw) s [] cont
  = match s with
    | String x s' =>
        if PyStr.isspace_char x
        then Re.rep Re.CSpace true s' (after_blanks kw (fun t => cont t []))
        else None
    | EmptyString => None
    end.
Proof.
  unfold Re.spaced, Re.seq, Re.plus. simpl.
  destruct s as [|x s]; [reflexivity|].
  destruct (PyStr.isspace_char x); [|reflexivity].
  apply rep_ext. intros t. rewrite run_lit. unfold after_blanks.
  destruct (ci_prefix kw t); [|reflexivity].
  destruct (PyStr.drop (String.length kw) t) as [|d s2]; reflexivity.
Qed.

Lemma match_len_spaced kw s :
  Re.match_len (Re.spaced kw) s
  = match s with
    | String x s' =>
        if PyStr.isspace_char x
        then Re.rep Re.CSpace true s'
               (after_blanks kw
                  (fun t => Some (String.length s - String.length t)))
        else None
    | EmptyString => None
    end.
Proof. unfold Re.match_len. apply run_spaced. Qed.

(** No match starts at a character that is not whitespace. *)
Lemma no_match_at_nonspace kw x s :
  PyStr.isspace_char x = false ->
  Re.match_len (Re.spaced kw) (String x s) = None.
Proof. intros H. rewrite match_len_spaced, H. reflexivity. Qed.

Lemma letter_is_not_space c x :
  PyStr.isspace_char (PyStr.upper_char c) = false ->
  Re.cls_match (Re.CLit c) x = true -> PyStr.isspace_char x = false.
Proof.
  intros Hc M. simpl in M. apply Ascii.eqb_eq in M.
  destruct (PyStr.isspace_char x) eqn:S; [|reflexivity].
  rewrite (space_is_not_changed x S) in M. congruence.
Qed.

Lemma ci_prefix_app kw : forall k t,
  ci_prefix kw k = true -> ci_prefix kw (k ++ t) = true.
Proof.
  induction kw as [|c kw IH]; intros k t H; [reflexivity|].
  destruct k as [|x k]; [discriminate H|].
  cbn [ci_prefix String.append] in *.
  apply andb_prop in H. destruct H as [H1 H2].
  rewrite H1, (IH k t H2). reflexivity.
Qed.

Lemma drop_app_length k t : PyStr.drop (String.length k) (k ++ t) = t.
Proof. induction k as [|x k IH]; simpl; auto. Qed.

Lemma drop_length n : forall s d s2,
  PyStr.drop n s = String d s2 -> String.length s = n + S (String.length s2).
Proof.
  induction n as [|n IH]; intros s d s2 H; simpl in H.
  - subst s. reflexivity.
  - destruct s as [|x s]; [discriminate H|]. simpl. rewrite (IH s d s2 H). reflexivity.
Qed.

Lemma rep_at_nonspace {R} x s (cont : string -> option R) :
  PyStr.isspace_char x = false ->
  Re.rep Re.CSpace true (String x s) cont = cont (String x s).
Proof. intros H. simpl. rewrite H. reflexivity. Qed.

(** The keyword between two blanks, followed by a character that is
    not whitespace, is matched as it stands. *)
Lemma match_at_keyword kw k c rest :
  letters kw = true -> 0 < String.length kw ->
  is_keyword kw k = true -> PyStr.isspace_char c = false ->
  Re.match_len (Re.spaced kw) (" " ++ k ++ " " ++ String c rest)
  = Some (String.length k + 2).
Proof.
  intros Hl Hn Hk Hc. unfold is_keyword in Hk.
  apply andb_prop in Hk. destruct Hk as [Hp Hlen]. apply Nat.eqb_eq in Hlen.
  rewrite match_len_spaced.
  change (" " ++ k ++ " " ++ String c rest)%string
    with (String " " (k ++ String " " (String c rest))).
  change (PyStr.isspace_char " ") with true. cbv iota.
  destruct kw as [|k0 kw]; [simpl in Hn; lia|].
  destruct k as [|x k]; [discriminate Hp|].
  assert (Hx : PyStr.isspace_char x = false).
  { cbn [ci_prefix] in Hp. apply andb_prop in Hp. destruct Hp as [Hp _].
    unfold letters in Hl. cbn [PyStr.all_chars] in Hl.
    apply andb_prop in Hl. destruct Hl as [Hl _].
    apply negb_true_iff in Hl. apply (letter_is_not_space k0 x Hl Hp). }
  cbn [String.append]. rewrite (rep_at_nonspace x _ _ Hx).
  unfold after_blanks.
  change (String x (k ++ String " " (String c rest)))
    with (String x k ++ String " " (String c rest))%string.
  rewrite (ci_prefix_app _ _ _ Hp), <- Hlen, drop_app_length.
  change (PyStr.isspace_char " ") with true. cbv iota.
  rewrite (rep_at_nonspace c rest _ Hc).
  f_equal. cbn [String.length]. rewrite length_append. cbn [String.length]. lia.
Qed.

(** A word that starts like the keyword is the keyword or goes on with
    a character that is not whitespace. *)
Lemma prefix_of_word kw : forall w tail,
  letters kw = true ->
  PyStr.all_chars (fun c => negb (PyStr.isspace_char c)) w = true ->
  (tail = EmptyString
   \/ exists d t, tail = String d t /\ PyStr.isspace_char d = true) ->
  ci_prefix kw (w ++ tail) = true ->
  is_keyword kw w = true
  \/ exists d s2,
      PyStr.drop (String.length kw) (w ++ tail) = String d s2
      /\ PyStr.isspace_char d = false.
Proof.
  induction kw as [|k kw IH]; intros w tail Hl Hw Ht Hp.
  - destruct w as [|a w]; [left; reflexivity|].
    right. exists a, (w ++ tail)%string. split; [reflexivity|].
    cbn [PyStr.all_chars] in Hw. apply andb_prop in Hw. destruct Hw as [Hw _].
    apply negb_true_iff in Hw. exact Hw.
  - unfold letters in Hl. cbn [PyStr.all_chars] in Hl.
    apply andb_prop in Hl. destruct Hl as [Hk Hl]. apply negb_true_iff in Hk.
    destruct w as [|a w].
    + exfalso. cbn [String.append] in Hp.
      destruct Ht as [->|[d [t [-> Hd]]]]; [discriminate Hp|].
      cbn [ci_prefix] in Hp. apply andb_prop in Hp. destruct Hp as [Hp _].
      rewrite (letter_is_not_space k d Hk Hp) in Hd. discriminate Hd.
    + cbn [String.append ci_prefix] in Hp.
      apply andb_prop in Hp. destruct Hp as [Hp1 Hp2].
      cbn [PyStr.all_chars] in Hw. apply andb_prop in Hw. destruct Hw as [_ Hw].
      destruct (IH w tail Hl Hw Ht Hp2) as [K|[d [s2 [D Hd]]]].
      * left. unfold is_keyword in *. cbn [ci_prefix String.length].
        rewrite Hp1. exact K.
      * right. exists d, s2. split; [exact D | exact Hd].
Qed.

(** No match starts at a blank followed by a word that is not the
    keyword. *)
Lemma no_match_before_word kw x w tail :
  letters kw = true -> is_word w = true -> is_keyword kw w = false ->
  (tail = EmptyString
   \/ exists d t, tail = String d t /\ PyStr.isspace_char d = true) ->
  Re.match_len (Re.spaced kw) (String x (w ++ tail)) = None.
Proof.
  intros Hl Hw Hk Ht. rewrite match_len_spaced.
  destruct (PyStr.isspace_char x); [|reflexivity].
  unfold is_word in Hw. apply andb_prop in Hw. destruct Hw as [Hn Hw].
  destruct w as [|a w]; [discriminate Hn|].
  assert (Ha : PyStr.isspace_char a = false).
  { cbn [PyStr.all_chars] in Hw. apply andb_prop in Hw. destruct Hw as [Ha _].
    apply negb_true_iff in Ha. exact Ha. }
  cbn [String.append]. rewrite (rep_at_nonspace a _ _ Ha).
  unfold after_blanks.
  change (String a (w ++ tail)) with (String a w ++ tail)%string.
  destruct (ci_prefix kw (String a w ++ tail)) eqn:P; [|reflexivity].
  destruct (prefix_of_word kw (String a w) tail Hl Hw Ht P) as [K|[d [s2 [D Hd]]]].
  - rewrite K in Hk. discriminate Hk.
  - rewrite D, Hd. reflexivity.
Qed.

(** *** Splitting at a keyword *)

Lemma split_aux_not_nil r s : forall skip, Re.split_aux r s skip <> [].
Proof.
  induction s as [|c s IH]; intros skip; simpl; [discriminate|].
  destruct skip as [|n]; [|apply IH].
  destruct (Re.match_len r (String c s)) as [[|n]|];
    try discriminate;
    destruct (Re.split_aux r s 0) eqn:E; try discriminate;
    destruct (IH 0 E).
Qed.

Lemma prepend_empty l : l <> [] -> prepend EmptyString l = l.
Proof. destruct l; [congruence | reflexivity]. Qed.

Lemma cons_head_prepend c x l :
  PyStr.cons_head c (prepend x l) = prepend (String c x) l.
Proof. destruct l; reflexivity. Qed.

Lemma prepend_prepend a b l : prepend a (prepend b l) = prepend (a ++ b) l.
Proof. destruct l; simpl; rewrite ?append_assoc; reflexivity. Qed.

Lemma split_nonspace_prefix kw w rest :
  PyStr.all_chars (fun c => negb (PyStr.isspace_char c)) w = true ->
  Re.split_aux (Re.spaced kw) (w ++ rest) 0
  = prepend w (Re.split_aux (Re.spaced kw) rest 0).
Proof.
  induction w as [|a w IH]; intros Hw.
  - symmetry. apply prepend_empty, split_aux_not_nil.
  - cbn [PyStr.all_chars] in Hw. apply andb_prop in Hw. destruct Hw as [Ha Hw].
    apply negb_true_iff in Ha.
    cbn [String.append Re.split_aux].
    rewrite (no_match_at_nonspace kw a _ Ha), (IH Hw).
    apply cons_head_prepend.
Qed.

Lemma split_skip r p rest :
  Re.split_aux r (p ++ rest) (String.length p) = Re.split_aux r rest 0.
Proof. induction p as [|c p IH]; simpl; auto. Qed.

Lemma plain_head kw w ws :
  plain_words kw (w :: ws) = true ->
  is_word w = true /\ is_keyword kw w = false /\ plain_words kw ws = true.
Proof.
  unfold plain_words. cbn [forallb]. intros H.
  apply andb_prop in H. destruct H as [H1 H2].
  apply andb_prop in H1. destruct H1 as [H1 H3].
  apply negb_true_iff in H3. auto.
Qed.

Lemma word_chars w :
  is_word w = true ->
  PyStr.all_chars (fun c => negb (PyStr.isspace_char c)) w = true.
Proof. unfold is_word. intros H. apply andb_prop in H. apply H. Qed.

Lemma word_head w :
  is_word w = true ->
  exists c rest, w = String c rest /\ PyStr.isspace_char c = false.
Proof.
  unfold is_word. intros H. apply andb_prop in H. destruct H as [Hn Hw].
  destruct w as [|c w]; [discriminate Hn|].
  cbn [PyStr.all_chars] in Hw. apply andb_prop in Hw. destruct Hw as [Hc _].
  apply negb_true_iff in Hc. eauto.
Qed.

Lemma join_head kw ws :
  plain_words kw ws = true -> ws <> [] ->
  exists c rest, join_words ws = String c rest /\ PyStr.isspace_char c = false.
Proof.
  destruct ws as [|w ws]; [congruence|]. intros H _.
  destruct (plain_head kw w ws H) as (Hw & _ & _).
  destruct (word_head w Hw) as (c & rest & -> & Hc).
  destruct ws; cbn [join_words String.append]; eauto.
Qed.

(** No match starts inside a run of words none of which is the keyword,
    when the run ends the text or is followed by whitespace. *)
Lemma split_words kw : forall ws tail,
  letters kw = true -> plain_words kw ws = true -> ws <> [] ->
  (tail = EmptyString
   \/ exists d t, tail = String d t /\ PyStr.isspace_char d = true) ->
  Re.split_aux (Re.spaced kw) (join_words ws ++ tail) 0
  = prepend (join_words ws) (Re.split_aux (Re.spaced kw) tail 0).
Proof.
  induction ws as [|w ws IH]; intros tail Hl Hp Hne Ht; [congruence|].
  destruct (plain_head kw w ws Hp) as (Hw & Hk & Hps).
  destruct ws as [|w2 ws].
  - cbn [join_words]. apply split_nonspace_prefix, word_chars, Hw.
  - change (join_words (w :: w2 :: ws))
      with (w ++ " " ++ join_words (w2 :: ws))%string.
    rewrite append_assoc.
    rewrite (split_nonspace_prefix kw w _ (word_chars w Hw)).
    change ((" " ++ join_words (w2 :: ws)) ++ tail)%string
      with (String " " (join_words (w2 :: ws) ++ tail)).
    assert (N : Re.match_len (Re.spaced kw)
                  (String " " (join_words (w2 :: ws) ++ tail)) = None).
    { destruct (plain_head kw w2 ws Hps) as (Hw2 & Hk2 & _).
      destruct ws as [|w3 ws].
      - cbn [join_words]. apply (no_match_before_word kw " " w2 tail Hl Hw2 Hk2 Ht).
      - change (join_words (w2 :: w3 :: ws))
          with (w2 ++ " " ++ join_words (w3 :: ws))%string.
        rewrite append_assoc.
        apply (no_match_before_word kw " " w2 _ Hl Hw2 Hk2).
        right. exists " "%char, (join_words (w3 :: ws) ++ tail)%string.
        split; reflexivity. }
    cbn [Re.split_aux]. rewrite N.
    rewrite (IH tail Hl Hps (fun E => ltac:(discriminate E)) Ht).
    rewrite cons_head_prepend, prepend_prepend. reflexivity.
Qed.

(** The split of words, keyword, words. *)
Lemma split_at_keyword kw u k v :
  letters kw = true -> 0 < String.length kw ->
  plain_words kw u = true -> u <> [] ->
  plain_words kw v = true -> v <> [] ->
  is_keyword kw k = true ->
  Re.split (Re.spaced kw) (join_words u ++ " " ++ k ++ " " ++ join_words v)
  = [join_words u; join_words v].
Proof.
  intros Hl Hn Hu Hune Hv Hvne Hk. unfold Re.split.
  rewrite (split_words kw u _ Hl Hu Hune).
  2:{ right. exists " "%char, (k ++ " " ++ join_words v)%string.
      split; reflexivity. }
  destruct (join_head kw v Hv Hvne) as (c & rest & Ev & Hc).
  assert (M : Re.match_len (Re.spaced kw)
                (" " ++ k ++ " " ++ join_words v)
              = Some (S (String.length (k ++ " ")))).
  { rewrite Ev, (match_at_keyword kw k c rest Hl Hn Hk Hc).
    rewrite length_append. simpl. f_equal. lia. }
  change (" " ++ k ++ " " ++ join_words v)%string
    with (String " " (k ++ " " ++ join_words v)) in *.
  cbn [Re.split_aux]. rewrite M.
  rewrite <- (append_assoc k " " (join_words v)), split_skip.
  rewrite <- (append_empty_r (join_words v)) at 1.
  rewrite (split_words kw v EmptyString Hl Hv Hvne (or_introl eq_refl)).
  simpl. rewrite !append_empty_r. reflexivity.
Qed.

(** *** The pieces of a split are shorter than the text *)

Lemma cons_head_measure c l :
  l <> [] ->
  total_length (PyStr.cons_head c l) = S (total_length l)
  /\ List.length (PyStr.cons_head c l) = List.length l.
Proof. destruct l; [congruence|]. intros _. split; reflexivity. Qed.

Lemma split_aux_budget r s : forall skip,
  total_length (Re.split_aux r s skip) + List.length (Re.split_aux r s skip)
  <= S (String.length s).
Proof.
  induction s as [|c s IH]; intros skip; simpl; [unfold total_length; simpl; lia|].
  destruct skip as [|n].
  - assert (C := cons_head_measure c _ (split_aux_not_nil r s 0)).
    destruct C as [C1 C2]. assert (I0 := IH 0).
    destruct (Re.match_len r (String c s)) as [[|n]|].
    + rewrite C1, C2. lia.
    + assert (In := IH n). unfold total_length in *. simpl. lia.
    + rewrite C1, C2. lia.
  - assert (In := IH n). lia.
Qed.

Lemma part_length_le_total p parts :
  In p parts -> String.length p <= total_length parts.
Proof.
  unfold total_length. induction parts as [|q parts IH]; simpl; [contradiction|].
  intros [->|H]; [lia|]. specialize (IH H). lia.
Qed.

Lemma parts_shorter r s p :
  2 <= List.length (Re.split r s) -> In p (Re.split r s) ->
  String.length p < String.length s.
Proof.
  unfold Re.split. intros H2 Hp.
  generalize (split_aux_budget r s 0) (part_length_le_total p _ Hp). lia.
Qed.

Lemma match_gives_two_parts r a : forall c b n,
  Re.match_len r (String c b) = Some (S n) ->
  2 <= List.length (Re.split_aux r (a ++ String c b) 0).
Proof.
  induction a as [|x a IH]; intros c b n M.
  - cbn [String.append Re.split_aux]. rewrite M.
    generalize (split_aux_not_nil r b n).
    destruct (Re.split_aux r b n); [congruence|]. simpl. lia.
  - cbn [String.append Re.split_aux].
    generalize (split_aux_not_nil r (a ++ String c b) 0) (IH c b n M).
    destruct (Re.match_len r (String x (a ++ String c b))) as [[|m]|];
      intros N L.
    + destruct (cons_head_measure x _ N) as [_ E]. rewrite E. exact L.
    + generalize (split_aux_not_nil r (a ++ String c b) m).
      destruct (Re.split_aux r (a ++ String c b) m); [congruence|]. simpl. lia.
    + destruct (cons_head_measure x _ N) as [_ E]. rewrite E. exact L.
Qed.

Lemma contains_position p : forall s,
  PyStr.contains p (PyStr.upper s) = true ->
  exists a b, s = (a ++ b)%string /\ PyStr.startswith p (PyStr.upper b) = true.
Proof.
  induction s as [|c s IH]; intros H.
  - simpl in H. rewrite orb_false_r in H. exists EmptyString, EmptyString. auto.
  - cbn [PyStr.upper PyStr.contains] in H. apply orb_prop in H.
    destruct H as [H|H].
    + exists EmptyString, (String c s). auto.
    + destruct (IH H) as (a & b & -> & Hb).
      exists (String c a), b. auto.
Qed.

Lemma startswith_keyword kw : forall t p,
  uppercase kw = true ->
  PyStr.startswith (kw ++ p) (PyStr.upper t) = true ->
  ci_prefix kw t = true
  /\ PyStr.startswith p (PyStr.upper (PyStr.drop (String.length kw) t)) = true.
Proof.
  induction kw as [|k kw IH]; intros t p U H; [auto|].
  unfold uppercase in U. cbn [PyStr.all_chars] in U.
  apply andb_prop in U. destruct U as [Uk U]. apply Ascii.eqb_eq in Uk.
  destruct t as [|x t]; [discriminate H|].
  cbn [String.append PyStr.upper PyStr.startswith] in H.
  apply andb_prop in H. destruct H as [H1 H2]. apply Ascii.eqb_eq in H1.
  destruct (IH t p U H2) as [I1 I2].
  cbn [ci_prefix String.length PyStr.drop]. split; [|exact I2].
  rewrite I1, andb_true_r. simpl. rewrite Uk, <- H1. apply Ascii.eqb_refl.
Qed.

(** Where the upper-cased text has the keyword between two spaces, the
    pattern matches at least two characters. *)
Lemma keyword_found kw b :
  letters kw = true -> uppercase kw = true -> 0 < String.length kw ->
  PyStr.startswith (" " ++ kw ++ " ") (PyStr.upper b) = true ->
  exists c b' n, b = String c b'
                 /\ Re.match_len (Re.spaced kw) (String c b') = Some (S n).
Proof.
  intros Hl Hu Hn H.
  destruct b as [|x0 b1]; [discriminate H|].
  cbn [String.append PyStr.upper PyStr.startswith] in H.
  apply andb_prop in H. destruct H as [H0 H].
  apply Ascii.eqb_eq in H0. symmetry in H0. apply upper_space_is_space in H0.
  subst x0.
  destruct (startswith_keyword kw b1 " " Hu H) as [P D].
  exists " "%char, b1.
  rewrite match_len_spaced. change (PyStr.isspace_char " ") with true. cbv iota.
  destruct kw as [|k0 kw]; [simpl in Hn; lia|].
  destruct b1 as [|x b1]; [discriminate P|].
  assert (Hx : PyStr.isspace_char x = false).
  { cbn [ci_prefix] in P. apply andb_prop in P. destruct P as [P _].
    unfold letters in Hl. cbn [PyStr.all_chars] in Hl.
    apply andb_prop in Hl. destruct Hl as [Hl _].
    apply negb_true_iff in Hl. apply (letter_is_not_space k0 x Hl P). }
  rewrite (rep_at_nonspace x _ _ Hx). unfold after_blanks. rewrite P.
  destruct (PyStr.drop (String.length (String k0 kw)) (String x b1))
    as [|d s2] eqn:E; [discriminate D|].
  cbn [PyStr.upper PyStr.startswith] in D.
  apply andb_prop in D. destruct D as [D _].
  apply Ascii.eqb_eq in D. symmetry in D. apply upper_space_is_space in D.
  subst d. change (PyStr.isspace_char " ") with true. cbv iota.
  apply drop_length in E.
  destruct (rep_greedy_total Re.CSpace s2
              (fun t => Some (String.length (String " " (String x b1))
                              - String.length t)))
    as (t & Et & Lt); [discriminate|].
  rewrite Et.
  exists (String.length (String " " (String x b1)) - String.length t - 1).
  split; [reflexivity|]. f_equal. cbn [String.length] in *. lia.
Qed.

Lemma keyword_splits kw s :
  letters kw = true -> uppercase kw = true -> 0 < String.length kw ->
  PyStr.contains (" " ++ kw ++ " ") (PyStr.upper s) = true ->
  2 <= List.length (Re.split (Re.spaced kw) s).
Proof.
  intros Hl Hu Hn H.
  destruct (contains_position _ s H) as (a & b & -> & Hb).
  destruct (keyword_found kw b Hl Hu Hn Hb) as (c & b' & n & -> & M).
  apply (match_gives_two_parts _ a c b' n M).
Qed.

(** *** Texts made of words *)

Lemma plain_are_words kw ws :
  plain_words kw ws = true -> forallb is_word ws = true.
Proof.
  induction ws as [|w ws IH]; [reflexivity|]. intros H.
  destruct (plain_head kw w ws H) as (Hw & _ & Hps).
  cbn [forallb]. rewrite Hw, (IH Hps). reflexivity.
Qed.

Lemma keyword_chars kw : forall k,
  letters kw = true -> ci_prefix kw k = true ->
  String.length k = String.length kw ->
  PyStr.all_chars (fun c => negb (PyStr.isspace_char c)) k = true.
Proof.
  induction kw as [|c kw IH]; intros k Hl Hp Hlen.
  - destruct k; [reflexivity | discriminate Hlen].
  - destruct k as [|x k]; [discriminate Hp|].
    unfold letters in Hl. cbn [PyStr.all_chars] in Hl.
    apply andb_prop in Hl. destruct Hl as [Hc Hl]. apply negb_true_iff in Hc.
    cbn [ci_prefix] in Hp. apply andb_prop in Hp. destruct Hp as [Hx Hp].
    cbn [PyStr.all_chars]. rewrite (letter_is_not_space c x Hc Hx).
    simpl. apply (IH k Hl Hp). simpl in Hlen. lia.
Qed.

Lemma keyword_is_word kw k :
  letters kw = true -> 0 < String.length kw ->
  is_keyword kw k = true -> is_word k = true.
Proof.
  unfold is_keyword, is_word. intros Hl Hn H.
  apply andb_prop in H. destruct H as [Hp Hlen]. apply Nat.eqb_eq in Hlen.
  rewrite (keyword_chars kw k Hl Hp Hlen), Hlen.
  apply Nat.ltb_lt in Hn. rewrite Hn. reflexivity.
Qed.

Lemma keyword_upper kw : forall k,
  is_keyword kw k = true -> PyStr.upper k = PyStr.upper kw.
Proof.
  unfold is_keyword.
  induction kw as [|c kw IH]; intros k H;
    apply andb_prop in H; destruct H as [Hp Hlen]; apply Nat.eqb_eq in Hlen.
  - destruct k; [reflexivity | discriminate Hlen].
  - destruct k as [|x k]; [discriminate Hp|].
    cbn [ci_prefix] in Hp. apply andb_prop in Hp. destruct Hp as [Hx Hp].
    simpl in Hx. apply Ascii.eqb_eq in Hx.
    cbn [PyStr.upper]. rewrite Hx. f_equal. apply IH.
    rewrite Hp. simpl in Hlen. injection Hlen as Hlen. rewrite Hlen.
    rewrite Nat.eqb_refl. reflexivity.
Qed.

Lemma other_length_is_not_keyword kw kw' k :
  is_keyword kw' k = true -> String.length kw <> String.length kw' ->
  is_keyword kw k = false.
Proof.
  unfold is_keyword. intros H N.
  apply andb_prop in H. destruct H as [_ H]. apply Nat.eqb_eq in H.
  rewrite H. apply Nat.eqb_neq in N. rewrite Nat.eqb_sym, N.
  apply andb_false_r.
Qed.

Lemma join_app a b :
  a <> [] -> b <> [] ->
  join_words (a ++ b) = (join_words a ++ " " ++ join_words b)%string.
Proof.
  intros Ha Hb. induction a as [|w a IH]; [congruence|].
  destruct a as [|w2 a].
  - destruct b; [congruence|]. reflexivity.
  - change (join_words ((w :: w2 :: a) ++ b))
      with (w ++ " " ++ join_words ((w2 :: a) ++ b))%string.
    rewrite IH by discriminate.
    change (join_words (w :: w2 :: a))
      with (w ++ " " ++ join_words (w2 :: a))%string.
    rewrite !append_assoc. reflexivity.
Qed.

Lemma word_last w :
  is_word w = true ->
  exists s0 z, w = (s0 ++ String z EmptyString)%string
               /\ PyStr.isspace_char z = false.
Proof.
  intros H. destruct (word_head w H) as (a & t & -> & Ha).
  apply word_chars in H. clear Ha. revert a H.
  induction t as [|b t IH]; intros a H.
  - exists EmptyString, a. split; [reflexivity|].
    cbn [PyStr.all_chars] in H. apply andb_prop in H. destruct H as [H _].
    apply negb_true_iff in H. exact H.
  - cbn [PyStr.all_chars] in H. apply andb_prop in H. destruct H as [_ H].
    destruct (IH b H) as (s0 & z & E & Hz).
    exists (String a s0), z. rewrite E. split; [reflexivity | exact Hz].
Qed.

Lemma join_last ws :
  forallb is_word ws = true -> ws <> [] ->
  exists s0 z, join_words ws = (s0 ++ String z EmptyString)%string
               /\ PyStr.isspace_char z = false.
Proof.
  induction ws as [|w ws IH]; intros H Hne; [congruence|].
  cbn [forallb] in H. apply andb_prop in H. destruct H as [Hw Hws].
  destruct ws as [|w2 ws].
  - apply word_last, Hw.
  - destruct (IH Hws ltac:(discriminate)) as (s0 & z & E & Hz).
    exists (w ++ " " ++ s0)%string, z. split; [|exact Hz].
    change (join_words (w :: w2 :: ws))
      with (w ++ " " ++ join_words (w2 :: ws))%string.
    rewrite E, !append_assoc. reflexivity.
Qed.

Lemma strip_join ws :
  forallb is_word ws = true -> ws <> [] ->
  PyStr.strip (join_words ws) = join_words ws.
Proof.
  intros H Hne.
  destruct (join_last ws H Hne) as (s0 & z & E & Hz).
  assert (Hd : exists a t, join_words ws = String a t
                           /\ PyStr.isspace_char a = false).
  { destruct ws as [|w ws]; [congruence|].
    cbn [forallb] in H. apply andb_prop in H. destruct H as [Hw _].
    destruct (word_head w Hw) as (a & t & -> & Ha).
    destruct ws; cbn [join_words String.append]; eauto. }
  destruct Hd as (a & t & Ea & Ha).
  rewrite E in *. destruct s0 as [|a' body].
  - simpl. apply strip_single, Hz.
  - injection Ea as -> _. apply strip_id; assumption.
Qed.

(** *** Index entries *)

Lemma py_eq_refl v : py_eq v v = true.
Proof.
  destruct v as [|b|z|m e|t]; simpl; try reflexivity.
  - destruct b; reflexivity.
  - rewrite Z.compare_refl. reflexivity.
  - rewrite Z.compare_refl. reflexivity.
  - apply String.eqb_refl.
Qed.

Lemma num_compare_eq_sym a b :
  num_compare a b = Eq -> num_compare b a = Eq.
Proof.
  destruct a as [m1 e1], b as [m2 e2]. unfold num_compare.
  rewrite !Z.compare_eq_iff. auto.
Qed.

Lemma py_eq_sym a b : py_eq a b = true -> py_eq b a = true.
Proof.
  assert (N : forall x y,
             match num_compare x y with Eq => true | _ => false end = true ->
             match num_compare y x with Eq => true | _ => false end = true).
  { intros x y H. destruct (num_compare x y) eqn:E; try discriminate H.
    rewrite (num_compare_eq_sym x y E). reflexivity. }
  destruct a as [|b1|z1|m1 e1|t1], b as [|b2|z2|m2 e2|t2];
    try (simpl; congruence);
    try (apply (N (_, _) (_, _)));
    try (unfold py_eq; rewrite String.eqb_sym; auto).
Qed.

Lemma tuple_eq_refl k : tuple_eq k k = true.
Proof. induction k as [|v k IH]; simpl; [reflexivity|]. rewrite py_eq_refl. exact IH. Qed.

Lemma tuple_eq_sym a : forall b, tuple_eq a b = true -> tuple_eq b a = true.
Proof.
  induction a as [|x a IH]; intros [|y b] H; simpl in *; try congruence.
  apply andb_prop in H. destruct H as [H1 H2].
  rewrite (py_eq_sym x y H1), (IH b H2). reflexivity.
Qed.

Lemma add_is_add_entry e k i : Index.add e k i = add_entry e k i.
Proof.
  unfold Index.add, Index.entries_get.
  induction e as [|[k' l] e IH]; simpl; [reflexivity|].
  destruct (tuple_eq k' k); [reflexivity|].
  rewrite <- IH. destruct (Dict.get tuple_eq e k); reflexivity.
Qed.

Lemma add_entry_holds e k i :
  exists l, Index.entries_get (add_entry e k i) k = Some l /\ In i l.
Proof.
  unfold Index.entries_get.
  induction e as [|[k' l] e IH]; simpl.
  - rewrite tuple_eq_refl. exists [i]. simpl. auto.
  - destruct (tuple_eq k' k) eqn:E; simpl; rewrite E; [|exact IH].
    exists (l ++ [i]). split; [reflexivity|]. apply in_or_app. simpl. auto.
Qed.

Lemma add_entry_keeps e k2 i k p :
  (exists l, Index.entries_get e k = Some l /\ In p l) ->
  exists l, Index.entries_get (add_entry e k2 i) k = Some l /\ In p l.
Proof.
  unfold Index.entries_get.
  induction e as [|[k' l'] e IH]; simpl; intros [l [G Hp]]; [discriminate G|].
  destruct (tuple_eq k' k2); simpl; destruct (tuple_eq k' k).
  - injection G as <-. exists (l' ++ [i]). split; [reflexivity|].
    apply in_or_app. auto.
  - eauto.
  - eauto.
  - apply IH. eauto.
Qed.

Lemma add_entry_members e k i k0 l0 p :
  In (k0, l0) (add_entry e k i) -> In p l0 ->
  (exists l, In (k0, l) e /\ In p l) \/ (p = i /\ tuple_eq k0 k = true).
Proof.
  induction e as [|[k' l'] e IH]; simpl.
  - intros [E|[]] Hp. injection E as <- <-. destruct Hp as [<-|[]].
    right. split; [reflexivity | apply tuple_eq_refl].
  - destruct (tuple_eq k' k) eqn:T; simpl.
    + intros [E|H] Hp.
      * injection E as <- <-. apply in_app_or in Hp. destruct Hp as [Hp|[<-|[]]].
        -- left. eauto.
        -- right. auto.
      * left. eauto.
    + intros [E|H] Hp.
      * injection E as <- <-. left. eauto.
      * destruct (IH H Hp) as [[l [Hl Hpl]]|R]; [left; eauto | right; exact R].
Qed.

Lemma build_entries_app cols r : forall rs i e,
  SimpleRDBMS.build_entries cols (rs ++ [r]) i e
  = Index.add (SimpleRDBMS.build_entries cols rs i e)
      (SimpleRDBMS.index_key r cols) (i + List.length rs).
Proof.
  induction rs as [|x rs IH]; intros i e; simpl.
  - rewrite Nat.add_0_r. reflexivity.
  - rewrite IH. f_equal. lia.
Qed.

(** Nothing missing: a rebuild lists every position under the key of
    its row. *)
Lemma build_entries_no_missing cols : forall rs i e p r,
  nth_error rs p = Some r ->
  exists l,
    Index.entries_get (SimpleRDBMS.build_entries cols rs i e)
      (SimpleRDBMS.index_key r cols) = Some l
    /\ In (i + p) l.
Proof.
  assert (K : forall rs i e k q,
             (exists l, Index.entries_get e k = Some l /\ In q l) ->
             exists l, Index.entries_get (SimpleRDBMS.build_entries cols rs i e) k
                       = Some l /\ In q l).
  { induction rs as [|x rs IH]; intros i e k q H; simpl; [exact H|].
    apply IH. rewrite add_is_add_entry. apply add_entry_keeps, H. }
  induction rs as [|x rs IH]; intros i e p r H; [destruct p; discriminate H|].
  destruct p as [|p]; simpl in *.
  - injection H as ->. apply K. rewrite add_is_add_entry, Nat.add_0_r.
    apply add_entry_holds.
  - destruct (IH (S i) (Index.add e (SimpleRDBMS.index_key x cols) i) p r H)
      as [l [G Hl]].
    exists l. split; [exact G|]. replace (i + S p) with (S i + p) by lia. exact Hl.
Qed.

(** Nothing stale: every position a rebuild lists is the position of a
    row with that key. *)
Lemma build_entries_no_stale cols : forall rs i e k l q,
  In (k, l) (SimpleRDBMS.build_entries cols rs i e) -> In q l ->
  (exists l0, In (k, l0) e /\ In q l0)
  \/ exists r, nth_error rs (q - i) = Some r /\ i <= q
               /\ tuple_eq (SimpleRDBMS.index_key r cols) k = true.
Proof.
  induction rs as [|x rs IH]; intros i e k l q H Hq; simpl in H; [left; eauto|].
  destruct (IH (S i) _ k l q H Hq) as [[l0 [H0 Hq0]]|[r [N [L T]]]].
  - rewrite add_is_add_entry in H0.
    destruct (add_entry_members e _ i k l0 q H0 Hq0) as [M|[-> T]]; [left; exact M|].
    right. exists x. rewrite Nat.sub_diag. split; [reflexivity|].
    split; [lia | apply tuple_eq_sym, T].
  - right. exists r. split; [|split; [lia | exact T]].
    replace (q - i) with (S (q - S i)) by lia. exact N.
Qed.

(** Indexes that are what a rebuild gives are consistent in the sense of
    the specification. *)
Lemma built_is_consistent table :
  indexes_built table -> index_consistent table.
Proof.
  intros B index_name idx G.
  assert (Hb : built (Table.rows table) idx).
  { unfold indexes_built in B. rewrite Forall_forall in B.
    revert G. generalize (Table.indexes table) B. clear B.
    induction l as [|[n i] l IH]; simpl; intros B G; [discriminate G|].
    destruct (String.eqb n index_name).
    - injection G as <-. apply (B (n, i)). left. reflexivity.
    - apply IH; [|exact G]. intros y Hy. apply B. right. exact Hy. }
  unfold built in Hb. split.
  - intros p r N. rewrite Hb.
    apply (build_entries_no_missing _ _ 0 [] p r N).
  - intros k l p H Hp. rewrite Hb in H.
    destruct (build_entries_no_stale _ _ 0 [] k l p H Hp)
      as [[l0 [[] _]]|[r [N [_ T]]]].
    exists r. rewrite Nat.sub_0_r in N. auto.
Qed.

Section Properties.

Variable like_match : string -> value -> outcome bool.

Import SimpleRDBMS.

Abbreviation execute_sql := (SimpleRDBMS.execute_sql like_match).
Abbreviation dispatch := (SimpleRDBMS.dispatch like_match).
Abbreviation run := (SimpleRDBMS.run like_match).

(** *** The handlers leave the transaction log and flag alone *)

Ltac break_match :=
  repeat match goal with
    | |- context [match ?x with _ => _ end] => destruct x eqn:?
    end.

Lemma save_table_txn st n : same_txn (fst (_save_table st n)) st.
Proof. unfold _save_table; destruct (get_table st n); split; reflexivity. Qed.

Lemma save_table_txn' st n st' o :
  _save_table st n = (st', o) -> same_txn st' st.
Proof. intros H; generalize (save_table_txn st n); rewrite H; auto. Qed.

Ltac txn :=
  match goal with
  | H : _save_table _ _ = (_, _) |- _ =>
      apply save_table_txn' in H; destruct H as [? ?];
      split; simpl in *; congruence
  | _ => split; reflexivity
  end.

Lemma create_table_txn st sql :
  same_txn (fst (_execute_create_table st sql)) st.
Proof. unfold _execute_create_table; break_match; simpl; txn. Qed.

Lemma insert_txn st sql : same_txn (fst (_execute_insert st sql)) st.
Proof. unfold _execute_insert; break_match; simpl; txn. Qed.

Lemma select_txn st sql :
  same_txn (fst (_execute_select like_match st sql)) st.
Proof. unfold _execute_select; break_match; simpl; txn. Qed.

Lemma update_txn st sql :
  same_txn (fst (_execute_update like_match st sql)) st.
Proof. unfold _execute_update; break_match; simpl; txn. Qed.

Lemma delete_txn st sql :
  same_txn (fst (_execute_delete like_match st sql)) st.
Proof. unfold _execute_delete; break_match; simpl; txn. Qed.

Lemma drop_table_txn st sql :
  same_txn (fst (_execute_drop_table st sql)) st.
Proof. unfold _execute_drop_table; break_match; simpl; txn. Qed.

Lemma create_index_txn st sql :
  same_txn (fst (_execute_create_index st sql)) st.
Proof. unfold _execute_create_index; break_match; simpl; txn. Qed.

(** *** Dicts keyed by strings *)

Lemma dict_get_set_same {V} (d : list (string * V)) k v :
  Dict.get String.eqb (Dict.set String.eqb d k v) k = Some v.
Proof.
  induction d as [|[k' v'] d IH]; simpl.
  - rewrite String.eqb_refl. reflexivity.
  - destruct (String.eqb k' k) eqn:E; simpl; rewrite E; auto.
Qed.

Lemma dict_get_set_other {V} (d : list (string * V)) k k' v :
  k <> k' ->
  Dict.get String.eqb (Dict.set String.eqb d k v) k'
  = Dict.get String.eqb d k'.
Proof.
  intros N. induction d as [|[k0 v0] d IH]; simpl.
  - destruct (String.eqb k k') eqn:E; [apply String.eqb_eq in E; contradiction | auto].
  - destruct (String.eqb k0 k) eqn:E; simpl.
    + apply String.eqb_eq in E; subst k0.
      destruct (String.eqb k k') eqn:E'; [apply String.eqb_eq in E'; contradiction | auto].
    + destruct (String.eqb k0 k'); auto.
Qed.

Lemma get_table_put st n t : get_table (put_table st n t) n = Some t.
Proof. unfold get_table, put_table; simpl. apply dict_get_set_same. Qed.

Lemma save_after_put st n t :
  snd (_save_table (put_table st n t) n) = Ok tt.
Proof. unfold _save_table. rewrite get_table_put. reflexivity. Qed.

(** *** INSERT: validation comes first *)

Lemma insert_raise_unchanged st sql st' e :
  _execute_insert st sql = (st', Raise e) -> st' = st.
Proof.
  unfold _execute_insert.
  destruct (Re.rmatch insert_pattern sql) as [m|]; [|congruence].
  destruct (get_table st (group_str m 1)) as [table|]; [|congruence].
  destruct (negb _); [congruence|].
  destruct (_validate_row table _); [|congruence].
  match goal with
  | |- context [_save_table ?a ?b] =>
      generalize (save_after_put st b (append_row table
        (make_row (insert_col_names table (Re.group m 2))
           (insert_values (group_str m 3)))));
      destruct (_save_table a b) as [st2 o]
  end.
  simpl. intros ->. simpl. congruence.
Qed.

Lemma unique_scan_duplicate n v rs existing :
  In existing rs ->
  py_eq (row_get_none existing n) v = true ->
  unique_scan n v rs = Raise (duplicate_error n).
Proof.
  induction rs as [|r rs IH]; simpl; [contradiction|].
  intros [->|Hin] E.
  - rewrite E. reflexivity.
  - destruct (py_eq (row_get_none r n) v); auto.
Qed.

Lemma is_none_false v : v <> VNone -> is_none v = false.
Proof. destruct v; simpl; congruence. Qed.

(** A candidate row that repeats a value of a unique column does not
    pass validation, whatever the other columns hold. *)
Lemma validate_columns_duplicate rs r cols c v existing :
  In c cols -> Column.is_unique c = true ->
  row_get r (Column.name c) = Some v -> v <> VNone ->
  In existing rs ->
  py_eq (row_get_none existing (Column.name c)) v = true ->
  exists e, validate_columns rs r cols = Raise e.
Proof.
  intros Hc Hu Hv Hn Hin Heq.
  induction cols as [|col cols IH]; simpl; [destruct Hc|].
  destruct Hc as [->|Hc].
  - rewrite Hv. destruct (type_check c v); simpl; [|eauto].
    unfold unique_check. rewrite Hu, (is_none_false v Hn). simpl.
    rewrite (unique_scan_duplicate _ _ _ _ Hin Heq). simpl. eauto.
  - destruct (row_get r (Column.name col)) as [w|].
    + destruct (type_check col w); simpl; [|eauto].
      destruct (unique_check rs col w); simpl; [|eauto]. auto.
    + destruct (negb (Column.is_nullable col)); [eauto|auto].
Qed.

Lemma insert_validation_failure st sql m table e :
  Re.rmatch insert_pattern sql = Some m ->
  get_table st (group_str m 1) = Some table ->
  List.length (insert_col_names table (Re.group m 2))
  = List.length (insert_values (group_str m 3)) ->
  _validate_row table
    (make_row (insert_col_names table (Re.group m 2))
       (insert_values (group_str m 3))) = Raise e ->
  _execute_insert st sql = (st, Raise e).
Proof.
  intros Hm Ht Hl Hv. unfold _execute_insert.
  rewrite Hm, Ht, Hl, Nat.eqb_refl, Hv. reflexivity.
Qed.

(** A column declared PRIMARY KEY is unique. *)
Lemma primary_column_is_unique col_def c :
  parse_column col_def = Ok (Some c) ->
  Column.is_primary c = true -> Column.is_unique c = true.
Proof.
  unfold parse_column.
  destruct (PyStr.strip col_def) as [|a d]; [discriminate|].
  destruct (PyStr.split_ws (String a d)) as [|n [|ty rest]]; try discriminate.
  destruct (DataType_of_string (PyStr.upper ty)); [|discriminate].
  simpl. intros H. injection H as <-. simpl. intros ->. apply orb_true_r.
Qed.

(** C1.  An INSERT whose candidate row gives a unique column a
    non-null value equal to the value of that column in an existing
    row is refused by [_validate_row], and the engine state (rows,
    indexes and snapshots of every table) is the state before the
    statement; more generally an INSERT that raises, for any reason,
    leaves the state as it was: validation runs before the row is
    appended.  A column parsed with PRIMARY KEY is unique. *)
Theorem insert_duplicate_unique_refused st sql m table c v existing :
  Re.rmatch insert_pattern sql = Some m ->
  get_table st (group_str m 1) = Some table ->
  let candidate :=
    make_row (insert_col_names table (Re.group m 2))
      (insert_values (group_str m 3)) in
  List.length (insert_col_names table (Re.group m 2))
  = List.length (insert_values (group_str m 3)) ->
  In c (Table.columns table) -> Column.is_unique c = true ->
  row_get candidate (Column.name c) = Some v -> v <> VNone ->
  In existing (Table.rows table) ->
  py_eq (row_get_none existing (Column.name c)) v = true ->
  (exists e,
      _validate_row table candidate = Raise e
      /\ _execute_insert st sql = (st, Raise e))
  /\ (forall sql' st' e',
        _execute_insert st sql' = (st', Raise e') -> st' = st)
  /\ (forall col_def c',
        parse_column col_def = Ok (Some c') ->
        Column.is_primary c' = true -> Column.is_unique c' = true).
Proof.
  intros Hm Ht candidate Hl Hc Hu Hv Hn Hin Heq. split; [|split].
  - destruct (validate_columns_duplicate (Table.rows table) candidate
                (Table.columns table) c v existing Hc Hu Hv Hn Hin Heq)
      as [e He].
    exists e. split; [exact He|].
    apply (insert_validation_failure st sql m table e Hm Ht Hl He).
  - intros sql' st' e'. apply insert_raise_unchanged.
  - apply primary_column_is_unique.
Qed.

(** *** Literals: the order of the coercion *)

Lemma isdigit_all_digit tok : PyStr.isdigit tok = Spec.all_digit tok.
Proof. destruct tok; reflexivity. Qed.

Lemma digit_is_not_dot c : PyStr.isdigit_char c = true -> Ascii.eqb c "." = false.
Proof.
  destruct (Ascii.eqb c ".") eqn:E; [|reflexivity].
  apply Ascii.eqb_eq in E; subst c. vm_compute. congruence.
Qed.

Lemma all_digits_no_dot s :
  PyStr.all_chars PyStr.isdigit_char s = true ->
  Spec.count_char "." s = 0
  /\ PyStr.all_chars (fun c => PyStr.isdigit_char c || Ascii.eqb c ".") s = true.
Proof.
  induction s as [|c s IH]; simpl; [auto|].
  intros H. apply andb_prop in H. destruct H as [Hc Hs].
  destruct (IH Hs) as [I1 I2].
  rewrite (digit_is_not_dot c Hc), Hc, I1, I2. auto.
Qed.

(** Removing the first dot leaves digits only exactly when the token
    has at most one dot and otherwise digits. *)
Lemma remove_first_dot_digits s :
  PyStr.all_chars PyStr.isdigit_char (PyStr.remove_first "." s)
  = Nat.leb (Spec.count_char "." s) 1
    && PyStr.all_chars (fun c => PyStr.isdigit_char c || Ascii.eqb c ".") s.
Proof.
  induction s as [|c s IH]; simpl; [reflexivity|].
  destruct (Ascii.eqb c ".") eqn:E.
  - rewrite orb_true_r. simpl.
    destruct (PyStr.all_chars PyStr.isdigit_char s) eqn:D.
    + destruct (all_digits_no_dot s D) as [I1 I2]. rewrite I1, I2. reflexivity.
    + destruct (Spec.count_char "." s) as [|n] eqn:C.
      * simpl. symmetry.
        destruct (PyStr.all_chars
                    (fun c0 => PyStr.isdigit_char c0 || Ascii.eqb c0 ".") s) eqn:A;
          [|reflexivity].
        exfalso. clear IH. revert D C A.
        induction s as [|x s IHs]; simpl; [congruence|].
        destruct (Ascii.eqb x "."); simpl; [discriminate|].
        rewrite orb_false_r. destruct (PyStr.isdigit_char x); simpl; auto.
        congruence.
      * reflexivity.
  - simpl. rewrite IH, orb_false_r.
    destruct (PyStr.isdigit_char c); simpl; [reflexivity|].
    rewrite andb_false_r. reflexivity.
Qed.

Lemma remove_first_length s :
  String.length (PyStr.remove_first "." s)
  = String.length s - (if Nat.eqb (Spec.count_char "." s) 0 then 0 else 1).
Proof.
  induction s as [|c s IH]; simpl; [reflexivity|].
  destruct (Ascii.eqb c "."); simpl.
  - lia.
  - rewrite IH. destruct (Nat.eqb (Spec.count_char "." s) 0) eqn:E; [lia|].
    destruct s; simpl in *; [discriminate E | lia].
Qed.

Lemma isdigit_length s :
  PyStr.isdigit s
  = Nat.ltb 0 (String.length s) && PyStr.all_chars PyStr.isdigit_char s.
Proof. destruct s; reflexivity. Qed.

Lemma one_dot_test tok :
  Spec.all_digit tok = false ->
  PyStr.isdigit (PyStr.remove_first "." tok) = Spec.digits_with_one_dot tok.
Proof.
  intros N. rewrite isdigit_length, remove_first_dot_digits, remove_first_length.
  unfold Spec.digits_with_one_dot, Spec.all_digit in *.
  destruct (Spec.count_char "." tok) as [|[|n]] eqn:C; simpl.
  - rewrite Nat.sub_0_r.
    destruct (PyStr.all_chars (fun c => PyStr.isdigit_char c || Ascii.eqb c ".") tok)
      eqn:A; [|rewrite andb_false_r; reflexivity].
    assert (D : PyStr.all_chars PyStr.isdigit_char tok = true).
    { clear N. revert C A. induction tok as [|x s IHs]; simpl; [auto|].
      destruct (Ascii.eqb x "."); simpl; [discriminate|].
      rewrite orb_false_r. destruct (PyStr.isdigit_char x); simpl; auto. }
    rewrite D, andb_true_r in N. rewrite N. reflexivity.
  - destruct (PyStr.all_chars (fun c => PyStr.isdigit_char c || Ascii.eqb c ".") tok);
      [|rewrite !andb_false_r; reflexivity].
    rewrite !andb_true_r. simpl.
    destruct (String.length tok) as [|[|n]]; reflexivity.
  - rewrite andb_false_r. reflexivity.
Qed.

Lemma source_order_is_spec_order tok :
  (if PyStr.isdigit tok then VInt (PyStr.int_of tok)
   else if PyStr.isdigit (PyStr.remove_first "." tok) then float_of tok
   else if String.eqb (PyStr.upper tok) "TRUE"
           || String.eqb (PyStr.upper tok) "FALSE"
   then VBool (String.eqb (PyStr.upper tok) "TRUE")
   else if String.eqb tok "NULL" then VNone
   else VText tok)
  = Spec.coerce tok.
Proof.
  unfold Spec.coerce. rewrite isdigit_all_digit.
  destruct (Spec.all_digit tok) eqn:D; [reflexivity|].
  rewrite (one_dot_test tok D).
  destruct (Spec.digits_with_one_dot tok); [reflexivity|].
  destruct (String.eqb (PyStr.upper tok) "TRUE"); reflexivity.
Qed.

Lemma coercion_literal raw :
  insert_value raw = Spec.coerce (PyStr.strip_quote (PyStr.strip raw))
  /\ update_value raw = Spec.coerce (PyStr.strip_quote (PyStr.strip raw))
  /\ where_value raw = Spec.coerce raw.
Proof.
  repeat split.
  - unfold insert_value. apply source_order_is_spec_order.
  - unfold update_value. apply source_order_is_spec_order.
  - unfold where_value. apply source_order_is_spec_order.
Qed.

(** *** Literals with a minus sign *)

Lemma minus_token_is_text rest :
  Spec.coerce (String "-" rest) = VText (String "-" rest).
Proof.
  unfold Spec.coerce, Spec.all_digit, Spec.digits_with_one_dot.
  change (PyStr.all_chars PyStr.isdigit_char (String "-" rest)) with false.
  change (PyStr.all_chars
            (fun c => PyStr.isdigit_char c || Ascii.eqb c ".")
            (String "-" rest)) with false.
  rewrite !andb_false_r. reflexivity.
Qed.

Lemma validate_columns_app rs r pre post :
  validate_columns rs r (pre ++ post)
  = do _ <- validate_columns rs r pre; validate_columns rs r post.
Proof.
  induction pre as [|col pre IH]; simpl; [reflexivity|].
  destruct (row_get r (Column.name col)) as [w|].
  - destruct (type_check col w); simpl; [|reflexivity].
    destruct (unique_check rs col w); simpl; [exact IH|reflexivity].
  - destruct (negb (Column.is_nullable col)); [reflexivity|exact IH].
Qed.

Lemma type_check_text c txt :
  Column.data_type c = INTEGER \/ Column.data_type c = REAL ->
  type_check c (VText txt) = Raise (expects_error c).
Proof.
  unfold type_check, expects_error. intros [E|E]; rewrite E; reflexivity.
Qed.

(** Text offered to an INTEGER or REAL column: the type check of that
    column raises as soon as the columns declared before it pass. *)
Lemma validate_columns_text rs r pre c post txt :
  Column.data_type c = INTEGER \/ Column.data_type c = REAL ->
  row_get r (Column.name c) = Some (VText txt) ->
  (exists e, validate_columns rs r (pre ++ c :: post) = Raise e)
  /\ (validate_columns rs r pre = Ok tt ->
      validate_columns rs r (pre ++ c :: post) = Raise (expects_error c)).
Proof.
  intros Ht Hv.
  assert (Hc : validate_columns rs r (c :: post) = Raise (expects_error c)).
  { simpl. rewrite Hv, (type_check_text c txt Ht). reflexivity. }
  rewrite validate_columns_app, Hc. split.
  - destruct (validate_columns rs r pre) as [[]|e]; simpl; eauto.
  - intros ->. reflexivity.
Qed.

(** C10, as the code has it.  A token that begins with a minus sign
    (once stripped of blanks and quotes) is kept as text.  An INSERT
    that supplies it for an INTEGER or REAL column raises in
    [_validate_row] and stores nothing; the error is the type-mismatch
    error of that column when the columns declared before it pass
    validation, and otherwise the error of the first of those that
    fails. *)
Theorem negative_literal_rejected st sql m table pre c post raw rest :
  Re.rmatch insert_pattern sql = Some m ->
  get_table st (group_str m 1) = Some table ->
  let candidate :=
    make_row (insert_col_names table (Re.group m 2))
      (insert_values (group_str m 3)) in
  List.length (insert_col_names table (Re.group m 2))
  = List.length (insert_values (group_str m 3)) ->
  Table.columns table = pre ++ c :: post ->
  Column.data_type c = INTEGER \/ Column.data_type c = REAL ->
  PyStr.strip_quote (PyStr.strip raw) = String "-" rest ->
  row_get candidate (Column.name c) = Some (insert_value raw) ->
  insert_value raw = VText (String "-" rest)
  /\ (exists e,
        _validate_row table candidate = Raise e
        /\ _execute_insert st sql = (st, Raise e))
  /\ (validate_columns (Table.rows table) candidate pre = Ok tt ->
      _execute_insert st sql = (st, Raise (expects_error c))).
Proof.
  intros Hm Ht candidate Hl Hcols Hty Hraw Hv.
  assert (Htxt : insert_value raw = VText (String "-" rest)).
  { destruct (coercion_literal raw) as [E _].
    rewrite E, Hraw. apply minus_token_is_text. }
  rewrite Htxt in Hv.
  destruct (validate_columns_text (Table.rows table) candidate pre c post
              (String "-" rest) Hty Hv) as [[e He] Hfirst].
  split; [exact Htxt|]. split.
  - exists e. unfold _validate_row. rewrite Hcols. split; [exact He|].
    apply (insert_validation_failure st sql m table e Hm Ht Hl).
    unfold _validate_row. rewrite Hcols. exact He.
  - intros Hpre.
    apply (insert_validation_failure st sql m table _ Hm Ht Hl).
    unfold _validate_row. rewrite Hcols. exact (Hfirst Hpre).
Qed.

(** *** SELECT: projection *)

Lemma row_get_set_same (r : row) k v : row_get (row_set r k v) k = Some v.
Proof. apply dict_get_set_same. Qed.

Lemma row_get_set_other (r : row) k k' v :
  k <> k' -> row_get (row_set r k v) k' = row_get r k'.
Proof. apply dict_get_set_other. Qed.

Lemma project_fold r columns : forall acc col,
  row_get
    (fold_left
       (fun final_row c =>
          match row_get r c with
          | Some v => row_set final_row c v
          | None =>
              if PyStr.contains "." c
              then row_set final_row c (row_get_none r c)
              else final_row
          end) columns acc) col
  = if existsb (String.eqb col) columns
    then match projected r col with
         | Some v => Some v
         | None => row_get acc col
         end
    else row_get acc col.
Proof.
  induction columns as [|h columns IH]; intros acc col; simpl; [reflexivity|].
  rewrite IH. clear IH.
  destruct (String.eqb col h) eqn:E.
  - apply String.eqb_eq in E; subst h. simpl. unfold projected, row_get_none.
    destruct (row_get r col) as [v|] eqn:G.
    + rewrite row_get_set_same. destruct (existsb _ columns); reflexivity.
    + destruct (PyStr.contains "." col).
      * rewrite row_get_set_same. destruct (existsb _ columns); reflexivity.
      * destruct (existsb _ columns); reflexivity.
  - simpl. apply String.eqb_neq in E.
    assert (N : h <> col) by congruence.
    destruct (row_get r h) as [v|].
    + rewrite (row_get_set_other acc h col v N). reflexivity.
    + destruct (PyStr.contains "." h).
      * rewrite (row_get_set_other acc h col _ N). reflexivity.
      * reflexivity.
Qed.

(** C6, as the code has it.  The select list [*] expands to the
    declared column names of the first table, in order; any other list
    is split at commas and each name stripped.  A projected row holds,
    for a requested name present in the result row, the value of the
    row; a requested name absent from the row is left out when it has
    no dot, and is given the null value when it has one; a name not
    requested is never in the output. *)
Theorem projection_of_select select_clause t0 later columns r col :
  select_columns select_clause (t0 :: later)
  = Ok (if String.eqb select_clause "*"
        then map Column.name (Table.columns t0)
        else map PyStr.strip (PyStr.split_char "," select_clause))
  /\ row_get (project_row columns r) col
     = if existsb (String.eqb col) columns then projected r col else None.
Proof.
  split.
  - unfold select_columns. destruct (String.eqb select_clause "*"); reflexivity.
  - unfold project_row. rewrite project_fold. simpl.
    destruct (existsb (String.eqb col) columns); [|reflexivity].
    destruct (projected r col); reflexivity.
Qed.

(** *** SELECT: the join *)

Lemma dict_set_absent {V} (d : list (string * V)) k v :
  Dict.get String.eqb d k = None -> Dict.set String.eqb d k v = d ++ [(k, v)].
Proof.
  induction d as [|[k' v'] d IH]; simpl; [reflexivity|].
  destruct (String.eqb k' k); [discriminate|].
  intros H. rewrite (IH H). reflexivity.
Qed.

Lemma dict_get_app {V} (d e : list (string * V)) k :
  Dict.get String.eqb (d ++ e) k
  = match Dict.get String.eqb d k with
    | Some v => Some v
    | None => Dict.get String.eqb e k
    end.
Proof.
  induction d as [|[k' v'] d IH]; simpl; [reflexivity|].
  destruct (String.eqb k' k); auto.
Qed.

Lemma dict_get_absent {V} (d : list (string * V)) k :
  ~ In k (map fst d) -> Dict.get String.eqb d k = None.
Proof.
  induction d as [|[k' v'] d IH]; simpl; [reflexivity|].
  intros N. destruct (String.eqb k' k) eqn:E.
  - apply String.eqb_eq in E. exfalso. apply N. left. exact E.
  - apply IH. intros H. apply N. right. exact H.
Qed.

(** Assigning the items of a dict one after the other. *)
Lemma dict_assign_get {V} (items : list (string * V)) : forall d q,
  NoDup (map fst items) ->
  Dict.get String.eqb
    (fold_left (fun d kv => Dict.set String.eqb d (fst kv) (snd kv)) items d) q
  = match Dict.get String.eqb items q with
    | Some v => Some v
    | None => Dict.get String.eqb d q
    end.
Proof.
  induction items as [|[k v] items IH]; intros d q ND; simpl; [reflexivity|].
  inversion ND as [|? ? Hk ND']; subst.
  rewrite (IH _ q ND').
  destruct (String.eqb k q) eqn:E.
  - apply String.eqb_eq in E; subst q.
    rewrite (dict_get_absent items k Hk). apply dict_get_set_same.
  - apply String.eqb_neq in E.
    rewrite (dict_get_set_other d k q v E). reflexivity.
Qed.

Lemma dict_update_get (items : row) (d : row) q :
  NoDup (map fst items) ->
  row_get (fold_left (fun d kv => row_set d (fst kv) (snd kv)) items d) q
  = match row_get items q with
    | Some v => Some v
    | None => row_get d q
    end.
Proof. apply dict_assign_get. Qed.

(** *** ROLLBACK reloads the snapshots; a successful INSERT has saved one *)

Lemma rollback_reloads st :
  NoDup (map fst (disk st)) ->
  let st' := _rollback_transaction st in
  _in_transaction st' = false /\ transaction_log st' = []
  /\ disk st' = disk st
  /\ (forall n t, Dict.get String.eqb (disk st) n = Some t ->
                  get_table st' n = Some t).
Proof.
  intros ND st'. repeat split.
  intros n t H. unfold st', _rollback_transaction, _load_tables, get_table.
  simpl. rewrite (dict_assign_get (disk st) (tables st) n ND), H. reflexivity.
Qed.

Lemma insert_saves_snapshot st sql st' res :
  _execute_insert st sql = (st', Ok res) ->
  exists n t,
    get_table st' n = Some t /\ Dict.get String.eqb (disk st') n = Some t
    /\ n = group_str
             (match Re.rmatch insert_pattern sql with Some m => m | None => [] end)
             1.
Proof.
  unfold _execute_insert.
  destruct (Re.rmatch insert_pattern sql) as [m|]; [|discriminate].
  destruct (get_table st (group_str m 1)) as [table|]; [|discriminate].
  destruct (negb _); [discriminate|].
  destruct (_validate_row table _); [|discriminate].
  unfold _save_table. rewrite get_table_put. intros H. injection H as <- _.
  eexists _, _. split; [|split; [|reflexivity]].
  - apply get_table_put.
  - simpl. apply dict_get_set_same.
Qed.

Lemma append_inj p a b : (p ++ a)%string = (p ++ b)%string -> a = b.
Proof. induction p as [|c p IH]; simpl; [auto|]. intros H. injection H. auto. Qed.

Lemma qualify_keys prefix (r : row) k :
  In (prefix ++ "." ++ k)%string (map fst (map (qualify prefix) r)) ->
  In k (map fst r).
Proof.
  induction r as [|[k' v'] r IH]; simpl; [auto|].
  intros [H|H]; [left|right; auto].
  apply append_inj in H. apply (append_inj "." k' k) in H. exact H.
Qed.

Lemma qualify_nodup prefix (r : row) :
  NoDup (map fst r) -> NoDup (map fst (map (qualify prefix) r)).
Proof.
  induction r as [|[k v] r IH]; simpl; intros ND; [constructor|].
  inversion ND as [|? ? Hk ND']; subst. constructor; [|auto].
  intros H. apply Hk. apply (qualify_keys prefix r k H).
Qed.

Lemma qualified_fold prefix (r : row) : forall acc,
  NoDup (map fst r) ->
  (forall k, In k (map fst r) ->
             row_get acc (prefix ++ "." ++ k)%string = None) ->
  fold_left (fun d kv => row_set d (prefix ++ "." ++ fst kv)%string (snd kv))
    r acc
  = acc ++ map (qualify prefix) r.
Proof.
  induction r as [|[k v] r IH]; intros acc ND Hacc; cbn [fold_left map fst snd].
  - rewrite app_nil_r. reflexivity.
  - inversion ND as [|? ? Hk ND']; subst.
    assert (S1 : row_set acc (prefix ++ "." ++ k)%string v
                 = acc ++ [qualify prefix (k, v)]).
    { apply dict_set_absent. apply (Hacc k). left. reflexivity. }
    rewrite S1. clear S1.
    rewrite IH; [rewrite <- app_assoc; reflexivity | exact ND' |].
    intros k' Hk'. unfold row_get. rewrite dict_get_app.
    fold (row_get acc (prefix ++ "." ++ k')%string).
    rewrite (Hacc k' (or_intror Hk')). unfold qualify. cbn [Dict.get fst snd].
    destruct (String.eqb _ _) eqn:E; [|reflexivity].
    apply String.eqb_eq in E. apply append_inj in E.
    apply (append_inj "." k k') in E. subst k'. contradiction.
Qed.

Lemma qualified_key_eqb prefix k' k :
  String.eqb (prefix ++ "." ++ k') (prefix ++ "." ++ k) = String.eqb k' k.
Proof.
  destruct (String.eqb k' k) eqn:E.
  - apply String.eqb_eq in E; subst k'. apply String.eqb_refl.
  - apply String.eqb_neq. intros H. apply append_inj in H.
    apply (append_inj "." k' k) in H. apply String.eqb_neq in E. contradiction.
Qed.

Lemma qualified_get prefix (r : row) k :
  row_get (map (qualify prefix) r) (prefix ++ "." ++ k)%string = row_get r k.
Proof.
  unfold row_get.
  induction r as [|[k' v'] r IH]; cbn [map]; [reflexivity|].
  unfold qualify at 1. cbn [Dict.get fst snd].
  rewrite qualified_key_eqb, IH. reflexivity.
Qed.

(** A joined row holds every value of the second row under the
    prefixed key. *)
Lemma joined_row_prefixed prefix row1 row2 k v :
  NoDup (map fst row2) ->
  row_get row2 k = Some v ->
  row_get (joined_row prefix row1 row2) (prefix ++ "." ++ k)%string = Some v.
Proof.
  intros ND Hk. unfold joined_row.
  rewrite (qualified_fold prefix row2 [] ND (fun _ _ => eq_refl)).
  cbn [List.app].
  rewrite (dict_update_get _ row1 _ (qualify_nodup prefix row2 ND)).
  rewrite qualified_get, Hk. reflexivity.
Qed.

Lemma flat_map_length_const {A B} (f : A -> list B) n (l : list A) :
  (forall a, List.length (f a) = n) ->
  List.length (flat_map f l) = List.length l * n.
Proof.
  intros H. induction l as [|a l IH]; simpl; [reflexivity|].
  rewrite length_app, H, IH. reflexivity.
Qed.

(** The result of a SELECT depends on the FROM clause through the
    table names only. *)
Lemma select_ignores_join_info st sel from1 from2 names ji1 ji2 w o :
  parse_from from1 = Ok (names, ji1) ->
  parse_from from2 = Ok (names, ji2) ->
  select_groups like_match st sel from1 w o
  = select_groups like_match st sel from2 w o.
Proof.
  intros H1 H2. unfold select_groups. rewrite H1, H2. reflexivity.
Qed.

(** C5, as the code has it.  With two or more tables in the FROM
    clause the rows materialized are the nested-loop cross product of
    the rows of the first table with the rows of the second table only
    (the join of the specification cut after the second table); a
    third or later table adds nothing.  Each joined row holds the
    values of the second table's row under the key prefixed with the
    second name and a dot.  The ON conditions are collected by the
    parser and never used: two FROM clauses that name the same tables
    give the same result whatever their ON conditions. *)
Theorem join_is_cross_product_of_first_two st names t0 t1 later :
  materialize names (t0 :: t1 :: later)
  = Ok (join_all [nth 0 names EmptyString; nth 1 names EmptyString] [t0; t1])
  /\ (forall rows, materialize names (t0 :: t1 :: later) = Ok rows ->
        List.length rows
        = List.length (Table.rows t0) * List.length (Table.rows t1))
  /\ (forall row1 row2 k v,
        NoDup (map fst row2) -> row_get row2 k = Some v ->
        row_get (joined_row (nth 1 names EmptyString) row1 row2)
          (nth 1 names EmptyString ++ "." ++ k)%string = Some v)
  /\ (forall sel from1 from2 tables ji1 ji2 w o,
        parse_from from1 = Ok (tables, ji1) ->
        parse_from from2 = Ok (tables, ji2) ->
        select_groups like_match st sel from1 w o
        = select_groups like_match st sel from2 w o).
Proof.
  split; [reflexivity|]. split; [|split].
  - intros rows H. injection H as <-.
    apply flat_map_length_const. intros a. apply length_map.
  - intros row1 row2 k v. apply joined_row_prefixed.
  - intros sel from1 from2 tables ji1 ji2 w o.
    apply select_ignores_join_info.
Qed.

(** *** The entry point and the transaction log *)

Lemma dispatch_handler_txn st sql :
  is_control (classify sql) = false -> same_txn (fst (dispatch st sql)) st.
Proof.
  unfold SimpleRDBMS.dispatch, classify.
  repeat match goal with
    | |- context [if ?b then _ else _] => destruct b
    end; simpl; intros H; try discriminate H;
    auto using create_table_txn, insert_txn, select_txn, update_txn,
      delete_txn, drop_table_txn, create_index_txn.
  split; reflexivity.
Qed.

Lemma dispatch_control_ok st sql :
  is_control (classify sql) = true -> exists r, snd (dispatch st sql) = Ok r.
Proof.
  unfold SimpleRDBMS.dispatch, classify.
  repeat match goal with
    | |- context [if ?b then _ else _] => destruct b
    end; simpl; intros H; try discriminate H; eauto.
Qed.

Lemma dispatch_commit st sql :
  classify sql = KCommit ->
  dispatch st sql =
    (set_log (set_in_transaction st false) [],
     Ok (committed (List.length (transaction_log st)))).
Proof.
  unfold SimpleRDBMS.dispatch, classify.
  repeat match goal with
    | |- context [if ?b then _ else _] => destruct b
    end; simpl; intros H; try discriminate H; reflexivity.
Qed.

Lemma dispatch_rollback st sql :
  classify sql = KRollback ->
  dispatch st sql = (_rollback_transaction st, Ok rolled_back).
Proof.
  unfold SimpleRDBMS.dispatch, classify.
  repeat match goal with
    | |- context [if ?b then _ else _] => destruct b
    end; simpl; intros H; try discriminate H; reflexivity.
Qed.

Lemma dispatch_begin st sql :
  classify sql = KBegin ->
  dispatch st sql =
    (_begin_transaction st, Ok [[("status", VText "Transaction started")]]).
Proof.
  unfold SimpleRDBMS.dispatch, classify.
  repeat match goal with
    | |- context [if ?b then _ else _] => destruct b
    end; simpl; intros H; try discriminate H; reflexivity.
Qed.

(** A statement that raises leaves the log as [dispatch] received it. *)
Lemma dispatch_raise_txn st sql st' e :
  dispatch st sql = (st', Raise e) -> same_txn st' st.
Proof.
  intros H. destruct (is_control (classify sql)) eqn:K.
  - destruct (dispatch_control_ok st sql K) as [r Hr].
    rewrite H in Hr; discriminate Hr.
  - generalize (dispatch_handler_txn st sql K). rewrite H. auto.
Qed.

(** While a transaction is open the statement is logged, then dispatched. *)
Lemma execute_sql_open st sql :
  _in_transaction st = true ->
  execute_sql st sql
  = dispatch (set_log st (transaction_log st ++ [normalize sql])) (normalize sql).
Proof.
  intros Hopen. unfold SimpleRDBMS.execute_sql, log_statement.
  rewrite Hopen. reflexivity.
Qed.

Lemma commit_counts_itself st sql :
  _in_transaction st = true ->
  classify (normalize sql) = KCommit ->
  execute_sql st sql
  = (set_log (set_in_transaction st false) [],
     Ok (committed (List.length (transaction_log st) + 1))).
Proof.
  intros Hopen K. rewrite (execute_sql_open st sql Hopen), (dispatch_commit _ _ K).
  simpl. rewrite length_app. reflexivity.
Qed.

Lemma rollback_clears_log st sql :
  _in_transaction st = true ->
  classify (normalize sql) = KRollback ->
  execute_sql st sql
  = (_rollback_transaction
       (set_log st (transaction_log st ++ [normalize sql])), Ok rolled_back).
Proof.
  intros Hopen K. rewrite (execute_sql_open st sql Hopen).
  apply dispatch_rollback, K.
Qed.

(** C9.  While a transaction is open, [execute_sql] hands [dispatch] the
    normalized statement together with a state whose log already ends
    with that statement.  Hence a statement that raises is in the log
    afterwards; COMMIT counts itself, its number of operations being
    one more than the length of the log before the call; and ROLLBACK
    runs on the log that already holds the ROLLBACK statement, and
    leaves it empty. *)
Theorem statement_logged_before_dispatch st sql :
  _in_transaction st = true ->
  let logged := set_log st (transaction_log st ++ [normalize sql]) in
  execute_sql st sql = dispatch logged (normalize sql)
  /\ (forall st' e,
        execute_sql st sql = (st', Raise e) ->
        transaction_log st' = transaction_log st ++ [normalize sql])
  /\ (classify (normalize sql) = KCommit ->
      execute_sql st sql =
        (set_log (set_in_transaction st false) [],
         Ok (committed (List.length (transaction_log st) + 1))))
  /\ (classify (normalize sql) = KRollback ->
      execute_sql st sql = (_rollback_transaction logged, Ok rolled_back)
      /\ transaction_log (fst (execute_sql st sql)) = []).
Proof.
  intros Hopen logged.
  assert (E := execute_sql_open st sql Hopen). fold logged in E.
  split; [exact E|]. split; [|split].
  - intros st' e H. rewrite E in H.
    apply dispatch_raise_txn in H. destruct H as [H _]. exact H.
  - apply commit_counts_itself, Hopen.
  - intros K. rewrite (rollback_clears_log st sql Hopen K).
    split; reflexivity.
Qed.

(** C4, as the code has it.  After BEGIN the log is empty.  Every
    statement run next that is not BEGIN, COMMIT or ROLLBACK adds its
    normalized text (blanks stripped at both ends, newlines and tabs
    turned into spaces) to the log before it is dispatched, whether it
    then returns or raises, so the log lists the normalized texts in
    execution order.  COMMIT returns the length of the log at commit
    time, which counts the COMMIT statement itself, and empties the
    log; ROLLBACK empties the log. *)
Theorem transaction_log_in_order st begin sqls :
  classify (normalize begin) = KBegin ->
  (forall s, In s sqls -> is_control (classify (normalize s)) = false) ->
  let opened := fst (execute_sql st begin) in
  let before_end := run opened sqls in
  transaction_log opened = [] /\ _in_transaction opened = true
  /\ transaction_log before_end = map normalize sqls
  /\ _in_transaction before_end = true
  /\ (forall commit,
        classify (normalize commit) = KCommit ->
        snd (execute_sql before_end commit)
        = Ok (committed (List.length sqls + 1))
        /\ transaction_log (fst (execute_sql before_end commit)) = []
        /\ _in_transaction (fst (execute_sql before_end commit)) = false)
  /\ (forall rollback,
        classify (normalize rollback) = KRollback ->
        transaction_log (fst (execute_sql before_end rollback)) = []
        /\ _in_transaction (fst (execute_sql before_end rollback)) = false).
Proof.
  intros Kb Hs opened before_end.
  assert (O : transaction_log opened = [] /\ _in_transaction opened = true).
  { unfold opened, SimpleRDBMS.execute_sql.
    rewrite (dispatch_begin _ _ Kb). split; reflexivity. }
  assert (R : forall l s0,
             _in_transaction s0 = true ->
             (forall s, In s l -> is_control (classify (normalize s)) = false) ->
             transaction_log (run s0 l) = transaction_log s0 ++ map normalize l
             /\ _in_transaction (run s0 l) = true).
  { induction l as [|s l IH]; intros s0 H0 Hl; simpl.
    - rewrite app_nil_r. auto.
    - assert (Ks := Hl s (or_introl eq_refl)).
      assert (T : same_txn (fst (execute_sql s0 s))
                    (set_log s0 (transaction_log s0 ++ [normalize s]))).
      { unfold SimpleRDBMS.execute_sql, log_statement. rewrite H0.
        apply dispatch_handler_txn, Ks. }
      destruct T as [T1 T2]. simpl in T1, T2.
      destruct (IH (fst (execute_sql s0 s))) as [I1 I2].
      + congruence.
      + intros x Hx. apply Hl. right. exact Hx.
      + split; [|exact I2]. rewrite I1, T1, <- app_assoc. reflexivity. }
  destruct O as [O1 O2].
  destruct (R sqls opened O2 Hs) as [R1 R2]. fold before_end in R1, R2.
  rewrite O1 in R1. simpl in R1.
  repeat split; auto.
  - rewrite (commit_counts_itself before_end commit R2 H), R1, length_map.
    reflexivity.
  - rewrite (commit_counts_itself before_end commit R2 H). reflexivity.
  - rewrite (commit_counts_itself before_end commit R2 H). reflexivity.
  - rewrite (rollback_clears_log before_end rollback R2 H). reflexivity.
  - rewrite (rollback_clears_log before_end rollback R2 H). reflexivity.
Qed.

(** What an INSERT that returned has stored is what ROLLBACK reloads:
    the table is the same after the rollback as before it. *)
Lemma rollback_keeps_successful_insert st sql st1 res :
  _execute_insert st sql = (st1, Ok res) ->
  NoDup (map fst (disk st1)) ->
  exists n t,
    get_table st1 n = Some t
    /\ get_table (_rollback_transaction st1) n = Some t.
Proof.
  intros H ND.
  destruct (insert_saves_snapshot st sql st1 res H) as (n & t & G & D & _).
  exists n, t. split; [exact G|].
  destruct (rollback_reloads st1 ND) as (_ & _ & _ & R). apply (R n t D).
Qed.

(** *** The statements that succeed keep the indexes consistent *)

Lemma get_table_put_other st n n' t :
  n <> n' -> get_table (put_table st n t) n' = get_table st n'.
Proof. intros N. unfold get_table, put_table. simpl. apply dict_get_set_other, N. Qed.

Lemma tables_built_put st n t :
  tables_built st -> indexes_built t -> tables_built (put_table st n t).
Proof.
  intros B Bt n' t' G. destruct (String.eqb n n') eqn:E.
  - apply String.eqb_eq in E; subst n'. rewrite get_table_put in G.
    injection G as <-. exact Bt.
  - apply String.eqb_neq in E. rewrite (get_table_put_other st n n' t E) in G.
    apply (B n' t' G).
Qed.

Lemma tables_built_saved st n st' o :
  _save_table st n = (st', o) -> tables_built st -> tables_built st'.
Proof.
  unfold _save_table. destruct (get_table st n); intros H B;
    injection H as <- _; exact B.
Qed.

Lemma append_row_built table r :
  indexes_built table -> indexes_built (append_row table r).
Proof.
  unfold indexes_built, append_row, map_values. simpl. intros B.
  rewrite Forall_map. revert B. apply Forall_impl. intros [n idx] H.
  unfold built, index_append in *. simpl in *.
  rewrite H, build_entries_app, length_app. simpl.
  f_equal. lia.
Qed.

Lemma rebuild_all_built table : indexes_built (rebuild_all table).
Proof.
  unfold indexes_built, rebuild_all, map_values. simpl.
  rewrite Forall_map. apply Forall_forall. intros [n idx] _. reflexivity.
Qed.

Lemma set_rows_same table : Table.set_rows table (Table.rows table) = table.
Proof. destruct table; reflexivity. Qed.

Lemma insert_keeps_built st sql st' o :
  tables_built st -> _execute_insert st sql = (st', o) -> tables_built st'.
Proof.
  intros B. unfold _execute_insert.
  destruct (Re.rmatch insert_pattern sql) as [m|];
    [|intros H; injection H as <- _; exact B].
  destruct (get_table st (group_str m 1)) as [table|] eqn:G;
    [|intros H; injection H as <- _; exact B].
  destruct (negb _); [intros H; injection H as <- _; exact B|].
  destruct (_validate_row table _); [|intros H; injection H as <- _; exact B].
  destruct (_save_table _ _) as [st2 o2] eqn:S. intros H. injection H as <- _.
  apply (tables_built_saved _ _ _ _ S).
  apply tables_built_put; [exact B|]. apply append_row_built, (B _ _ G).
Qed.

Lemma update_sweep_count cols w u : forall todo i done count rows' c,
  update_sweep like_match cols w u i done todo count = (rows', Ok c) ->
  count <= c /\ (c = count -> rows' = done ++ todo).
Proof.
  induction todo as [|r todo IH]; intros i done count rows' c H; simpl in H.
  - injection H as <- <-. rewrite app_nil_r. auto.
  - destruct (if negb (truthy w) then Ok true
              else SimpleRDBMS._evaluate_where like_match r (group_or_empty w))
      as [[|]|e]; [| |discriminate H].
    + destruct (check_updates cols (done ++ r :: todo) i u); [|discriminate H].
      destruct (IH _ _ _ _ _ H) as [L _]. split; [lia|]. intros ->. lia.
    + destruct (IH _ _ _ _ _ H) as [L E]. split; [exact L|].
      intros Hc. rewrite (E Hc), <- app_assoc. reflexivity.
Qed.

Lemma update_keeps_built st sql st' res :
  tables_built st ->
  _execute_update like_match st sql = (st', Ok res) -> tables_built st'.
Proof.
  intros B. unfold _execute_update.
  destruct (Re.rmatch update_pattern sql) as [m|]; [|discriminate].
  destruct (get_table st (group_str m 1)) as [table|] eqn:G; [|discriminate].
  destruct (parse_assignments _ _) as [updates|]; [|discriminate].
  destruct (update_sweep _ _ _ _ _ _ _ _) as [rows' [c|e]] eqn:U; [|discriminate].
  destruct (Nat.ltb 0 c) eqn:Z.
  - destruct (_save_table _ _) as [st2 o2] eqn:S. intros H. injection H as <- _.
    apply (tables_built_saved _ _ _ _ S).
    apply tables_built_put; [exact B | apply rebuild_all_built].
  - intros H. injection H as <- _.
    apply Nat.ltb_ge in Z.
    destruct (update_sweep_count _ _ _ _ _ _ _ _ _ U) as [_ E].
    rewrite (E ltac:(lia)). simpl. rewrite set_rows_same.
    apply tables_built_put; [exact B | apply (B _ _ G)].
Qed.

Lemma delete_keeps_built st sql st' o :
  tables_built st ->
  _execute_delete like_match st sql = (st', o) -> tables_built st'.
Proof.
  intros B. unfold _execute_delete.
  destruct (Re.rmatch delete_pattern sql) as [m|];
    [|intros H; injection H as <- _; exact B].
  destruct (get_table st (group_str m 1)) as [table|] eqn:G;
    [|intros H; injection H as <- _; exact B].
  destruct (rows_to_delete _ _ _ _) as [positions|e];
    [|intros H; injection H as <- _; exact B].
  destruct (Nat.ltb 0 (List.length positions)) eqn:Z.
  - destruct (_save_table _ _) as [st2 o2] eqn:S. intros H. injection H as <- _.
    apply (tables_built_saved _ _ _ _ S).
    apply tables_built_put; [exact B | apply rebuild_all_built].
  - intros H. injection H as <- _.
    apply Nat.ltb_ge in Z. destruct positions; [|simpl in Z; lia].
    unfold delete_positions. simpl. rewrite set_rows_same.
    apply tables_built_put; [exact B | apply (B _ _ G)].
Qed.

(** INSERT and DELETE, whether they return or raise, and UPDATE when it
    returns, keep every index equal to its rebuild, hence consistent in
    the sense of the specification. *)
Theorem indexes_consistent_unless_update_raises st sql st' o :
  tables_built st ->
  _execute_insert st sql = (st', o)
  \/ _execute_delete like_match st sql = (st', o)
  \/ (exists res, o = Ok res /\ _execute_update like_match st sql = (st', o)) ->
  tables_built st'
  /\ (forall table_name table,
        get_table st' table_name = Some table -> index_consistent table).
Proof.
  intros B H.
  assert (B' : tables_built st').
  { destruct H as [H|[H|[res [-> H]]]].
    - apply (insert_keeps_built st sql st' o B H).
    - apply (delete_keeps_built st sql st' o B H).
    - apply (update_keeps_built st sql st' res B H). }
  split; [exact B'|].
  intros n t G. apply built_is_consistent, (B' n t G).
Qed.

(** *** [_evaluate_where]: the recursion ends, AND is split first *)

Abbreviation evaluate_fuel := (SimpleRDBMS.evaluate_fuel like_match).
Abbreviation _evaluate_where := (SimpleRDBMS._evaluate_where like_match).

Lemma all_of_mono f g parts o :
  (forall p o', In p parts -> f p = Some o' -> g p = Some o') ->
  all_of f parts = Some o -> all_of g parts = Some o.
Proof.
  induction parts as [|p parts IH]; intros M H; [exact H|].
  cbn [all_of] in *. destruct (f p) as [[b|e]|] eqn:E; [| |discriminate H].
  - rewrite (M p (Ok b) (or_introl eq_refl) E).
    destruct b; [|exact H].
    apply IH; [|exact H]. intros q o' Hq. apply M. right. exact Hq.
  - rewrite (M p (Raise e) (or_introl eq_refl) E). exact H.
Qed.

Lemma any_of_mono f g parts o :
  (forall p o', In p parts -> f p = Some o' -> g p = Some o') ->
  any_of f parts = Some o -> any_of g parts = Some o.
Proof.
  induction parts as [|p parts IH]; intros M H; [exact H|].
  cbn [any_of] in *. destruct (f p) as [[b|e]|] eqn:E; [| |discriminate H].
  - rewrite (M p (Ok b) (or_introl eq_refl) E).
    destruct b; [exact H|].
    apply IH; [|exact H]. intros q o' Hq. apply M. right. exact Hq.
  - rewrite (M p (Raise e) (or_introl eq_refl) E). exact H.
Qed.

(** More fuel does not change an answer. *)
Lemma evaluate_fuel_mono n : forall m r c o,
  n <= m -> evaluate_fuel n r c = Some o -> evaluate_fuel m r c = Some o.
Proof.
  induction n as [|n IH]; intros m r c o L H; [discriminate H|].
  destruct m as [|m]; [lia|].
  cbn [SimpleRDBMS.evaluate_fuel] in *.
  destruct (PyStr.contains " AND " (PyStr.upper (PyStr.strip c))).
  - apply (all_of_mono (evaluate_fuel n r)); [|exact H].
    intros p o' _. apply IH. lia.
  - destruct (PyStr.contains " OR " (PyStr.upper (PyStr.strip c))); [|exact H].
    apply (any_of_mono (evaluate_fuel n r)); [|exact H].
    intros p o' _. apply IH. lia.
Qed.

Lemma all_of_total f parts :
  (forall p, In p parts -> exists o, f p = Some o) ->
  exists o, all_of f parts = Some o.
Proof.
  induction parts as [|p parts IH]; intros T; cbn [all_of]; [eauto|].
  destruct (T p (or_introl eq_refl)) as [[b|e] E]; rewrite E; [|eauto].
  destruct b; [|eauto]. apply IH. intros q Hq. apply T. right. exact Hq.
Qed.

Lemma any_of_total f parts :
  (forall p, In p parts -> exists o, f p = Some o) ->
  exists o, any_of f parts = Some o.
Proof.
  induction parts as [|p parts IH]; intros T; cbn [any_of]; [eauto|].
  destruct (T p (or_introl eq_refl)) as [[b|e] E]; rewrite E; [|eauto].
  destruct b; [eauto|]. apply IH. intros q Hq. apply T. right. exact Hq.
Qed.

Lemma and_parts_shorter c p :
  PyStr.contains " AND " (PyStr.upper (PyStr.strip c)) = true ->
  In p (Re.split (Re.spaced "AND") (PyStr.strip c)) ->
  String.length p < String.length c.
Proof.
  intros H Hp. generalize (strip_length c).
  assert (K := keyword_splits "AND" (PyStr.strip c) eq_refl eq_refl
                 ltac:(simpl; lia) H).
  generalize (parts_shorter _ _ p K Hp). lia.
Qed.

Lemma or_parts_shorter c p :
  PyStr.contains " OR " (PyStr.upper (PyStr.strip c)) = true ->
  In p (Re.split (Re.spaced "OR") (PyStr.strip c)) ->
  String.length p < String.length c.
Proof.
  intros H Hp. generalize (strip_length c).
  assert (K := keyword_splits "OR" (PyStr.strip c) eq_refl eq_refl
                 ltac:(simpl; lia) H).
  generalize (parts_shorter _ _ p K Hp). lia.
Qed.

(** The recursion of [_evaluate_where] ends: fuel above the length of
    the condition is never used up. *)
Lemma evaluate_fuel_total n : forall r c,
  String.length c < n -> exists o, evaluate_fuel n r c = Some o.
Proof.
  induction n as [|n IH]; intros r c L; [lia|].
  cbn [SimpleRDBMS.evaluate_fuel].
  destruct (PyStr.contains " AND " (PyStr.upper (PyStr.strip c))) eqn:A.
  - apply all_of_total. intros p Hp. apply IH.
    generalize (and_parts_shorter c p A Hp). lia.
  - destruct (PyStr.contains " OR " (PyStr.upper (PyStr.strip c))) eqn:O; [|eauto].
    apply any_of_total. intros p Hp. apply IH.
    generalize (or_parts_shorter c p O Hp). lia.
Qed.

Lemma evaluate_fuel_where n r c :
  String.length c < n -> evaluate_fuel n r c = Some (_evaluate_where r c).
Proof.
  intros L. unfold SimpleRDBMS._evaluate_where.
  destruct (evaluate_fuel_total (S (String.length c)) r c) as [o E]; [lia|].
  rewrite E. apply (evaluate_fuel_mono (S (String.length c))); [lia | exact E].
Qed.

Lemma all_of_conj f g parts :
  (forall p, In p parts -> f p = Some (g p)) ->
  all_of f parts = Some (conj_lazy g parts).
Proof.
  induction parts as [|p parts IH]; intros E; [reflexivity|].
  cbn [all_of conj_lazy]. rewrite (E p (or_introl eq_refl)).
  unfold and_then. destruct (g p) as [[]|e]; simpl; [|reflexivity|reflexivity].
  apply IH. intros q Hq. apply E. right. exact Hq.
Qed.

Lemma any_of_disj f g parts :
  (forall p, In p parts -> f p = Some (g p)) ->
  any_of f parts = Some (disj_lazy g parts).
Proof.
  induction parts as [|p parts IH]; intros E; [reflexivity|].
  cbn [any_of disj_lazy]. rewrite (E p (or_introl eq_refl)).
  unfold or_else. destruct (g p) as [[]|e]; simpl; [reflexivity| |reflexivity].
  apply IH. intros q Hq. apply E. right. exact Hq.
Qed.

(** A condition with AND is the conjunction of the pieces of its split
    at AND, each evaluated in turn. *)
Lemma evaluate_and r c :
  PyStr.contains " AND " (PyStr.upper (PyStr.strip c)) = true ->
  _evaluate_where r c
  = conj_lazy (_evaluate_where r) (Re.split (Re.spaced "AND") (PyStr.strip c)).
Proof.
  intros A. unfold SimpleRDBMS._evaluate_where at 1.
  cbn [SimpleRDBMS.evaluate_fuel]. rewrite A.
  rewrite (all_of_conj _ (_evaluate_where r)); [reflexivity|].
  intros p Hp. apply evaluate_fuel_where, (and_parts_shorter c p A Hp).
Qed.

(** A condition with OR and without AND is the disjunction of the pieces
    of its split at OR. *)
Lemma evaluate_or r c :
  PyStr.contains " AND " (PyStr.upper (PyStr.strip c)) = false ->
  PyStr.contains " OR " (PyStr.upper (PyStr.strip c)) = true ->
  _evaluate_where r c
  = disj_lazy (_evaluate_where r) (Re.split (Re.spaced "OR") (PyStr.strip c)).
Proof.
  intros A O. unfold SimpleRDBMS._evaluate_where at 1.
  cbn [SimpleRDBMS.evaluate_fuel]. rewrite A, O.
  rewrite (any_of_disj _ (_evaluate_where r)); [reflexivity|].
  intros p Hp. apply evaluate_fuel_where, (or_parts_shorter c p O Hp).
Qed.

Lemma and_then_true b : and_then b (Ok true) = b.
Proof. destruct b as [[]|e]; reflexivity. Qed.

Lemma or_else_false b : or_else b (Ok false) = b.
Proof. destruct b as [[]|e]; reflexivity. Qed.

Lemma plain_app kw a b :
  plain_words kw a = true -> plain_words kw b = true ->
  plain_words kw (a ++ b) = true.
Proof. unfold plain_words. intros Ha Hb. rewrite forallb_app, Ha, Hb. reflexivity. Qed.

Lemma contains_keyword kw x k y :
  is_keyword kw k = true -> uppercase kw = true ->
  PyStr.contains (" " ++ kw ++ " ") (PyStr.upper (x ++ " " ++ k ++ " " ++ y))
  = true.
Proof.
  intros Hk Hu. rewrite upper_app. apply contains_app_r.
  rewrite upper_app, upper_app, upper_app, (keyword_upper kw k Hk).
  assert (E : PyStr.upper kw = kw).
  { clear Hk. unfold uppercase in Hu. induction kw as [|c kw IH]; [reflexivity|].
    cbn [PyStr.all_chars] in Hu. apply andb_prop in Hu. destruct Hu as [Hc Hu].
    apply Ascii.eqb_eq in Hc. cbn [PyStr.upper]. rewrite Hc, (IH Hu). reflexivity. }
  rewrite E.
  change (PyStr.upper " ") with " ".
  rewrite <- !append_assoc.
  assert (S : forall p t, PyStr.contains p (p ++ t) = true).
  { intros p t. destruct p; simpl; [destruct t; reflexivity|].
    rewrite Ascii.eqb_refl, startswith_app. reflexivity. }
  rewrite (append_assoc " " kw " "). apply S.
Qed.

(** A run of words without the keyword has no split, so its upper-cased
    text does not hold the keyword between spaces. *)
Lemma no_keyword_in_plain_words kw ws :
  letters kw = true -> uppercase kw = true -> 0 < String.length kw ->
  plain_words kw ws = true -> ws <> [] ->
  PyStr.contains (" " ++ kw ++ " ") (PyStr.upper (join_words ws)) = false.
Proof.
  intros Hl Hu Hn Hp Hne.
  destruct (PyStr.contains _ _) eqn:C; [|reflexivity].
  generalize (keyword_splits kw (join_words ws) Hl Hu Hn C).
  unfold Re.split. rewrite <- (append_empty_r (join_words ws)) at 1.
  rewrite (split_words kw ws EmptyString Hl Hp Hne (or_introl eq_refl)).
  simpl. lia.
Qed.

(** The form [A OR B AND C] on words. *)
Lemma or_and_form r wa wb wc or_word and_word :
  plain_words "AND" wa = true -> plain_words "OR" wa = true -> wa <> [] ->
  plain_words "AND" wb = true -> plain_words "OR" wb = true -> wb <> [] ->
  plain_words "AND" wc = true -> wc <> [] ->
  is_keyword "OR" or_word = true -> is_keyword "AND" and_word = true ->
  let A := join_words wa in
  let B := join_words wb in
  let C := join_words wc in
  _evaluate_where r (A ++ " " ++ or_word ++ " " ++ B)
  = or_else (_evaluate_where r A) (_evaluate_where r B)
  /\ _evaluate_where r
       (A ++ " " ++ or_word ++ " " ++ B ++ " " ++ and_word ++ " " ++ C)
     = and_then (or_else (_evaluate_where r A) (_evaluate_where r B))
         (_evaluate_where r C).
Proof.
  intros HaA HaO Hane HbA HbO Hbne HcA Hcne Hor Hand A B C. subst A B C.
  set (A := join_words wa). set (B := join_words wb). set (C := join_words wc).
  assert (Wor : is_word or_word = true).
  { apply (keyword_is_word "OR"); [reflexivity | simpl; lia | exact Hor]. }
  assert (Wand : is_word and_word = true).
  { apply (keyword_is_word "AND"); [reflexivity | simpl; lia | exact Hand]. }
  assert (Nor : is_keyword "AND" or_word = false).
  { apply (other_length_is_not_keyword "AND" "OR"); [exact Hor | discriminate]. }
  set (u := wa ++ or_word :: wb).
  assert (Eu : join_words u = (A ++ " " ++ or_word ++ " " ++ B)%string).
  { unfold u. rewrite join_app by (congruence || discriminate).
    change (or_word :: wb) with ([or_word] ++ wb).
    rewrite join_app by (congruence || discriminate). reflexivity. }
  assert (Pu : plain_words "AND" u = true).
  { unfold u. apply plain_app; [exact HaA|].
    unfold plain_words in *. cbn [forallb]. rewrite Wor, Nor, HbA. reflexivity. }
  assert (Une : u <> []).
  { unfold u. destruct wa; discriminate. }
  assert (Wu : forallb is_word u = true) by apply (plain_are_words "AND" u Pu).
  (* the disjunction *)
  assert (X : _evaluate_where r (join_words u)
              = or_else (_evaluate_where r A) (_evaluate_where r B)).
  { rewrite evaluate_or; rewrite (strip_join u Wu Une).
    - rewrite Eu. unfold A, B.
      rewrite (split_at_keyword "OR" wa or_word wb eq_refl ltac:(simpl; lia)
                 HaO Hane HbO Hbne Hor).
      cbn [disj_lazy]. rewrite or_else_false. reflexivity.
    - apply (no_keyword_in_plain_words "AND" u eq_refl eq_refl
               ltac:(simpl; lia) Pu Une).
    - rewrite Eu. apply (contains_keyword "OR" A or_word B Hor eq_refl). }
  split; [rewrite <- Eu; exact X|].
  (* the conjunction *)
  set (all := u ++ and_word :: wc).
  assert (Eall : join_words all
                 = (join_words u ++ " " ++ and_word ++ " " ++ C)%string).
  { unfold all. rewrite join_app by (congruence || discriminate).
    change (and_word :: wc) with ([and_word] ++ wc).
    rewrite join_app by (congruence || discriminate). reflexivity. }
  assert (Wall : forallb is_word all = true).
  { unfold all. rewrite forallb_app, Wu. cbn [forallb]. rewrite Wand.
    apply (plain_are_words "AND" wc HcA). }
  assert (Allne : all <> []).
  { unfold all. destruct u; discriminate. }
  replace (A ++ " " ++ or_word ++ " " ++ B ++ " " ++ and_word ++ " " ++ C)%string
    with (join_words all).
  2:{ rewrite Eall, Eu, !append_assoc. reflexivity. }
  rewrite evaluate_and; rewrite (strip_join all Wall Allne).
  - rewrite Eall. unfold C.
    rewrite (split_at_keyword "AND" u and_word wc eq_refl ltac:(simpl; lia)
               Pu Une HcA Hcne Hand).
    cbn [conj_lazy]. rewrite and_then_true, X. reflexivity.
  - rewrite Eall.
    apply (contains_keyword "AND" (join_words u) and_word C Hand eq_refl).
Qed.

End Properties.

(** ** The properties on runs of the engine *)

Import SimpleRDBMS.

Lemma insert_duplicate_unique_refused_witness :
  Re.rmatch insert_pattern "INSERT INTO t VALUES (1,'c')"
  = Some [(3, "1,'c'"); (1, "t")]
  /\ exists e,
      _validate_row (Demo.table_of Demo.two_rows "t")
        [("id", VInt 1); ("name", VText "c")] = Raise e
      /\ _execute_insert Demo.two_rows "INSERT INTO t VALUES (1,'c')"
         = (Demo.two_rows, Raise e).
Proof.
  split; [reflexivity|].
  refine (proj1 (insert_duplicate_unique_refused Demo.two_rows
                   "INSERT INTO t VALUES (1,'c')" [(3, "1,'c'"); (1, "t")]
                   (Demo.table_of Demo.two_rows "t") Demo.id_column (VInt 1)
                   Demo.row_1a _ _ _ _ _ _ _ _ _)).
  - reflexivity.
  - reflexivity.
  - reflexivity.
  - vm_compute. left. reflexivity.
  - reflexivity.
  - reflexivity.
  - discriminate.
  - vm_compute. left. reflexivity.
  - reflexivity.
Defined.

Lemma statement_logged_before_dispatch_witness :
  _in_transaction Demo.opened = true
  /\ transaction_log
       (fst (Demo.execute_sql Demo.opened "INSERT INTO missing VALUES (1)"))
     = ["INSERT INTO missing VALUES (1)"].
Proof.
  split; [reflexivity|].
  refine (proj1 (proj2 (statement_logged_before_dispatch Like.percent
                          Demo.opened "INSERT INTO missing VALUES (1)" _))
            _ (ValueError "Table 'missing' does not exist") _);
    reflexivity.
Defined.

(** C4, as the specification states it, does not hold: a statement that raises (it was never
    applied) is in the log; the text logged is the normalized text, not
    the text received; COMMIT after one statement reports two
    operations; and a second BEGIN empties the log of the statements
    run so far. *)
Lemma log_is_neither_verbatim_nor_after_apply :
  let after := Demo.execute_sql Demo.opened Demo.tabbed_insert in
  snd after = Raise (ValueError "Table 'missing' does not exist")
  /\ transaction_log (fst after) = ["INSERT INTO missing VALUES (1)"]
  /\ transaction_log (fst after) <> [Demo.tabbed_insert]
  /\ snd (Demo.execute_sql (fst after) "COMMIT") = Ok (committed 2)
  /\ transaction_log (fst (Demo.execute_sql (fst after) "BEGIN")) = [].
Proof. vm_compute. repeat split. discriminate. Qed.

Lemma transaction_log_in_order_witness :
  let sqls := ["INSERT INTO t VALUES (3,'c')"; "  SELECT * FROM t";
               "DELETE FROM missing"] in
  let before_end := Demo.run (fst (Demo.execute_sql Demo.two_rows "BEGIN")) sqls in
  classify (normalize "BEGIN") = KBegin
  /\ transaction_log before_end
     = ["INSERT INTO t VALUES (3,'c')"; "SELECT * FROM t"; "DELETE FROM missing"]
  /\ snd (Demo.execute_sql before_end "COMMIT") = Ok (committed 4).
Proof.
  intros sqls before_end.
  assert (K : classify (normalize "BEGIN") = KBegin) by reflexivity.
  assert (H : forall s, In s sqls -> is_control (classify (normalize s)) = false).
  { intros s [<-|[<-|[<-|[]]]]; reflexivity. }
  destruct (transaction_log_in_order Like.percent Demo.two_rows "BEGIN" sqls K H)
    as (_ & _ & L & _ & C & _).
  split; [exact K|]. split; [exact L|].
  exact (proj1 (C "COMMIT" eq_refl)).
Defined.

(** C5, as the specification states it, does not hold: with three tables in the FROM clause
    the rows materialized are those of the first two; the join of the
    specification has twice as many. *)
Lemma third_table_is_not_joined :
  let t := Demo.table_of Demo.two_rows "t" in
  (exists rows,
      materialize ["t"; "t"; "t"] [t; t; t] = Ok rows
      /\ List.length rows = 4
      /\ List.length (join_all ["t"; "t"; "t"] [t; t; t]) = 8)
  /\ (exists rows,
        snd (Demo.execute_sql Demo.two_rows "SELECT id FROM t JOIN t JOIN t")
        = Ok rows /\ List.length rows = 4).
Proof. vm_compute. split; eexists; repeat split. Qed.

Lemma join_is_cross_product_of_first_two_witness :
  parse_from "t JOIN t ON t.id = t.id" = Ok (["t"; "t"], ["t.id = t.id"])
  /\ parse_from "t JOIN t ON t.id = 7" = Ok (["t"; "t"], ["t.id = 7"])
  /\ select_groups Like.percent Demo.two_rows "*" "t JOIN t ON t.id = t.id"
       None None
     = select_groups Like.percent Demo.two_rows "*" "t JOIN t ON t.id = 7"
         None None
  /\ row_get (joined_row "t" Demo.row_1a Demo.row_2b) "t.name"
     = Some (VText "b").
Proof.
  assert (P1 : parse_from "t JOIN t ON t.id = t.id"
               = Ok (["t"; "t"], ["t.id = t.id"])) by reflexivity.
  assert (P2 : parse_from "t JOIN t ON t.id = 7"
               = Ok (["t"; "t"], ["t.id = 7"])) by reflexivity.
  destruct (join_is_cross_product_of_first_two Like.percent Demo.two_rows
              ["t"; "t"] (Demo.table_of Demo.two_rows "t")
              (Demo.table_of Demo.two_rows "t") [])
    as (_ & _ & Q & I).
  split; [exact P1|]. split; [exact P2|]. split.
  - exact (I "*" _ _ _ _ _ None None P1 P2).
  - apply (Q Demo.row_1a Demo.row_2b "name" (VText "b")).
    + repeat constructor; simpl; intuition discriminate.
    + reflexivity.
Defined.

(** C6, as the specification states it, does not hold: the requested name [t.id] is absent
    from the rows of [t], and every output row holds it, with the null
    value. *)
Lemma absent_dotted_column_is_not_omitted :
  row_get Demo.row_1a "t.id" = None
  /\ project_row ["t.id"] Demo.row_1a = [("t.id", VNone)]
  /\ snd (Demo.execute_sql Demo.two_rows "SELECT t.id FROM t")
     = Ok [[("t.id", VNone)]; [("t.id", VNone)]].
Proof. vm_compute. repeat split. Qed.

(** C10, as the specification states it, does not hold: the INSERT supplies -5 for the
    INTEGER column [n] and raises the null error of the column [id]
    declared before it, not a type-mismatch error. *)
Lemma negative_literal_other_error_first :
  insert_value "-5" = VText "-5"
  /\ snd (Demo.execute_sql Demo.with_u "INSERT INTO u (n) VALUES (-5)")
     = Raise (ValueError "Column 'id' cannot be NULL")
  /\ Raise (A := result) (ValueError "Column 'id' cannot be NULL")
     <> Raise (expects_error Demo.n_column).
Proof. vm_compute. repeat split. discriminate. Qed.

Lemma negative_literal_rejected_witness :
  Re.rmatch insert_pattern "INSERT INTO u VALUES (7, -5)"
  = Some [(3, "7, -5"); (1, "u")]
  /\ _execute_insert Demo.with_u "INSERT INTO u VALUES (7, -5)"
     = (Demo.with_u, Raise (ValueError "Column 'n' expects INTEGER")).
Proof.
  split; [reflexivity|].
  refine (proj2 (proj2 (negative_literal_rejected Demo.with_u
                          "INSERT INTO u VALUES (7, -5)"
                          [(3, "7, -5"); (1, "u")]
                          (Demo.table_of Demo.with_u "u")
                          [Demo.id_not_null] Demo.n_column [] " -5" "5"
                          _ _ _ _ _ _ _)) _);
    try reflexivity.
  left. reflexivity.
Defined.

(** C3, at a failing input.  BEGIN, one INSERT, ROLLBACK: the table holds
    the inserted row after the rollback, because the INSERT saved its
    snapshot; the rows are not those persisted before BEGIN. *)
Theorem rollback_keeps_persisted_insert :
  let after :=
    Demo.run Demo.two_rows ["BEGIN"; "INSERT INTO t VALUES (3,'c')"; "ROLLBACK"] in
  Demo.persisted_rows Demo.two_rows "t" = [Demo.row_1a; Demo.row_2b]
  /\ Demo.rows_of Demo.two_rows "t" = [Demo.row_1a; Demo.row_2b]
  /\ _in_transaction after = false /\ transaction_log after = []
  /\ Demo.rows_of after "t" = [Demo.row_1a; Demo.row_2b; Demo.row_3c]
  /\ Demo.rows_of after "t" <> Demo.persisted_rows Demo.two_rows "t".
Proof. vm_compute. repeat split. discriminate. Qed.

(** C2, at a failing input.  UPDATE without WHERE of a unique column:
    the first row is changed, the second raises, and the statement ends
    before the indexes are rebuilt.  The index on [name] then has no
    entry for the key of the first row and still lists position 0 under
    its old key. *)
Theorem failed_update_leaves_stale_index :
  let after := Demo.execute_sql Demo.two_rows "UPDATE t SET name = 'z'" in
  let table := Demo.table_of (fst after) "t" in
  index_consistent (Demo.table_of Demo.two_rows "t")
  /\ snd after = Raise (ValueError "Duplicate value for unique column 'name'")
  /\ Table.rows table = [[("id", VInt 1); ("name", VText "z")]; Demo.row_2b]
  /\ Dict.get String.eqb (Table.indexes table) "__unique_name"
     = Some (Index.mk ["name"] [([VText "a"], [0]); ([VText "b"], [1])])
  /\ ~ index_consistent table.
Proof.
  split; [|split; [|split; [|split]]]; try reflexivity.
  - intros n idx H.
    let ix := eval vm_compute in
                (Table.indexes (Demo.table_of Demo.two_rows "t")) in
    change (Table.indexes (Demo.table_of Demo.two_rows "t")) with ix in H.
    let rs := eval vm_compute in
                (Table.rows (Demo.table_of Demo.two_rows "t")) in
    change (Table.rows (Demo.table_of Demo.two_rows "t")) with rs.
    cbn [Dict.get] in H.
    destruct (String.eqb "__primary" n);
      [|destruct (String.eqb "__unique_name" n); [|discriminate H]];
      injection H as <-; split.
    + intros [|[|[|p]]] r E; try discriminate E;
        injection E as <-; eexists; split;
        [reflexivity | simpl; auto | reflexivity | simpl; auto ].
    + intros k l p [E|[E|[]]] Hp; injection E as <- <-;
        destruct Hp as [<-|[]]; eexists; split; reflexivity.
    + intros [|[|[|p]]] r E; try discriminate E;
        injection E as <-; eexists; split;
        [reflexivity | simpl; auto | reflexivity | simpl; auto ].
    + intros k l p [E|[E|[]]] Hp; injection E as <- <-;
        destruct Hp as [<-|[]]; eexists; split; reflexivity.
  - intros C.
    destruct (C "__unique_name"
                (Index.mk ["name"] [([VText "a"], [0]); ([VText "b"], [1])])
                eq_refl) as [M _].
    destruct (M 0 [("id", VInt 1); ("name", VText "z")] eq_refl) as [l [E _]].
    vm_compute in E. discriminate E.
Qed.

(** ** Sessions: the catalog, the snapshots and the indexes *)

(** *** Dicts: keys, deletion, assignment of a value already held *)

Lemma dict_set_keys {V} (d : list (string * V)) k v :
  map fst (Dict.set String.eqb d k v)
  = match Dict.get String.eqb d k with
    | Some _ => map fst d
    | None => map fst d ++ [k]
    end.
Proof.
  induction d as [|[k' v'] d IH]; simpl; [reflexivity|].
  destruct (String.eqb k' k) eqn:E; simpl; [reflexivity|].
  rewrite IH. destruct (Dict.get String.eqb d k); reflexivity.
Qed.

Lemma dict_get_none_keys {V} (d : list (string * V)) k :
  Dict.get String.eqb d k = None -> ~ In k (map fst d).
Proof.
  induction d as [|[k' v'] d IH]; simpl; [auto|].
  destruct (String.eqb k' k) eqn:E; [discriminate|].
  intros H [F|F].
  - subst k'. rewrite String.eqb_refl in E. discriminate E.
  - exact (IH H F).
Qed.

Lemma dict_set_nodup {V} (d : list (string * V)) k v :
  NoDup (map fst d) -> NoDup (map fst (Dict.set String.eqb d k v)).
Proof.
  intros ND. rewrite dict_set_keys.
  destruct (Dict.get String.eqb d k) eqn:G; [exact ND|].
  apply NoDup_app; [exact ND | repeat constructor; simpl; auto |].
  intros x Hx [E|[]]. subst x. exact (dict_get_none_keys d k G Hx).
Qed.

Lemma dict_del_keys_incl {V} (d : list (string * V)) k x :
  In x (map fst (Dict.del String.eqb d k)) -> In x (map fst d).
Proof.
  induction d as [|[k' v'] d IH]; simpl; [auto|].
  destruct (String.eqb k' k); simpl; [auto|].
  intros [H|H]; auto.
Qed.

Lemma dict_del_nodup {V} (d : list (string * V)) k :
  NoDup (map fst d) -> NoDup (map fst (Dict.del String.eqb d k)).
Proof.
  induction d as [|[k' v'] d IH]; simpl; [auto|].
  intros ND. inversion ND as [|? ? Hk ND']; subst.
  destruct (String.eqb k' k); simpl; [exact ND'|].
  constructor; [|exact (IH ND')].
  intros F. exact (Hk (dict_del_keys_incl d k k' F)).
Qed.

Lemma dict_get_del {V} (d : list (string * V)) k q :
  NoDup (map fst d) ->
  Dict.get String.eqb (Dict.del String.eqb d k) q
  = if String.eqb k q then None else Dict.get String.eqb d q.
Proof.
  induction d as [|[k' v'] d IH]; simpl; intros ND.
  - destruct (String.eqb k q); reflexivity.
  - inversion ND as [|? ? Hk ND']; subst.
    destruct (String.eqb k' k) eqn:E.
    + apply String.eqb_eq in E; subst k'.
      destruct (String.eqb k q) eqn:E'; [|reflexivity].
      apply String.eqb_eq in E'; subst q. apply dict_get_absent, Hk.
    + simpl. rewrite (IH ND').
      destruct (String.eqb k' q) eqn:E'; [|reflexivity].
      apply String.eqb_eq in E'; subst q.
      rewrite String.eqb_sym, E. reflexivity.
Qed.

Lemma dict_set_same {V} (d : list (string * V)) k v :
  Dict.get String.eqb d k = Some v -> Dict.set String.eqb d k v = d.
Proof.
  induction d as [|[k' v'] d IH]; simpl; [discriminate|].
  destruct (String.eqb k' k).
  - intros H; injection H as ->. reflexivity.
  - intros H. rewrite (IH H). reflexivity.
Qed.

Lemma dict_set_set {V} (d : list (string * V)) k v w :
  Dict.set String.eqb (Dict.set String.eqb d k v) k w = Dict.set String.eqb d k w.
Proof.
  induction d as [|[k' v'] d IH]; simpl.
  - rewrite String.eqb_refl. reflexivity.
  - destruct (String.eqb k' k) eqn:E; simpl; rewrite E; [reflexivity|].
    rewrite IH. reflexivity.
Qed.

Lemma dict_get_in {V} (d : list (string * V)) k v :
  NoDup (map fst d) -> In (k, v) d -> Dict.get String.eqb d k = Some v.
Proof.
  induction d as [|[k' v'] d IH]; simpl; [contradiction|].
  intros ND [H|H]; inversion ND as [|? ? Hk ND']; subst.
  - injection H as -> ->. rewrite String.eqb_refl. reflexivity.
  - destruct (String.eqb k' k) eqn:E; [|exact (IH ND' H)].
    apply String.eqb_eq in E; subst k'. exfalso. apply Hk.
    apply (in_map fst) in H. exact H.
Qed.

Lemma dict_in_get {V} (d : list (string * V)) k v :
  Dict.get String.eqb d k = Some v -> In (k, v) d.
Proof.
  induction d as [|[k' v'] d IH]; simpl; [discriminate|].
  destruct (String.eqb k' k) eqn:E.
  - apply String.eqb_eq in E; subst k'. intros H; injection H as ->. auto.
  - auto.
Qed.

(** Assigning to a dict items that it holds already changes nothing. *)
Lemma dict_assign_held {V} (items : list (string * V)) d :
  (forall k v, In (k, v) items -> Dict.get String.eqb d k = Some v) ->
  fold_left (fun d kv => Dict.set String.eqb d (fst kv) (snd kv)) items d = d.
Proof.
  induction items as [|[k v] items IH]; simpl; intros H; [reflexivity|].
  rewrite (dict_set_same d k v (H k v (or_introl eq_refl))).
  apply IH. intros k' v' I. apply H. right. exact I.
Qed.

(** Assigning items with distinct new keys appends them in order. *)
Lemma dict_assign_new {V} (items : list (string * V)) : forall d,
  NoDup (map fst (d ++ items)) ->
  fold_left (fun d kv => Dict.set String.eqb d (fst kv) (snd kv)) items d
  = d ++ items.
Proof.
  induction items as [|[k v] items IH]; intros d ND; simpl.
  - rewrite app_nil_r. reflexivity.
  - assert (A : Dict.get String.eqb d k = None).
    { apply dict_get_absent. rewrite map_app in ND. simpl in ND.
      apply NoDup_remove_2 in ND. intros F. apply ND, in_or_app. auto. }
    rewrite (dict_set_absent d k v A), IH.
    + rewrite <- app_assoc. reflexivity.
    + rewrite <- app_assoc. exact ND.
Qed.

Section Sessions.

Variable like_match : string -> value -> outcome bool.

Lemma dict_set_forall {V} (Q : V -> Prop) (d : list (string * V)) k v :
  Forall (fun kv => Q (snd kv)) d -> Q v ->
  Forall (fun kv => Q (snd kv)) (Dict.set String.eqb d k v).
Proof.
  intros F Hv. induction d as [|[k' v'] d IH]; simpl.
  - constructor; [exact Hv | constructor].
  - inversion F as [|? ? Hx F']; subst.
    destruct (String.eqb k' k); constructor; auto.
Qed.

(** *** The statements keep the catalog settled *)

Lemma set_tables_same st : set_tables st (tables st) = st.
Proof. destruct st; reflexivity. Qed.

Lemma put_table_same st n t : get_table st n = Some t -> put_table st n t = st.
Proof.
  intros G. unfold put_table. rewrite (dict_set_same (tables st) n t G).
  apply set_tables_same.
Qed.

Lemma settled_ext a b :
  tables a = tables b -> disk a = disk b -> settled a -> settled b.
Proof.
  intros T D (E & N & B). unfold settled, tables_built, get_table in *.
  rewrite <- T, <- D. auto.
Qed.

Lemma settled_put_save st n t st' o :
  settled st -> indexes_built t ->
  _save_table (put_table st n t) n = (st', o) ->
  settled st' /\ o = Ok tt.
Proof.
  intros (E & N & B) Bt. unfold _save_table. rewrite get_table_put.
  intros H. injection H as <- <-. split; [|reflexivity].
  split; [|split].
  - simpl. rewrite E. reflexivity.
  - simpl. apply dict_set_nodup, N.
  - apply (tables_built_put st n t B Bt).
Qed.

Lemma default_indexes_empty pk cols :
  Forall (fun kv => Index.entries (snd kv) = [])
    (Table._create_default_indexes pk cols).
Proof.
  unfold Table._create_default_indexes.
  assert (G : forall ix,
             Forall (fun kv : string * Index.t => Index.entries (snd kv) = []) ix ->
             Forall (fun kv => Index.entries (snd kv) = [])
               (fold_left
                  (fun ix c =>
                     if Column.is_unique c && Table.differs_from_primary pk c
                     then Dict.set String.eqb ix ("__unique_" ++ Column.name c)%string
                            (Index.new [Column.name c])
                     else ix) cols ix)).
  { induction cols as [|c cols IH]; intros ix F; simpl; [exact F|].
    apply IH. destruct (_ && _); [|exact F].
    apply (dict_set_forall (fun v => Index.entries v = [])); [exact F | reflexivity]. }
  apply G. destruct pk; repeat constructor.
Qed.

Lemma new_table_built nm cols : indexes_built (Table.new nm cols).
Proof.
  unfold indexes_built, Table.new. simpl.
  generalize (default_indexes_empty (find Column.is_primary cols) cols).
  apply Forall_impl. intros [k idx] H. unfold built. simpl in *. exact H.
Qed.

Lemma create_table_settled st sql st' o :
  settled st -> _execute_create_table st sql = (st', o) -> settled st'.
Proof.
  intros S. unfold _execute_create_table.
  destruct (Re.rmatch create_table_pattern sql) as [m|];
    [|intros H; injection H as <- _; exact S].
  destruct (Dict.mem String.eqb (tables st) (group_str m 1));
    [intros H; injection H as <- _; exact S|].
  destruct (parse_columns _) as [columns|e];
    [|intros H; injection H as <- _; exact S].
  destruct (_save_table _ _) as [st2 o2] eqn:V. intros H. injection H as <- _.
  apply (settled_put_save _ _ _ _ _ S (new_table_built _ _) V).
Qed.

Lemma insert_settled st sql st' o :
  settled st -> _execute_insert st sql = (st', o) -> settled st'.
Proof.
  intros S. unfold _execute_insert.
  destruct (Re.rmatch insert_pattern sql) as [m|];
    [|intros H; injection H as <- _; exact S].
  destruct (get_table st (group_str m 1)) as [table|] eqn:G;
    [|intros H; injection H as <- _; exact S].
  destruct (negb _); [intros H; injection H as <- _; exact S|].
  destruct (_validate_row table _); [|intros H; injection H as <- _; exact S].
  destruct (_save_table _ _) as [st2 o2] eqn:V. intros H. injection H as <- _.
  refine (proj1 (settled_put_save _ _ _ _ _ S _ V)).
  apply append_row_built. destruct S as (_ & _ & B). apply (B _ _ G).
Qed.

Lemma select_same_state st sql : fst (_execute_select like_match st sql) = st.
Proof.
  unfold _execute_select. destruct (Re.rmatch select_pattern sql); reflexivity.
Qed.

Lemma update_settled st sql st' res :
  settled st -> _execute_update like_match st sql = (st', Ok res) -> settled st'.
Proof.
  intros S. unfold _execute_update.
  destruct (Re.rmatch update_pattern sql) as [m|]; [|discriminate].
  destruct (get_table st (group_str m 1)) as [table|] eqn:G; [|discriminate].
  destruct (parse_assignments _ _) as [updates|]; [|discriminate].
  destruct (update_sweep _ _ _ _ _ _ _ _) as [rows' [c|e]] eqn:U; [|discriminate].
  destruct (Nat.ltb 0 c) eqn:Z.
  - destruct (_save_table _ _) as [st2 o2] eqn:V. intros H. injection H as <- _.
    apply (settled_put_save _ _ _ _ _ S (rebuild_all_built _) V).
  - intros H. injection H as <- _.
    apply Nat.ltb_ge in Z.
    destruct (update_sweep_count _ _ _ _ _ _ _ _ _ _ U) as [_ E].
    rewrite (E ltac:(lia)). simpl. rewrite set_rows_same.
    rewrite (put_table_same st _ _ G). exact S.
Qed.

Lemma delete_settled st sql st' o :
  settled st -> _execute_delete like_match st sql = (st', o) -> settled st'.
Proof.
  intros S. unfold _execute_delete.
  destruct (Re.rmatch delete_pattern sql) as [m|];
    [|intros H; injection H as <- _; exact S].
  destruct (get_table st (group_str m 1)) as [table|] eqn:G;
    [|intros H; injection H as <- _; exact S].
  destruct (rows_to_delete _ _ _ _) as [positions|e];
    [|intros H; injection H as <- _; exact S].
  destruct (Nat.ltb 0 (List.length positions)) eqn:Z.
  - destruct (_save_table _ _) as [st2 o2] eqn:V. intros H. injection H as <- _.
    apply (settled_put_save _ _ _ _ _ S (rebuild_all_built _) V).
  - intros H. injection H as <- _.
    apply Nat.ltb_ge in Z. destruct positions; [|simpl in Z; lia].
    unfold delete_positions. simpl. rewrite set_rows_same.
    rewrite (put_table_same st _ _ G). exact S.
Qed.

Lemma drop_table_settled st sql st' o :
  settled st -> _execute_drop_table st sql = (st', o) -> settled st'.
Proof.
  intros S. unfold _execute_drop_table.
  destruct (Re.rmatch drop_table_pattern sql) as [m|];
    [|intros H; injection H as <- _; exact S].
  destruct (negb _); intros H; injection H as <- _; [exact S|].
  destruct S as (E & N & B). split; [|split]; simpl.
  - rewrite E. reflexivity.
  - apply dict_del_nodup, N.
  - intros n t. unfold get_table. simpl. rewrite (dict_get_del _ _ _ N).
    destruct (String.eqb _ n); [discriminate|]. apply B.
Qed.
(** *** CREATE INDEX: [Table.add_index] and the strict rebuild *)

Lemma strict_key_ok r cols : forall k,
  Table.strict_key r cols = Ok k ->
  index_key r cols = k /\ (forall c, In c cols -> row_get r c <> None).
Proof.
  induction cols as [|c cols IH]; simpl; intros k H.
  - injection H as <-. split; [reflexivity | intros c []].
  - destruct (row_get r c) as [v|] eqn:G; [|discriminate H].
    destruct (Table.strict_key r cols) as [k'|e]; [|discriminate H].
    injection H as <-. destruct (IH k' eq_refl) as [E M].
    split; [rewrite E; reflexivity|].
    intros c' [<-|I]; [rewrite G; discriminate | exact (M c' I)].
Qed.

Lemma strict_key_raise r cols : forall x,
  Table.strict_key r cols = Raise x ->
  exists c, x = KeyError c /\ In c cols /\ row_get r c = None.
Proof.
  induction cols as [|c cols IH]; simpl; intros x H; [discriminate H|].
  destruct (row_get r c) as [v|] eqn:G.
  - destruct (Table.strict_key r cols) as [k'|e]; [discriminate H|].
    injection H as <-. destruct (IH e eq_refl) as (c' & E & I & M).
    exists c'. auto.
  - injection H as <-. exists c. auto.
Qed.

Lemma rebuild_from_until cols : forall rs i e e' o,
  Table.rebuild_from cols rs i e = (e', o) ->
  exists pre,
    e' = build_entries cols pre i e
    /\ Forall (fun r => forall c, In c cols -> row_get r c <> None) pre
    /\ ((o = Ok tt /\ pre = rs)
        \/ (exists r post c,
              rs = pre ++ r :: post /\ In c cols /\ row_get r c = None
              /\ o = Raise (KeyError c))).
Proof.
  induction rs as [|r rs IH]; simpl; intros i e e' o H.
  - injection H as <- <-. exists []. split; [reflexivity|]. split; [constructor|].
    left. auto.
  - destruct (Table.strict_key r cols) as [k|x] eqn:K.
    + destruct (strict_key_ok r cols k K) as [Ek M].
      destruct (IH _ _ _ _ H) as (pre & E & F & D).
      exists (r :: pre). simpl. rewrite Ek. split; [exact E|].
      split; [constructor; assumption|].
      destruct D as [[-> ->]|(r' & post & c & -> & I & N & ->)].
      * left. auto.
      * right. exists r', post, c. auto.
    + injection H as <- <-.
      destruct (strict_key_raise r cols x K) as (c & -> & I & N).
      exists []. split; [reflexivity|]. split; [constructor|].
      right. exists r, rs, c. auto.
Qed.

Lemma add_index_until tb nm cols tb' o :
  Table.add_index tb nm cols = (tb', o) ->
  exists pre,
    tb' = Table.set_indexes tb
            (Dict.set String.eqb (Table.indexes tb) nm
               (Index.mk cols (build_entries cols pre 0 [])))
    /\ Forall (fun r => forall c, In c cols -> row_get r c <> None) pre
    /\ ((o = Ok tt /\ pre = Table.rows tb)
        \/ (exists r post c,
              Table.rows tb = pre ++ r :: post /\ In c cols
              /\ row_get r c = None /\ o = Raise (KeyError c))).
Proof.
  unfold Table.add_index, Table._rebuild_index. simpl.
  rewrite dict_get_set_same. simpl.
  destruct (Table.rebuild_from cols (Table.rows tb) 0 []) as [e o'] eqn:R.
  intros H. injection H as <- <-.
  destruct (rebuild_from_until cols _ _ _ _ _ R) as (pre & -> & F & D).
  exists pre. split; [|split; [exact F | exact D]].
  unfold Table.set_indexes. simpl. rewrite dict_set_set. reflexivity.
Qed.

Lemma add_index_built tb nm cols tb' :
  Table.add_index tb nm cols = (tb', Ok tt) ->
  indexes_built tb -> indexes_built tb'.
Proof.
  intros H B. destruct (add_index_until tb nm cols tb' (Ok tt) H)
    as (pre & -> & _ & [[_ ->]|(r & post & c & _ & _ & _ & D)]);
    [|discriminate D].
  unfold indexes_built. simpl.
  apply (dict_set_forall (fun idx => built (Table.rows tb) idx));
    [exact B | reflexivity].
Qed.

Lemma create_index_settled st sql st' res :
  settled st -> _execute_create_index st sql = (st', Ok res) -> settled st'.
Proof.
  intros S. unfold _execute_create_index.
  destruct (Re.rmatch create_index_pattern sql) as [m|]; [|discriminate].
  destruct (get_table st (group_str m 2)) as [table|] eqn:G; [|discriminate].
  destruct (check_index_columns _ _ _); [|discriminate].
  destruct (Table.add_index _ _ _) as [table' [[]|e]] eqn:A; [|discriminate].
  destruct (_save_table _ _) as [st2 o2] eqn:V. intros H. injection H as <- _.
  refine (proj1 (settled_put_save _ _ _ _ _ S _ V)).
  apply (add_index_built _ _ _ _ A). destruct S as (_ & _ & B). apply (B _ _ G).
Qed.

(** *** ROLLBACK and the entry point *)

Lemma load_tables_settled st : settled st -> _load_tables st = st.
Proof.
  intros (E & N & _). unfold _load_tables.
  rewrite dict_assign_held; [apply set_tables_same|].
  intros k v I. rewrite <- E in I. apply (dict_get_in _ _ _ N I).
Qed.

Lemma rollback_settled st :
  settled st ->
  settled (_rollback_transaction st)
  /\ tables (_rollback_transaction st) = tables st.
Proof.
  intros S. unfold _rollback_transaction.
  assert (S' : settled (set_log (set_in_transaction st false) []))
    by (apply (settled_ext st); [reflexivity | reflexivity | exact S]).
  rewrite (load_tables_settled _ S'). split; [exact S' | reflexivity].
Qed.

Lemma dispatch_settled st sql st' o :
  settled st -> dispatch like_match st sql = (st', o) ->
  is_raise o && raises_midway (classify sql) = false ->
  settled st'.
Proof.
  intros S. unfold SimpleRDBMS.dispatch, classify.
  repeat match goal with
    | |- context [if ?b then _ else _] => destruct b
    end; intros H C.
  - apply (create_table_settled _ _ _ _ S H).
  - apply (insert_settled _ _ _ _ S H).
  - generalize (select_same_state st sql). rewrite H. simpl. intros ->. exact S.
  - destruct o as [res|e]; [|discriminate C].
    apply (update_settled _ _ _ _ S H).
  - apply (delete_settled _ _ _ _ S H).
  - apply (drop_table_settled _ _ _ _ S H).
  - destruct o as [res|e]; [|discriminate C].
    apply (create_index_settled _ _ _ _ S H).
  - injection H as <- _. apply (settled_ext st); [reflexivity | reflexivity | exact S].
  - injection H as <- _. apply (settled_ext st); [reflexivity | reflexivity | exact S].
  - injection H as <- _. apply (rollback_settled st S).
  - injection H as <- _. exact S.
Qed.

Lemma log_statement_settled st sql : settled st -> settled (log_statement st sql).
Proof.
  intros S. unfold log_statement. destruct (_in_transaction st); [|exact S].
  apply (settled_ext st); [reflexivity | reflexivity | exact S].
Qed.

Lemma clean_run_settled sqls : forall st,
  settled st -> clean_run like_match st sqls = true ->
  settled (run like_match st sqls).
Proof.
  induction sqls as [|sql sqls IH]; intros st S C; simpl in *; [exact S|].
  apply andb_prop in C. destruct C as [C1 C2].
  apply IH; [|exact C2].
  unfold SimpleRDBMS.execute_sql in *.
  destruct (dispatch like_match (log_statement st (normalize sql)) (normalize sql))
    as [st' o] eqn:D.
  simpl in *. apply (dispatch_settled _ _ _ _ (log_statement_settled st _ S) D).
  destruct (is_raise o); [|reflexivity].
  simpl in C1. destruct (raises_midway _); [discriminate C1 | reflexivity].
Qed.

Lemma init_settled files :
  NoDup (map fst files) ->
  Forall (fun f => indexes_built (snd f)) files ->
  settled (init files) /\ tables (init files) = files.
Proof.
  intros N B. unfold init, _load_tables. simpl.
  rewrite (dict_assign_new files [] N). simpl.
  split; [|reflexivity]. split; [reflexivity|]. split; [exact N|].
  intros n t G. unfold get_table in G. simpl in G.
  apply dict_in_get in G. rewrite Forall_forall in B. apply (B _ G).
Qed.

End Sessions.

(** ** Conditions of one comparison *)

(** *** An operator between blanks, in a text of three words *)

Lemma word_no_blank w : is_word w = true -> no_blank w = true.
Proof.
  intros H. apply word_chars in H. unfold no_blank.
  induction w as [|c w IH]; [reflexivity|].
  cbn [PyStr.all_chars] in *. apply andb_prop in H. destruct H as [Hc Hw].
  rewrite (IH Hw), andb_true_r.
  destruct (Ascii.eqb c " ") eqn:E; [|reflexivity].
  apply Ascii.eqb_eq in E; subst c. discriminate Hc.
Qed.

Lemma upper_no_blank s : no_blank s = true -> no_blank (PyStr.upper s) = true.
Proof.
  unfold no_blank. induction s as [|c s IH]; [reflexivity|].
  cbn [PyStr.all_chars PyStr.upper]. intros H.
  apply andb_prop in H. destruct H as [Hc Hs]. rewrite (IH Hs), andb_true_r.
  destruct (Ascii.eqb (PyStr.upper_char c) " ") eqn:E; [|reflexivity].
  apply Ascii.eqb_eq, upper_space_is_space in E. subst c. discriminate Hc.
Qed.

Lemma no_blank_head c s :
  no_blank (String c s) = true -> Ascii.eqb " " c = false /\ no_blank s = true.
Proof.
  unfold no_blank. cbn [PyStr.all_chars]. intros H.
  apply andb_prop in H. destruct H as [Hc Hs]. split; [|exact Hs].
  rewrite Ascii.eqb_sym. apply negb_true_iff, Hc.
Qed.

Lemma contains_past_no_blank p a t :
  no_blank a = true ->
  PyStr.contains (String " " p) (a ++ t) = PyStr.contains (String " " p) t.
Proof.
  induction a as [|c a IH]; intros H; [reflexivity|].
  destruct (no_blank_head c a H) as [Hc Ha].
  cbn [String.append PyStr.contains PyStr.startswith]. rewrite Hc.
  cbn [andb orb]. apply IH, Ha.
Qed.

Lemma contains_no_blank p s :
  no_blank s = true -> PyStr.contains (String " " p) s = false.
Proof.
  intros H. rewrite <- (append_empty_r s), (contains_past_no_blank p s _ H).
  reflexivity.
Qed.

Lemma startswith_blank_after q : forall s,
  no_blank s = true -> PyStr.startswith (q ++ " ") s = false.
Proof.
  induction q as [|x q IH]; intros [|c s] H; try reflexivity.
  - destruct (no_blank_head c s H) as [Hc _].
    cbn [String.append PyStr.startswith]. rewrite Hc. reflexivity.
  - destruct (no_blank_head c s H) as [_ Hs].
    cbn [String.append PyStr.startswith]. rewrite (IH s Hs). apply andb_false_r.
Qed.

Lemma startswith_other_word t q : forall op,
  no_blank q = true -> no_blank op = true ->
  PyStr.startswith (q ++ " ") (op ++ " " ++ t) = String.eqb q op.
Proof.
  induction q as [|x q IH]; intros [|c op] Hq Ho.
  - reflexivity.
  - destruct (no_blank_head c op Ho) as [Hc _].
    cbn [String.append PyStr.startswith String.eqb]. rewrite Hc. reflexivity.
  - destruct (no_blank_head x q Hq) as [Hx _].
    cbn [String.append PyStr.startswith String.eqb].
    rewrite Ascii.eqb_sym, Hx. reflexivity.
  - destruct (no_blank_head x q Hq) as [_ Hq'].
    destruct (no_blank_head c op Ho) as [_ Ho'].
    cbn [String.append PyStr.startswith String.eqb].
    change (op ++ String " " t)%string with (op ++ " " ++ t)%string.
    rewrite (IH op Hq' Ho'). destruct (Ascii.eqb x c); reflexivity.
Qed.

(** In [a op b] the only text between blanks is [op]. *)
Lemma contains_interior q a op b :
  no_blank q = true -> no_blank a = true -> no_blank op = true ->
  no_blank b = true ->
  PyStr.contains (" " ++ q ++ " ") (a ++ " " ++ op ++ " " ++ b) = String.eqb q op.
Proof.
  intros Hq Ha Ho Hb.
  change (" " ++ q ++ " ")%string with (String " " (q ++ " ")).
  rewrite (contains_past_no_blank _ a _ Ha).
  change (" " ++ op ++ " " ++ b)%string with (String " " (op ++ " " ++ b)).
  cbn [PyStr.contains PyStr.startswith]. rewrite Ascii.eqb_refl.
  cbn [andb]. rewrite (startswith_other_word b q op Hq Ho).
  rewrite (contains_past_no_blank _ op _ Ho).
  change (" " ++ b)%string with (String " " b).
  cbn [PyStr.contains PyStr.startswith]. rewrite Ascii.eqb_refl.
  cbn [andb]. rewrite (startswith_blank_after q b Hb).
  rewrite (contains_no_blank _ b Hb). destruct (String.eqb q op); reflexivity.
Qed.

Lemma contains_interior_upper q a op b :
  no_blank q = true -> no_blank a = true -> no_blank op = true ->
  no_blank b = true ->
  PyStr.contains (" " ++ q ++ " ") (PyStr.upper (a ++ " " ++ op ++ " " ++ b))
  = String.eqb q (PyStr.upper op).
Proof.
  intros Hq Ha Ho Hb. rewrite !upper_app.
  change (PyStr.upper " ") with " ".
  apply contains_interior; auto using upper_no_blank.
Qed.

Lemma split_once_at sep b : forall a,
  no_blank a = true ->
  PyStr.split_once (String " " sep) (a ++ String " " sep ++ b) = (a, Some b).
Proof.
  induction a as [|c a IH]; intros Ha.
  - cbn [String.append PyStr.split_once].
    change (String " " (sep ++ b)) with (String " " sep ++ b)%string.
    rewrite startswith_app, drop_app_length. reflexivity.
  - destruct (no_blank_head c a Ha) as [Hc Ha'].
    cbn [String.append PyStr.split_once PyStr.startswith]. rewrite Hc.
    cbn [andb]. change (String " " (sep ++ b)) with (String " " sep ++ b)%string.
    rewrite (IH Ha'). reflexivity.
Qed.

Lemma split_once_interior op b a :
  no_blank a = true ->
  PyStr.split_once (" " ++ op ++ " ") (a ++ " " ++ op ++ " " ++ b)
  = (a, Some b).
Proof.
  intros Ha.
  replace (a ++ " " ++ op ++ " " ++ b)%string
    with (a ++ String " " (op ++ " ") ++ b)%string.
  - apply (split_once_at (op ++ " ") b a Ha).
  - cbn [String.append]. rewrite append_assoc. reflexivity.
Qed.

Lemma split_once_none sep : forall s,
  PyStr.contains sep s = false -> PyStr.split_once sep s = (s, None).
Proof.
  induction s as [|c s IH]; cbn [PyStr.contains PyStr.split_once]; intros H;
    apply orb_false_elim in H; destruct H as [H1 H2]; rewrite H1;
    [reflexivity|].
  rewrite (IH H2). reflexivity.
Qed.

Lemma strip_word w : is_word w = true -> PyStr.strip w = w.
Proof.
  intros H. apply (strip_join [w]); [|discriminate].
  cbn [forallb]. rewrite H. reflexivity.
Qed.

Section Conditions.

Variable like_match : string -> value -> outcome bool.

Abbreviation scan_operators := (SimpleRDBMS.scan_operators like_match).
Abbreviation _evaluate_where := (SimpleRDBMS._evaluate_where like_match).

Lemma scan_skip r cond q ops :
  PyStr.contains (" " ++ q ++ " ") (PyStr.upper cond) = false ->
  scan_operators r cond (q :: ops) = scan_operators r cond ops.
Proof. cbn [SimpleRDBMS.scan_operators]. intros ->. reflexivity. Qed.

(** A stripped condition without AND and OR between blanks goes to the
    loop over the operators. *)
Lemma where_is_scan r cond :
  PyStr.strip cond = cond ->
  PyStr.contains " AND " (PyStr.upper cond) = false ->
  PyStr.contains " OR " (PyStr.upper cond) = false ->
  _evaluate_where r cond = scan_operators r cond operators.
Proof.
  intros S A O. unfold SimpleRDBMS._evaluate_where.
  cbn [SimpleRDBMS.evaluate_fuel]. rewrite S, A, O. reflexivity.
Qed.

Lemma three_words_strip a op b :
  is_word a = true -> is_word op = true -> is_word b = true ->
  PyStr.strip (a ++ " " ++ op ++ " " ++ b) = (a ++ " " ++ op ++ " " ++ b)%string.
Proof.
  intros Ha Ho Hb. apply (strip_join [a; op; b]); [|discriminate].
  cbn [forallb]. rewrite Ha, Ho, Hb. reflexivity.
Qed.

Lemma comparison_scan r a op b :
  is_word a = true -> is_word b = true -> In op comparison_ops ->
  _evaluate_where r (a ++ " " ++ op ++ " " ++ b)
  = compare_by op (row_get_none r a) (where_value (PyStr.strip_quote b)).
Proof.
  intros Ha Hb Hop.
  assert (Na := word_no_blank a Ha). assert (Nb := word_no_blank b Hb).
  assert (Wo : is_word op = true)
    by (destruct Hop as [<-|[<-|[<-|[<-|[<-|[<-|[]]]]]]]; reflexivity).
  assert (No := word_no_blank op Wo).
  assert (C : forall q, no_blank q = true ->
                PyStr.contains (" " ++ q ++ " ")
                  (PyStr.upper (a ++ " " ++ op ++ " " ++ b))
                = String.eqb q (PyStr.upper op))
    by (intros q Hq; apply contains_interior_upper; assumption).
  assert (CA := C "AND" eq_refl). assert (CO := C "OR" eq_refl).
  change (" " ++ "AND" ++ " ")%string with " AND " in CA.
  change (" " ++ "OR" ++ " ")%string with " OR " in CO.
  rewrite where_is_scan;
    [ | apply three_words_strip; assumption
      | rewrite CA;
        destruct Hop as [<-|[<-|[<-|[<-|[<-|[<-|[]]]]]]]; reflexivity
      | rewrite CO;
        destruct Hop as [<-|[<-|[<-|[<-|[<-|[<-|[]]]]]]]; reflexivity ].
  unfold operators.
  destruct Hop as [<-|[<-|[<-|[<-|[<-|[<-|[]]]]]]];
    repeat (rewrite scan_skip
              by (match goal with
                  | |- context [PyStr.contains (" " ++ ?q ++ " ") _] =>
                      rewrite (C q eq_refl)
                  end; reflexivity));
    cbn [SimpleRDBMS.scan_operators];
    match goal with
    | |- context [PyStr.contains (" " ++ ?q ++ " ") _] => rewrite (C q eq_refl)
    end;
    rewrite (split_once_interior _ b a Na), (strip_word a Ha), (strip_word b Hb);
    reflexivity.
Qed.

(** X3.  A condition [col op literal] of three words, with one of the
    six comparison operators, compares the value the row holds for
    [col] (null when the row has no such key) with the coerced
    literal. *)
Theorem comparison_of_column_and_literal r a op b :
  is_word a = true -> is_word b = true -> In op comparison_ops ->
  _evaluate_where r (a ++ " " ++ op ++ " " ++ b)
  = compare_by op (row_get_none r a) (where_value (PyStr.strip_quote b)).
Proof. apply comparison_scan. Qed.

Lemma compare_null_left v : py_compare VNone v = Raise TypeError.
Proof. destruct v; reflexivity. Qed.

(** X4.  An ordering comparison on a column that the row does not hold,
    or holds as null, raises [TypeError], whatever the literal. *)
Theorem ordering_of_null_raises r a op b :
  is_word a = true -> is_word b = true -> In op ["<"; ">"; "<="; ">="] ->
  row_get_none r a = VNone ->
  _evaluate_where r (a ++ " " ++ op ++ " " ++ b) = Raise TypeError.
Proof.
  intros Ha Hb Hop N.
  rewrite (comparison_scan r a op b Ha Hb), N.
  - destruct Hop as [<-|[<-|[<-|[<-|[]]]]];
      unfold compare_by, py_lt, py_gt, py_le, py_ge; simpl String.eqb; cbn iota;
      rewrite compare_null_left; reflexivity.
  - unfold comparison_ops. simpl. simpl in Hop. intuition.
Qed.

Lemma py_eq_none v : py_eq v VNone = is_none v.
Proof. destruct v; reflexivity. Qed.

(** X5.  [col = NULL] holds exactly for the rows in which [col] is null
    or absent, and [col != NULL] for the others. *)
Theorem equals_null_tests_for_null r a :
  is_word a = true ->
  _evaluate_where r (a ++ " = NULL") = Ok (is_none (row_get_none r a))
  /\ _evaluate_where r (a ++ " != NULL")
     = Ok (negb (is_none (row_get_none r a))).
Proof.
  intros Ha. split.
  - change (a ++ " = NULL")%string with (a ++ " " ++ "=" ++ " " ++ "NULL")%string.
    rewrite (comparison_scan r a "=" "NULL" Ha eq_refl (or_introl eq_refl)).
    unfold compare_by. simpl. rewrite py_eq_none. reflexivity.
  - change (a ++ " != NULL")%string
      with (a ++ " " ++ "!=" ++ " " ++ "NULL")%string.
    rewrite (comparison_scan r a "!=" "NULL" Ha eq_refl
               (or_intror (or_introl eq_refl))).
    unfold compare_by. simpl. rewrite py_eq_none. reflexivity.
Qed.

Lemma contains_tail p a t :
  no_blank a = true ->
  PyStr.contains (String " " p) (PyStr.upper (a ++ t))
  = PyStr.contains (String " " p) (PyStr.upper t).
Proof.
  intros Ha. rewrite upper_app.
  apply contains_past_no_blank, upper_no_blank, Ha.
Qed.

Lemma null_test_scan r a tail :
  is_word a = true ->
  tail = " IS NULL" \/ tail = " IS NOT NULL" ->
  PyStr.strip (a ++ tail) = (a ++ tail)%string ->
  _evaluate_where r (a ++ tail) = Ok false.
Proof.
  intros Ha Ht S. assert (Na := word_no_blank a Ha).
  assert (C : forall p, PyStr.contains (String " " p) (PyStr.upper tail) = false ->
                PyStr.contains (String " " p) (PyStr.upper (a ++ tail)) = false)
    by (intros p H; rewrite (contains_tail p a tail Na); exact H).
  rewrite where_is_scan; [|exact S | | ];
    try (apply C; destruct Ht as [->| ->]; reflexivity).
  unfold operators.
  repeat (rewrite scan_skip
            by (apply C; destruct Ht as [->| ->]; reflexivity)).
  reflexivity.
Qed.

(** X6.  A condition that ends with IS NULL or IS NOT NULL holds for no
    row: after the strip no blank follows the operator, and the
    operator is looked for between two blanks. *)
Theorem null_test_at_the_end_is_false r a :
  is_word a = true ->
  _evaluate_where r (a ++ " IS NULL") = Ok false
  /\ _evaluate_where r (a ++ " IS NOT NULL") = Ok false.
Proof.
  intros Ha. split.
  - apply null_test_scan; [exact Ha | auto |].
    apply (strip_join [a; "IS"; "NULL"]); [|discriminate].
    cbn [forallb]. rewrite Ha. reflexivity.
  - apply null_test_scan; [exact Ha | auto |].
    apply (strip_join [a; "IS"; "NOT"; "NULL"]); [|discriminate].
    cbn [forallb]. rewrite Ha. reflexivity.
Qed.

(** X7.  LIKE written in another case than upper case raises the
    [ValueError] of a failed unpacking: the operator is found in the
    upper-cased condition, and the condition itself is split at the
    upper-case text. *)
Theorem like_in_lower_case_raises r a k b :
  is_word a = true -> is_word b = true ->
  is_keyword "LIKE" k = true -> k <> "LIKE" ->
  _evaluate_where r (a ++ " " ++ k ++ " " ++ b) = Raise unpack_error.
Proof.
  intros Ha Hb Hk Nk.
  assert (Wk : is_word k = true)
    by (apply (keyword_is_word "LIKE"); [reflexivity | simpl; lia | exact Hk]).
  assert (Uk : PyStr.upper k = "LIKE") by apply (keyword_upper "LIKE" k Hk).
  assert (Na := word_no_blank a Ha). assert (Nb := word_no_blank b Hb).
  assert (Nk' := word_no_blank k Wk).
  assert (C : forall q, no_blank q = true ->
                PyStr.contains (" " ++ q ++ " ")
                  (PyStr.upper (a ++ " " ++ k ++ " " ++ b))
                = String.eqb q "LIKE")
    by (intros q Hq; rewrite <- Uk; apply contains_interior_upper; assumption).
  assert (CA := C "AND" eq_refl). assert (CO := C "OR" eq_refl).
  change (" " ++ "AND" ++ " ")%string with " AND " in CA.
  change (" " ++ "OR" ++ " ")%string with " OR " in CO.
  rewrite where_is_scan;
    [ | apply three_words_strip; assumption | rewrite CA; reflexivity
      | rewrite CO; reflexivity ].
  unfold operators.
  repeat (rewrite scan_skip
            by (match goal with
                | |- context [PyStr.contains (" " ++ ?q ++ " ") _] =>
                    rewrite (C q eq_refl)
                end; reflexivity)).
  cbn [SimpleRDBMS.scan_operators]. rewrite (C "LIKE" eq_refl).
  rewrite split_once_none; [reflexivity|].
  rewrite (contains_interior "LIKE" a k b eq_refl Na Nk' Nb).
  apply String.eqb_neq. congruence.
Qed.

End Conditions.

(** ** The sweeps of DELETE and UPDATE *)

Lemma pop_app {A} (pre : list A) x l :
  pop (List.length pre) (pre ++ x :: l) = pre ++ l.
Proof. induction pre as [|y pre IH]; simpl; [reflexivity | rewrite IH; reflexivity]. Qed.

Section Sweeps.

Variable like_match : string -> value -> outcome bool.

Abbreviation _evaluate_where := (SimpleRDBMS._evaluate_where like_match).
Abbreviation rows_to_delete := (SimpleRDBMS.rows_to_delete like_match).
Abbreviation update_sweep := (SimpleRDBMS.update_sweep like_match).
Abbreviation filter_where := (SimpleRDBMS.filter_where like_match).

(** The positions collected by DELETE are those of the selected rows;
    popping them from the last to the first leaves the other rows. *)
Lemma rows_to_delete_ok w : forall rs i ps,
  rows_to_delete w i rs = Ok ps ->
  List.length ps = List.length (filter (selected like_match w) rs)
  /\ forall pre, List.length pre = i ->
       fold_left (fun l p => pop p l) (List.rev ps) (pre ++ rs)
       = pre ++ filter (fun r => negb (selected like_match w r)) rs.
Proof.
  induction rs as [|r rs IH]; intros i ps H; simpl in H.
  - injection H as <-. split; [reflexivity|]. intros pre _. reflexivity.
  - destruct (if negb (truthy w) then Ok true
              else _evaluate_where r (group_or_empty w)) as [b|e] eqn:E;
      [|discriminate H].
    assert (Sel : selected like_match w r = b)
      by (unfold selected; rewrite E; reflexivity).
    cbn [filter]. rewrite Sel.
    simpl in H.
    destruct (rows_to_delete w (S i) rs) as [rest|e] eqn:R; [|discriminate H].
    simpl in H. injection H as <-.
    destruct (IH _ _ R) as [L P].
    destruct b; simpl.
    + split; [rewrite L; reflexivity|]. intros pre Hp.
      rewrite fold_left_app. simpl.
      replace (pre ++ r :: rs) with ((pre ++ [r]) ++ rs)
        by (rewrite <- app_assoc; reflexivity).
      rewrite (P (pre ++ [r])) by (rewrite length_app; simpl; lia).
      rewrite <- app_assoc. simpl. subst i. apply pop_app.
    + split; [exact L|]. intros pre Hp.
      replace (pre ++ r :: rs) with ((pre ++ [r]) ++ rs)
        by (rewrite <- app_assoc; reflexivity).
      rewrite (P (pre ++ [r])) by (rewrite length_app; simpl; lia).
      rewrite <- app_assoc. reflexivity.
Qed.

Lemma rows_to_delete_evaluates w : forall rs i ps,
  rows_to_delete w i rs = Ok ps -> truthy w = true ->
  filter_where (group_or_empty w)
    (filter (fun r => negb (selected like_match w r)) rs) = Ok [].
Proof.
  induction rs as [|r rs IH]; intros i ps H T; simpl in H; [reflexivity|].
  rewrite T in H. simpl in H.
  destruct (_evaluate_where r (group_or_empty w)) as [b|e] eqn:E;
    [|discriminate H].
  assert (Sel : selected like_match w r = b)
    by (unfold selected; rewrite T; simpl; rewrite E; reflexivity).
  cbn [filter]. rewrite Sel.
  simpl in H.
  destruct (rows_to_delete w (S i) rs) as [rest|e] eqn:R; [|discriminate H].
  specialize (IH _ _ R T).
  destruct b; simpl; [exact IH|].
  rewrite E. simpl. rewrite IH. reflexivity.
Qed.

Lemma no_condition_selects_all w rs :
  truthy w = false ->
  filter (fun r => negb (selected like_match w r)) rs = [].
Proof.
  intros T. induction rs as [|r rs IH]; [reflexivity|].
  cbn [filter]. unfold selected at 1. rewrite T. simpl. exact IH.
Qed.

Lemma rebuild_all_rows table : Table.rows (rebuild_all table) = Table.rows table.
Proof. reflexivity. Qed.

Lemma delete_outcome st sql m tb st' res :
  Re.rmatch delete_pattern sql = Some m ->
  get_table st (group_str m 1) = Some tb ->
  _execute_delete like_match st sql = (st', Ok res) ->
  exists tb',
    get_table st' (group_str m 1) = Some tb'
    /\ Table.rows tb'
       = filter (fun r => negb (selected like_match (Re.group m 2) r))
           (Table.rows tb)
    /\ Table.columns tb' = Table.columns tb
    /\ res = rows_status
               (List.length
                  (filter (selected like_match (Re.group m 2)) (Table.rows tb)))
               "deleted"
    /\ (truthy (Re.group m 2) = true ->
        filter_where (group_or_empty (Re.group m 2)) (Table.rows tb') = Ok [])
    /\ (truthy (Re.group m 2) = false -> Table.rows tb' = []).
Proof.
  intros M G. unfold _execute_delete. rewrite M, G.
  destruct (rows_to_delete (Re.group m 2) 0 (Table.rows tb)) as [ps|e] eqn:R;
    [|discriminate].
  destruct (rows_to_delete_ok _ _ _ _ R) as [L P].
  specialize (P [] eq_refl). simpl in P.
  assert (F := no_condition_selects_all (Re.group m 2) (Table.rows tb)).
  destruct (Nat.ltb 0 (List.length ps)).
  - unfold _save_table. rewrite get_table_put. intros H. injection H as <- <-.
    eexists. split; [apply get_table_put|].
    rewrite rebuild_all_rows. cbn [Table.rows Table.set_rows].
    unfold delete_positions. rewrite P, L.
    repeat split; [|exact F].
    intros T. apply (rows_to_delete_evaluates _ _ _ _ R T).
  - intros H. injection H as <- <-.
    eexists. split; [apply get_table_put|].
    cbn [Table.rows Table.set_rows].
    unfold delete_positions. rewrite P, L.
    repeat split; [|exact F].
    intros T. apply (rows_to_delete_evaluates _ _ _ _ R T).
Qed.

(** X8.  DELETE that returns keeps exactly the rows the condition does
    not select, in their order, and reports the number of the others;
    with a condition, no row that is left satisfies it; without one, no
    row is left. *)
Theorem delete_keeps_the_unselected st sql m tb st' res :
  Re.rmatch delete_pattern sql = Some m ->
  get_table st (group_str m 1) = Some tb ->
  _execute_delete like_match st sql = (st', Ok res) ->
  exists tb',
    get_table st' (group_str m 1) = Some tb'
    /\ Table.rows tb'
       = filter (fun r => negb (selected like_match (Re.group m 2) r))
           (Table.rows tb)
    /\ Table.columns tb' = Table.columns tb
    /\ res = rows_status
               (List.length
                  (filter (selected like_match (Re.group m 2)) (Table.rows tb)))
               "deleted"
    /\ (truthy (Re.group m 2) = true ->
        filter_where (group_or_empty (Re.group m 2)) (Table.rows tb') = Ok [])
    /\ (truthy (Re.group m 2) = false -> Table.rows tb' = []).
Proof. apply delete_outcome. Qed.

(** The sweep of UPDATE, when it returns, has rewritten the selected
    rows and counted them. *)
Lemma update_sweep_ok cols w u : forall todo i done c rows' c',
  update_sweep cols w u i done todo c = (rows', Ok c') ->
  rows'
  = done ++ map (fun r => if selected like_match w r then row_update r u else r)
              todo
  /\ c' = c + List.length (filter (selected like_match w) todo).
Proof.
  induction todo as [|r todo IH]; intros i done c rows' c' H; simpl in H.
  - injection H as <- <-. rewrite app_nil_r. simpl. auto.
  - destruct (if negb (truthy w) then Ok true
              else _evaluate_where r (group_or_empty w)) as [b|e] eqn:E;
      [|discriminate H].
    assert (Sel : selected like_match w r = b)
      by (unfold selected; rewrite E; reflexivity).
    cbn [map filter]. rewrite Sel. destruct b.
    + destruct (check_updates cols (done ++ r :: todo) i u); [|discriminate H].
      destruct (IH _ _ _ _ _ H) as [-> ->].
      rewrite <- app_assoc. simpl. split; [reflexivity | lia].
    + destruct (IH _ _ _ _ _ H) as [-> ->].
      rewrite <- app_assoc. simpl. split; [reflexivity | lia].
Qed.

Lemma parse_assignments_nodup : forall assignments acc u,
  parse_assignments assignments acc = Ok u ->
  NoDup (map fst acc) -> NoDup (map fst u).
Proof.
  induction assignments as [|a rest IH]; intros acc u H N; simpl in H.
  - injection H as <-. exact N.
  - destruct (PyStr.split_once "=" a) as [col [val|]]; [|discriminate H].
    apply (IH _ _ H). apply dict_set_nodup, N.
Qed.

(** X9.  UPDATE that returns has assigned the SET clause in exactly the
    rows the condition selects (all rows without one), left the others
    and the order alone, and reports the number of selected rows.  In
    a rewritten row every assigned column holds its new value and every
    other key its old one. *)
Theorem update_rewrites_the_selected st sql m tb u st' res :
  Re.rmatch update_pattern sql = Some m ->
  get_table st (group_str m 1) = Some tb ->
  parse_assignments (PyStr.split_char "," (PyStr.strip (group_str m 2))) []
  = Ok u ->
  _execute_update like_match st sql = (st', Ok res) ->
  exists tb',
    get_table st' (group_str m 1) = Some tb'
    /\ Table.rows tb'
       = map (fun r => if selected like_match (Re.group m 3) r
                       then row_update r u else r)
           (Table.rows tb)
    /\ res = rows_status
               (List.length
                  (filter (selected like_match (Re.group m 3)) (Table.rows tb)))
               "updated"
    /\ (forall r q,
          row_get (row_update r u) q
          = match row_get u q with
            | Some v => Some v
            | None => row_get r q
            end).
Proof.
  intros M G A. unfold _execute_update. rewrite M, G, A.
  destruct (update_sweep _ _ _ _ _ _ _) as [rows' [c|e]] eqn:U; [|discriminate].
  destruct (update_sweep_ok _ _ _ _ _ _ _ _ _ U) as [-> ->].
  assert (N : NoDup (map fst u))
    by (apply (parse_assignments_nodup _ _ _ A); constructor).
  destruct (Nat.ltb 0 _).
  - unfold _save_table. rewrite get_table_put. intros H. injection H as <- <-.
    eexists. split; [apply get_table_put|].
    rewrite rebuild_all_rows. cbn [Table.rows Table.set_rows].
    repeat split. intros r q. apply (dict_update_get u r q N).
  - intros H. injection H as <- <-.
    eexists. split; [apply get_table_put|].
    cbn [Table.rows Table.set_rows].
    repeat split. intros r q. apply (dict_update_get u r q N).
Qed.

(** X10.  The validation of UPDATE looks at the existence and the
    uniqueness of the assigned columns only: a SET clause on existing
    columns that are not unique passes it whatever the values, their
    types and the declared types are. *)
Theorem update_checks_no_type cols rs i u :
  (forall c v, In (c, v) u ->
     exists col_obj,
       find (fun col => String.eqb (Column.name col) c) cols = Some col_obj
       /\ Column.is_unique col_obj = false) ->
  check_updates cols rs i u = Ok tt.
Proof.
  induction u as [|[c v] u IH]; intros H; [reflexivity|].
  cbn [check_updates].
  destruct (H c v (or_introl eq_refl)) as (col_obj & -> & ->).
  simpl. apply IH. intros c' v' I. exact (H c' v' (or_intror I)).
Qed.

End Sweeps.

(** ** INSERT: unique columns, null, keys that are no column *)

Lemma py_eq_none_false v : v <> VNone -> py_eq v VNone = false.
Proof. destruct v; try reflexivity. congruence. Qed.
Lemma py_eq_sym_false a b : py_eq a b = false -> py_eq b a = false.
Proof.
  intros H. destruct (py_eq b a) eqn:E; [|reflexivity].
  rewrite (py_eq_sym b a E) in H. discriminate H.
Qed.

Lemma unique_scan_ok c v : forall rs,
  unique_scan c v rs = Ok tt ->
  forall e, In e rs -> py_eq (row_get_none e c) v = false.
Proof.
  induction rs as [|x rs IH]; simpl; intros H e I; [contradiction|].
  destruct (py_eq (row_get_none x c) v) eqn:E; [discriminate H|].
  destruct I as [<-|I]; [exact E | exact (IH H e I)].
Qed.

Lemma validate_columns_ok rs r : forall cols,
  validate_columns rs r cols = Ok tt ->
  forall col, In col cols ->
    match row_get r (Column.name col) with
    | None => Column.is_nullable col = true
    | Some v => type_check col v = Ok tt /\ unique_check rs col v = Ok tt
    end.
Proof.
  induction cols as [|c cols IH]; simpl; intros H col I; [contradiction|].
  destruct I as [<-|I].
  - destruct (row_get r (Column.name c)) as [v|].
    + destruct (type_check c v) as [[]|]; [|discriminate H].
      destruct (unique_check rs c v) as [[]|]; [|discriminate H]. auto.
    + destruct (Column.is_nullable c); [reflexivity | discriminate H].
  - apply IH; [|exact I].
    destruct (row_get r (Column.name c)) as [v|].
    + destruct (type_check c v) as [[]|]; [|discriminate H].
      destruct (unique_check rs c v) as [[]|]; [|discriminate H]. exact H.
    + destruct (negb (Column.is_nullable c)); [discriminate H | exact H].
Qed.

Lemma nth_error_snoc {A} (l : list A) x i y :
  nth_error (l ++ [x]) i = Some y ->
  (i < List.length l /\ nth_error l i = Some y) \/ (i = List.length l /\ y = x).
Proof.
  intros H. destruct (Nat.lt_ge_cases i (List.length l)) as [L|L].
  - left. rewrite nth_error_app1 in H by exact L. auto.
  - right. rewrite nth_error_app2 in H by exact L.
    destruct (i - List.length l) as [|k] eqn:K; simpl in H.
    + injection H as <-. split; [lia | reflexivity].
    + destruct k; discriminate H.
Qed.

Lemma distinct_on_snoc c rs r :
  distinct_on c rs ->
  (row_get_none r c <> VNone ->
   forall e, In e rs -> py_eq (row_get_none e c) (row_get_none r c) = false) ->
  distinct_on c (rs ++ [r]).
Proof.
  intros D N i j ri rj Hi Hj Hij Hn.
  destruct (nth_error_snoc rs r i ri Hi) as [[Li Ei]|[Li ->]];
    destruct (nth_error_snoc rs r j rj Hj) as [[Lj Ej]|[Lj ->]].
  - apply (D i j ri rj Ei Ej Hij Hn).
  - destruct (is_none (row_get_none r c)) eqn:Z.
    + destruct (row_get_none r c); try discriminate Z.
      apply py_eq_none_false. exact Hn.
    + apply N; [|apply (nth_error_In _ _ Ei)].
      intros F. rewrite F in Z. discriminate Z.
  - apply py_eq_sym_false. apply (N Hn rj). apply (nth_error_In _ _ Ej).
  - lia.
Qed.

Lemma append_row_rows table r :
  Table.rows (append_row table r) = Table.rows table ++ [r].
Proof. reflexivity. Qed.

(** X11.  INSERT never puts a second row with the same value, other
    than null, in a UNIQUE column: if the rows of the table are
    pairwise distinct on the column before the statement, they are
    after it, whether it returned or raised. *)
Theorem insert_keeps_unique_columns_distinct st sql m tb col st' o :
  Re.rmatch insert_pattern sql = Some m ->
  get_table st (group_str m 1) = Some tb ->
  In col (Table.columns tb) -> Column.is_unique col = true ->
  distinct_on (Column.name col) (Table.rows tb) ->
  _execute_insert st sql = (st', o) ->
  exists tb',
    get_table st' (group_str m 1) = Some tb'
    /\ Table.columns tb' = Table.columns tb
    /\ distinct_on (Column.name col) (Table.rows tb').
Proof.
  intros M G I U D. unfold _execute_insert. rewrite M, G.
  destruct (negb _); [intros H; injection H as <- _; eauto|].
  destruct (_validate_row tb _) as [[]|e] eqn:V;
    [|intros H; injection H as <- _; eauto].
  unfold _save_table. rewrite get_table_put. intros H. injection H as <- _.
  eexists. split; [apply get_table_put|]. split; [reflexivity|].
  rewrite append_row_rows. apply distinct_on_snoc; [exact D|].
  intros N e Ie.
  generalize (validate_columns_ok _ _ _ V col I).
  unfold row_get_none in *.
  destruct (row_get _ (Column.name col)) as [v|]; [|congruence].
  intros [_ Q]. unfold unique_check in Q. rewrite U in Q.
  destruct v; try (apply (unique_scan_ok _ _ _ Q e Ie)). congruence.
Qed.

(** X12.  A row that holds null explicitly for every declared column
    passes validation, whatever the columns declare: NOT NULL is tested
    on the absence of the key only, and the type and uniqueness tests
    skip null. *)
Theorem explicit_null_passes_validation table r :
  (forall col, In col (Table.columns table) ->
     row_get r (Column.name col) = Some VNone) ->
  _validate_row table r = Ok tt.
Proof.
  unfold _validate_row. generalize (Table.rows table) as rs.
  induction (Table.columns table) as [|c cols IH]; intros rs H; [reflexivity|].
  cbn [validate_columns]. rewrite (H c (or_introl eq_refl)).
  unfold type_check, unique_check. simpl. rewrite andb_false_r. simpl.
  apply IH. intros col I. apply H. right. exact I.
Qed.

(** X13.  Validation looks at the declared columns only: a key of the
    row that is no column of the table changes nothing, so that INSERT
    stores it without an error. *)
Theorem validation_ignores_other_keys table r k v :
  ~ In k (map Column.name (Table.columns table)) ->
  _validate_row table (row_set r k v) = _validate_row table r.
Proof.
  unfold _validate_row. generalize (Table.rows table) as rs.
  induction (Table.columns table) as [|c cols IH]; intros rs N; [reflexivity|].
  cbn [validate_columns]. simpl in N.
  rewrite (row_get_set_other r k (Column.name c) v) by (intros E; apply N; auto).
  rewrite IH by (intros F; apply N; auto). reflexivity.
Qed.

(** *** INSERT, then SELECT * *)

Lemma combine_keys {A B} : forall (l : list A) (l' : list B),
  List.length l = List.length l' -> map fst (combine l l') = l.
Proof.
  induction l as [|x l IH]; intros [|y l'] H; simpl in *; try discriminate;
    [reflexivity|].
  rewrite IH by lia. reflexivity.
Qed.

Lemma make_row_combine names values :
  NoDup names -> List.length names = List.length values ->
  make_row names values = combine names values.
Proof.
  intros N L. unfold make_row.
  apply (dict_assign_new (combine names values) []).
  simpl. rewrite (combine_keys names values L). exact N.
Qed.

Lemma project_present r : forall todo acc,
  NoDup (map fst acc ++ todo) ->
  (forall c, In c todo -> row_get r c <> None) ->
  fold_left
    (fun final_row col =>
       match row_get r col with
       | Some v => row_set final_row col v
       | None =>
           if PyStr.contains "." col
           then row_set final_row col (row_get_none r col)
           else final_row
       end) todo acc
  = acc ++ map (fun c => (c, row_get_none r c)) todo.
Proof.
  induction todo as [|c todo IH]; intros acc N P; simpl.
  - rewrite app_nil_r. reflexivity.
  - destruct (row_get r c) as [v|] eqn:G;
      [|exfalso; apply (P c (or_introl eq_refl)); exact G].
    assert (V : row_get_none r c = v)
      by (unfold row_get_none; rewrite G; reflexivity).
    rewrite V.
    assert (A : row_get acc c = None).
    { apply dict_get_absent. apply NoDup_remove_2 in N.
      intros F. apply N, in_or_app. auto. }
    unfold row_set, row_get in *. rewrite (dict_set_absent acc c v A).
    rewrite IH.
    + rewrite <- app_assoc. reflexivity.
    + rewrite map_app, <- app_assoc. exact N.
    + intros c' I. apply P. right. exact I.
Qed.

Lemma combine_read : forall names values,
  NoDup names -> List.length names = List.length values ->
  map (fun c => (c, row_get_none (combine names values) c)) names
  = combine names values.
Proof.
  induction names as [|n names IH]; intros [|v values] N L; simpl in *;
    try discriminate; [reflexivity|].
  inversion N as [|? ? Hn N']; subst.
  unfold row_get_none at 1, row_get. simpl. rewrite String.eqb_refl.
  f_equal. etransitivity; [|apply (IH values N'); lia].
  apply map_ext_in. intros c I. f_equal.
  unfold row_get_none, row_get. simpl.
  destruct (String.eqb n c) eqn:E; [|reflexivity].
  apply String.eqb_eq in E; subst c. contradiction.
Qed.

(** A row that holds every requested name is projected on itself. *)
Lemma project_row_combine names values :
  NoDup names -> List.length names = List.length values ->
  project_row names (combine names values) = combine names values.
Proof.
  intros N L. unfold project_row.
  rewrite project_present; [apply (combine_read names values N L) | exact N |].
  intros c I F. apply dict_get_none_keys in F.
  rewrite (combine_keys names values L) in F. contradiction.
Qed.

Section RoundTrips.

Variable like_match : string -> value -> outcome bool.

(** X14.  INSERT without a column list, then SELECT * on the table: the
    rows read are the rows read before, followed by one row that maps
    the declared column names, in order, to the coerced values of the
    statement; the row_id reported is the new number of rows. *)
Theorem insert_then_select_star st sql m tb st' res :
  Re.rmatch insert_pattern sql = Some m ->
  get_table st (group_str m 1) = Some tb ->
  truthy (Re.group m 2) = false ->
  NoDup (map Column.name (Table.columns tb)) ->
  PyStr.contains " JOIN " (PyStr.upper (group_str m 1)) = false ->
  _execute_insert st sql = (st', Ok res) ->
  let names := map Column.name (Table.columns tb) in
  select_groups like_match st' "*" (group_str m 1) None None
  = Ok (map (project_row names) (Table.rows tb)
        ++ [combine names (insert_values (group_str m 3))])
  /\ res = [[("status", VText "Row inserted successfully");
             ("row_id", VInt (Z.of_nat (List.length (Table.rows tb) + 1)))]].
Proof.
  intros M G T N J. unfold _execute_insert. rewrite M, G.
  unfold insert_col_names. rewrite T.
  destruct (Nat.eqb _ _) eqn:L; [|discriminate].
  apply Nat.eqb_eq in L. cbn [negb].
  rewrite (make_row_combine _ _ N L).
  destruct (_validate_row tb _) as [[]|e]; [|discriminate].
  unfold _save_table. rewrite get_table_put. intros H. injection H as <- <-.
  split.
  - unfold select_groups, parse_from. rewrite J. cbn [bind fst get_table_objs].
    match goal with
    | |- context [get_table (set_disk ?s ?d) ?n] =>
        change (get_table (set_disk s d) n) with (get_table s n)
    end.
    rewrite get_table_put. cbn [bind select_columns String.eqb Ascii.eqb Bool.eqb materialize truthy].
    cbn [Table.columns append_row Table.set_indexes Table.set_rows Table.rows].
    rewrite map_app. cbn [map].
    rewrite (project_row_combine _ _ N L). reflexivity.
  - cbn [bind]. rewrite length_app. reflexivity.
Qed.

End RoundTrips.

(** *** CREATE TABLE and DROP TABLE *)

Lemma dict_del_appended {V} (d : list (string * V)) k v :
  Dict.get String.eqb d k = None ->
  Dict.del String.eqb (d ++ [(k, v)]) k = d.
Proof.
  induction d as [|[k' v'] d IH]; simpl.
  - rewrite String.eqb_refl. reflexivity.
  - destruct (String.eqb k' k); [discriminate|].
    intros H. rewrite (IH H). reflexivity.
Qed.

Lemma dict_mem_get {V} (d : list (string * V)) k :
  Dict.mem String.eqb d k = false -> Dict.get String.eqb d k = None.
Proof. unfold Dict.mem. destruct (Dict.get String.eqb d k); [discriminate | auto]. Qed.

(** X15.  CREATE TABLE that returns, then DROP TABLE of the same name:
    the engine is in the state it was in before the two statements,
    when its catalog was the snapshot directory. *)
Theorem create_then_drop_restores st sql1 m1 st1 res1 sql2 m2 :
  tables st = disk st ->
  Re.rmatch create_table_pattern sql1 = Some m1 ->
  Re.rmatch drop_table_pattern sql2 = Some m2 ->
  group_str m2 1 = group_str m1 1 ->
  _execute_create_table st sql1 = (st1, Ok res1) ->
  _execute_drop_table st1 sql2
  = (st, Ok [[("status",
               VText ("Table '" ++ group_str m1 1 ++ "' dropped successfully"))]]).
Proof.
  intros E M1 M2 Eq. unfold _execute_create_table, _execute_drop_table.
  rewrite M1, M2, Eq.
  destruct (Dict.mem String.eqb (tables st) (group_str m1 1)) eqn:Mem;
    [discriminate|].
  destruct (parse_columns _) as [columns|e]; [|discriminate].
  unfold _save_table. rewrite get_table_put. intros H. injection H as <- _.
  apply dict_mem_get in Mem.
  cbn [tables disk put_table set_tables set_disk].
  rewrite <- E, (dict_set_absent _ _ _ Mem).
  unfold Dict.mem. rewrite dict_get_app, Mem. simpl. rewrite String.eqb_refl.
  cbn [negb]. rewrite (dict_del_appended _ _ _ Mem).
  destruct st; simpl in *. subst. reflexivity.
Qed.

Lemma unique_index_name_differs x : ("__unique_" ++ x)%string <> "__primary".
Proof. simpl. discriminate. Qed.

Lemma default_indexes_fold pk key idx : forall cols ix,
  Dict.get String.eqb ix key = Some idx ->
  (forall c, In c cols -> ("__unique_" ++ Column.name c)%string = key ->
             Index.new [Column.name c] = idx) ->
  Dict.get String.eqb
    (fold_left
       (fun ix c =>
          if Column.is_unique c && Table.differs_from_primary pk c
          then Dict.set String.eqb ix ("__unique_" ++ Column.name c)%string
                 (Index.new [Column.name c])
          else ix) cols ix) key
  = Some idx.
Proof.
  induction cols as [|c cols IH]; intros ix G S; simpl; [exact G|].
  apply IH; [|intros c' I; apply S; right; exact I].
  destruct (_ && _); [|exact G].
  destruct (String.eqb ("__unique_" ++ Column.name c) key) eqn:E.
  - apply String.eqb_eq in E. rewrite <- (S c (or_introl eq_refl) E), <- E.
    apply dict_get_set_same.
  - apply String.eqb_neq in E. rewrite dict_get_set_other; [exact G | exact E].
Qed.

Lemma default_indexes_unique pk c : forall cols ix,
  In c cols -> Column.is_unique c = true ->
  Table.differs_from_primary pk c = true ->
  Dict.get String.eqb
    (fold_left
       (fun ix c =>
          if Column.is_unique c && Table.differs_from_primary pk c
          then Dict.set String.eqb ix ("__unique_" ++ Column.name c)%string
                 (Index.new [Column.name c])
          else ix) cols ix) ("__unique_" ++ Column.name c)%string
  = Some (Index.new [Column.name c]).
Proof.
  induction cols as [|c' cols IH]; intros ix I U D; [contradiction|].
  destruct I as [->|I]; [|apply (IH _ I U D)].
  cbn [fold_left]. rewrite U, D. cbn [andb].
  apply default_indexes_fold; [apply dict_get_set_same|].
  intros c2 _ E. apply append_inj in E. rewrite E. reflexivity.
Qed.

Lemma column_eqb_name a b : Column.eqb a b = true -> Column.name a = Column.name b.
Proof.
  unfold Column.eqb. intros H.
  repeat (apply andb_prop in H; destruct H as [H _]).
  apply String.eqb_eq, H.
Qed.

(** X16.  A new table has, for every column declared UNIQUE or PRIMARY
    KEY, an index on that single column, and it is empty: the index
    __primary for the primary key column, an index __unique_ followed
    by the name for each other one. *)
Theorem unique_columns_are_indexed nm cols c :
  In c cols -> Column.is_unique c = true ->
  exists index_name,
    Dict.get String.eqb (Table.indexes (Table.new nm cols)) index_name
    = Some (Index.mk [Column.name c] [])
    /\ (index_name = "__primary"
        \/ index_name = ("__unique_" ++ Column.name c)%string).
Proof.
  intros I U. unfold Table.new, Table._create_default_indexes. simpl.
  destruct (Table.differs_from_primary (find Column.is_primary cols) c) eqn:D.
  - exists ("__unique_" ++ Column.name c)%string. split; [|auto].
    apply (default_indexes_unique _ c cols _ I U D).
  - exists "__primary". split; [|auto].
    destruct (find Column.is_primary cols) as [p|]; [|discriminate D].
    simpl in D. apply negb_false_iff, column_eqb_name in D. rewrite D.
    apply default_indexes_fold; [reflexivity|].
    intros c2 _ E. destruct (unique_index_name_differs _ E).
Qed.

(** *** Sessions without a failing UPDATE or CREATE INDEX *)

Section CleanSessions.

Variable like_match : string -> value -> outcome bool.

(** X1.  Along a session started on a directory of snapshots in which no
    UPDATE and no CREATE INDEX statement raises, the catalog in memory
    is at every end the snapshot directory: every statement that
    changed a table has saved it.  Reloading the snapshots, which is
    all that ROLLBACK does to the tables, then changes nothing. *)
Theorem clean_session_memory_is_disk files sqls :
  NoDup (map fst files) ->
  Forall (fun f => indexes_built (snd f)) files ->
  clean_run like_match (init files) sqls = true ->
  let st := run like_match (init files) sqls in
  tables st = disk st
  /\ _load_tables st = st
  /\ tables (_rollback_transaction st) = tables st
  /\ disk (_rollback_transaction st) = disk st.
Proof.
  intros N B C st.
  assert (S : settled st)
    by (apply (clean_run_settled like_match sqls);
        [apply (init_settled files N B) | exact C]).
  split; [apply S|]. split; [apply (load_tables_settled st S)|].
  split; [apply (rollback_settled st S) | reflexivity].
Qed.

(** X2.  Along such a session every index of every table is consistent
    with the rows of the table: nothing missing, nothing stale. *)
Theorem clean_session_indexes_consistent files sqls :
  NoDup (map fst files) ->
  Forall (fun f => indexes_built (snd f)) files ->
  clean_run like_match (init files) sqls = true ->
  forall table_name table,
    get_table (run like_match (init files) sqls) table_name = Some table ->
    index_consistent table.
Proof.
  intros N B C n t G.
  assert (S : settled (run like_match (init files) sqls))
    by (apply (clean_run_settled like_match sqls);
        [apply (init_settled files N B) | exact C]).
  destruct S as (_ & _ & Bt). apply built_is_consistent, (Bt n t G).
Qed.

End CleanSessions.

(** *** CREATE INDEX on rows that lack a column *)

Lemma check_index_columns_raise tn cols : forall names e,
  check_index_columns tn cols names = Raise e -> exists msg, e = ValueError msg.
Proof.
  induction names as [|n names IH]; simpl; intros e H; [discriminate H|].
  destruct (existsb _ cols); [exact (IH e H)|].
  injection H as <-. eauto.
Qed.

(** X17.  CREATE INDEX raises [KeyError] exactly at a row that lacks one
    of the indexed columns.  The statement has then registered the
    index on the table in memory, filled from the rows before that row
    only, and has saved nothing. *)
Theorem create_index_stops_at_missing_key st sql st' c :
  _execute_create_index st sql = (st', Raise (KeyError c)) ->
  disk st' = disk st
  /\ exists m tb pre r post,
       Re.rmatch create_index_pattern sql = Some m
       /\ get_table st (group_str m 2) = Some tb
       /\ Table.rows tb = pre ++ r :: post
       /\ row_get r c = None
       /\ Forall (fun r0 =>
                    forall c0,
                      In c0 (map PyStr.strip
                               (PyStr.split_char "," (group_str m 3))) ->
                      row_get r0 c0 <> None) pre
       /\ get_table st' (group_str m 2)
          = Some (Table.set_indexes tb
                    (Dict.set String.eqb (Table.indexes tb) (group_str m 1)
                       (Index.mk
                          (map PyStr.strip
                             (PyStr.split_char "," (group_str m 3)))
                          (build_entries
                             (map PyStr.strip
                                (PyStr.split_char "," (group_str m 3)))
                             pre 0 [])))).
Proof.
  unfold _execute_create_index.
  destruct (Re.rmatch create_index_pattern sql) as [m|]; [|discriminate].
  destruct (get_table st (group_str m 2)) as [tb|] eqn:G; [|discriminate].
  destruct (check_index_columns _ _ _) as [[]|e] eqn:K.
  - destruct (Table.add_index _ _ _) as [tb' [[]|e]] eqn:A.
    + unfold _save_table. rewrite get_table_put. discriminate.
    + intros H. injection H as <- ->.
      destruct (add_index_until _ _ _ _ _ A)
        as (pre & -> & F & [[D _]|(r & post & c' & R & _ & Nr & D)]);
        [discriminate D|].
      injection D as <-. split; [reflexivity|].
      exists m, tb, pre, r, post. repeat split; auto. apply get_table_put.
  - intros H. injection H as _ ->.
    destruct (check_index_columns_raise _ _ _ _ K) as [msg F]. discriminate F.
Qed.

(** X18.  CREATE INDEX that returns has found every indexed column in
    every row, holds under the given name the index a rebuild gives on
    all the rows (whatever index had that name before), and has saved
    the table. *)
Theorem create_index_builds_on_all_rows st sql st' res :
  _execute_create_index st sql = (st', Ok res) ->
  exists m tb tb',
    Re.rmatch create_index_pattern sql = Some m
    /\ get_table st (group_str m 2) = Some tb
    /\ get_table st' (group_str m 2) = Some tb'
    /\ Dict.get String.eqb (disk st') (group_str m 2) = Some tb'
    /\ Table.rows tb' = Table.rows tb
    /\ Dict.get String.eqb (Table.indexes tb') (group_str m 1)
       = Some (_rebuild_index (Table.rows tb)
                 (Index.new (map PyStr.strip
                               (PyStr.split_char "," (group_str m 3)))))
    /\ Forall (fun r =>
                 forall c,
                   In c (map PyStr.strip
                           (PyStr.split_char "," (group_str m 3))) ->
                   row_get r c <> None) (Table.rows tb).
Proof.
  unfold _execute_create_index.
  destruct (Re.rmatch create_index_pattern sql) as [m|]; [|discriminate].
  destruct (get_table st (group_str m 2)) as [tb|] eqn:G; [|discriminate].
  destruct (check_index_columns _ _ _) as [[]|e]; [|discriminate].
  destruct (Table.add_index _ _ _) as [tb' [[]|e]] eqn:A; [|discriminate].
  unfold _save_table. rewrite get_table_put. intros H. injection H as <- _.
  destruct (add_index_until _ _ _ _ _ A)
    as (pre & -> & F & [[_ ->]|(r & post & c' & _ & _ & _ & D)]);
    [|discriminate D].
  exists m, tb. eexists. split; [reflexivity|]. split; [exact G|].
  split; [apply get_table_put|].
  split; [simpl; apply dict_get_set_same|].
  split; [reflexivity|]. split; [|exact F].
  simpl. apply dict_get_set_same.
Qed.

(** ** SELECT with a condition; statements that raise *)

Section Failures.

Variable like_match : string -> value -> outcome bool.

Lemma filter_where_selected w : forall rs out,
  filter_where like_match w rs = Ok out ->
  truthy (Some w) = true ->
  out = filter (selected like_match (Some w)) rs.
Proof.
  induction rs as [|r rs IH]; simpl; intros out H T.
  - injection H as <-. reflexivity.
  - destruct (_evaluate_where like_match r w) as [b|e] eqn:E; [|discriminate H].
    simpl in H.
    destruct (filter_where like_match w rs) as [rest|e]; [|discriminate H].
    simpl in H. injection H as <-.
    assert (Sel : selected like_match (Some w) r = b).
    { unfold selected. destruct w; [discriminate T|].
      cbn [truthy negb group_or_empty]. rewrite E. reflexivity. }
    rewrite Sel, (IH rest eq_refl T). reflexivity.
Qed.

Lemma select_outcome st select_clause table_name tb w out :
  PyStr.contains " JOIN " (PyStr.upper table_name) = false ->
  get_table st table_name = Some tb ->
  truthy (Some w) = true ->
  select_groups like_match st select_clause table_name (Some w) None = Ok out ->
  exists columns,
    select_columns select_clause [tb] = Ok columns
    /\ out = map (project_row columns)
               (filter (selected like_match (Some w)) (Table.rows tb)).
Proof.
  intros J G T. unfold select_groups, parse_from. rewrite J.
  cbn [bind fst get_table_objs]. rewrite G. cbn [bind].
  destruct (select_columns select_clause [tb]) as [columns|e]; [|discriminate].
  cbn [bind materialize]. rewrite T. cbn [group_or_empty].
  destruct (filter_where like_match w (Table.rows tb)) as [rows|e] eqn:F;
    [|discriminate].
  cbn [bind truthy]. intros H. injection H as <-.
  exists columns. split; [reflexivity|].
  rewrite (filter_where_selected w _ _ F T). reflexivity.
Qed.

(** X19.  A SELECT on one table with a WHERE clause and without ORDER BY
    returns, when it returns, the projection of exactly the rows the
    condition selects, in the order of the table: the rows a DELETE
    with the same condition would remove. *)
Theorem select_returns_the_selected st select_clause table_name tb w out :
  PyStr.contains " JOIN " (PyStr.upper table_name) = false ->
  get_table st table_name = Some tb ->
  truthy (Some w) = true ->
  select_groups like_match st select_clause table_name (Some w) None = Ok out ->
  exists columns,
    select_columns select_clause [tb] = Ok columns
    /\ out = map (project_row columns)
               (filter (selected like_match (Some w)) (Table.rows tb)).
Proof. apply select_outcome. Qed.

Lemma create_table_raise_unchanged st sql st' e :
  _execute_create_table st sql = (st', Raise e) -> st' = st.
Proof.
  unfold _execute_create_table.
  destruct (Re.rmatch create_table_pattern sql) as [m|]; [|congruence].
  destruct (Dict.mem String.eqb (tables st) (group_str m 1)); [congruence|].
  destruct (parse_columns _); [|congruence].
  unfold _save_table. rewrite get_table_put. discriminate.
Qed.

Lemma delete_raise_unchanged st sql st' e :
  _execute_delete like_match st sql = (st', Raise e) -> st' = st.
Proof.
  unfold _execute_delete.
  destruct (Re.rmatch delete_pattern sql) as [m|]; [|congruence].
  destruct (get_table st (group_str m 1)) as [table|]; [|congruence].
  destruct (rows_to_delete _ _ _ _); [|congruence].
  destruct (Nat.ltb 0 _); [|discriminate].
  unfold _save_table. rewrite get_table_put. discriminate.
Qed.

Lemma drop_table_raise_unchanged st sql st' e :
  _execute_drop_table st sql = (st', Raise e) -> st' = st.
Proof.
  unfold _execute_drop_table.
  destruct (Re.rmatch drop_table_pattern sql) as [m|]; [|congruence].
  destruct (negb _); [congruence | discriminate].
Qed.

(** X20.  A statement that raises has changed nothing but the
    transaction log, unless it is an UPDATE or a CREATE INDEX: the
    state [execute_sql] returns is the state it received with, in an
    open transaction, the statement added to the log. *)
Theorem raising_statement_changes_nothing st sql st' e :
  execute_sql like_match st sql = (st', Raise e) ->
  raises_midway (classify (normalize sql)) = false ->
  st' = log_statement st (normalize sql).
Proof.
  unfold SimpleRDBMS.execute_sql.
  generalize (log_statement st (normalize sql)) as st0.
  generalize (normalize sql) as s. intros s st0.
  unfold SimpleRDBMS.dispatch, classify.
  repeat match goal with
    | |- context [if ?b then _ else _] => destruct b
    end; intros H K; try discriminate K; try discriminate H.
  - apply (create_table_raise_unchanged _ _ _ _ H).
  - apply (insert_raise_unchanged _ _ _ _ H).
  - generalize (select_same_state like_match st0 s). rewrite H. auto.
  - apply (delete_raise_unchanged _ _ _ _ H).
  - apply (drop_table_raise_unchanged _ _ _ _ H).
  - congruence.
Qed.

End Failures.

(** ** The callers: the statements they send *)

(** *** Stripping a text with a known beginning *)

Lemma lstrip_spaces ws s :
  PyStr.all_chars PyStr.isspace_char ws = true ->
  PyStr.lstrip_by PyStr.isspace_char (ws ++ s)
  = PyStr.lstrip_by PyStr.isspace_char s.
Proof.
  induction ws as [|c ws IH]; [reflexivity|].
  cbn [PyStr.all_chars String.append PyStr.lstrip_by]. intros H.
  apply andb_prop in H. destruct H as [Hc Hw]. rewrite Hc. exact (IH Hw).
Qed.

Lemma strip_lead ws s :
  PyStr.all_chars PyStr.isspace_char ws = true ->
  PyStr.strip (ws ++ s) = PyStr.strip s.
Proof.
  intros H. unfold PyStr.strip, PyStr.strip_by.
  rewrite (lstrip_spaces ws s H). reflexivity.
Qed.

Lemma lstrip_stop p z y : p z = false -> forall x,
  exists x', PyStr.lstrip_by p (x ++ String z y) = (x' ++ String z y)%string.
Proof.
  intros Hz. induction x as [|c x [x' IH]].
  - exists EmptyString. cbn [String.append PyStr.lstrip_by]. rewrite Hz.
    reflexivity.
  - cbn [String.append PyStr.lstrip_by]. destruct (p c).
    + exists x'. exact IH.
    + exists (String c x). reflexivity.
Qed.

(** Stripping keeps a text from its first character, when that is no
    whitespace, up to any later character that is no whitespace. *)
Lemma strip_core a body z rest :
  PyStr.isspace_char a = false -> PyStr.isspace_char z = false ->
  exists rest',
    PyStr.strip (String a (body ++ String z rest))
    = String a (body ++ String z rest').
Proof.
  intros Ha Hz. unfold PyStr.strip, PyStr.strip_by.
  cbn [PyStr.lstrip_by]. rewrite Ha.
  rewrite rev_cons, rev_app, rev_cons.
  rewrite !append_assoc.
  destruct (lstrip_stop PyStr.isspace_char z
              (PyStr.rev body ++ String a EmptyString) Hz (PyStr.rev rest))
    as [x' E].
  change (String z EmptyString ++ PyStr.rev body ++ String a EmptyString)%string
    with (String z (PyStr.rev body ++ String a EmptyString)).
  rewrite E. exists (PyStr.rev x').
  rewrite rev_app, rev_cons, rev_app, rev_involutive.
  change (PyStr.rev (String a EmptyString)) with (String a EmptyString).
  rewrite !append_assoc. reflexivity.
Qed.

Lemma replace_char_app x y a b :
  PyStr.replace_char x y (a ++ b)
  = (PyStr.replace_char x y a ++ PyStr.replace_char x y b)%string.
Proof. induction a as [|c a IH]; simpl; [reflexivity | rewrite IH; reflexivity]. Qed.

Lemma normalize_update_statement set_clause todo_id :
  exists tail,
    normalize (TodoApp.update_statement set_clause todo_id)
    = ("UPDATE todos              SET" ++ tail)%string.
Proof.
  unfold normalize.
  assert (E : exists rest,
             TodoApp.update_statement set_clause todo_id
             = (String "010" "            "
                ++ String "U" (("PDATE todos " ++ String "010" "            SE")
                               ++ String "T" rest))%string)
    by (eexists; reflexivity).
  destruct E as [rest ->].
  rewrite strip_lead by reflexivity.
  destruct (strip_core "U" ("PDATE todos " ++ String "010" "            SE")
              "T" rest eq_refl eq_refl) as [rest' ->].
  eexists.
  change (String "U" (("PDATE todos " ++ String "010" "            SE")
                      ++ String "T" rest'))
    with (("UPDATE todos " ++ String "010" "            SET") ++ rest')%string.
  rewrite !replace_char_app. reflexivity.
Qed.

Section Callers.

Variable like_match : string -> value -> outcome bool.

Lemma update_statement_is_refused st tail :
  dispatch like_match st ("UPDATE todos              SET" ++ tail)
  = (st, Raise (ValueError "Invalid UPDATE syntax")).
Proof. reflexivity. Qed.

Lemma update_todo_always_raises_aux st todo_id kv updates :
  snd (TodoApp.update_todo like_match st todo_id (kv :: updates))
  = Raise (ValueError "Invalid UPDATE syntax")
  /\ tables (fst (TodoApp.update_todo like_match st todo_id (kv :: updates)))
     = tables st
  /\ disk (fst (TodoApp.update_todo like_match st todo_id (kv :: updates)))
     = disk st.
Proof.
  unfold TodoApp.update_todo, SimpleRDBMS.execute_sql.
  destruct (normalize_update_statement
              (TodoApp.set_clause_of (kv :: updates)) (str_int todo_id))
    as [tail ->].
  rewrite update_statement_is_refused. cbn [fst snd].
  repeat split; unfold log_statement; destruct (_in_transaction st); reflexivity.
Qed.

(** X21.  [update_todo] with at least one keyword argument raises
    ValueError for every todo and every argument, and changes no table:
    between the table name and SET its statement has a newline and an
    indentation, which reach [_execute_update] as a run of blanks, where
    the pattern has one. *)
Theorem update_todo_always_raises st todo_id kv updates :
  let after := TodoApp.update_todo like_match st todo_id (kv :: updates) in
  snd after = Raise (ValueError "Invalid UPDATE syntax")
  /\ tables (fst after) = tables st /\ disk (fst after) = disk st.
Proof. apply update_todo_always_raises_aux. Qed.

Lemma normalize_select_by_id todo_id :
  exists tail,
    normalize ("SELECT * FROM todos WHERE id = " ++ todo_id)
    = ("SELECT * FROM todos WHERE id =" ++ tail)%string.
Proof.
  unfold normalize.
  destruct (strip_core "S" "ELECT * FROM todos WHERE id " "="
              (" " ++ todo_id) eq_refl eq_refl) as [rest' E].
  change ("SELECT * FROM todos WHERE id = " ++ todo_id)%string
    with (String "S" ("ELECT * FROM todos WHERE id "
                      ++ String "=" (" " ++ todo_id))).
  rewrite E. eexists.
  change (String "S" ("ELECT * FROM todos WHERE id " ++ String "=" rest'))
    with ("SELECT * FROM todos WHERE id =" ++ rest')%string.
  rewrite !replace_char_app. reflexivity.
Qed.

Lemma select_by_id_is_a_select st tail :
  dispatch like_match st ("SELECT * FROM todos WHERE id =" ++ tail)
  = _execute_select like_match st ("SELECT * FROM todos WHERE id =" ++ tail).
Proof. reflexivity. Qed.

Lemma log_statement_tables st sql :
  tables (log_statement st sql) = tables st
  /\ disk (log_statement st sql) = disk st.
Proof. unfold log_statement. destruct (_in_transaction st); split; reflexivity. Qed.

Lemma get_todo_reads st todo_id :
  tables (fst (TodoApp.get_todo like_match st todo_id)) = tables st
  /\ disk (fst (TodoApp.get_todo like_match st todo_id)) = disk st.
Proof.
  unfold TodoApp.get_todo, SimpleRDBMS.execute_sql.
  destruct (normalize_select_by_id (str_int todo_id)) as [tail ->].
  rewrite select_by_id_is_a_select.
  generalize (select_same_state like_match
                (log_statement st ("SELECT * FROM todos WHERE id =" ++ tail))
                ("SELECT * FROM todos WHERE id =" ++ tail)).
  destruct (_execute_select _ _ _) as [st1 o]. cbn [fst]. intros ->.
  apply log_statement_tables.
Qed.

(** X22.  [toggle_todo] never returns a todo and never changes a table.
    It returns None when no todo has the id and when the todo found is
    the empty dict; for any other todo it raises: [KeyError] when the
    todo has no key completed, and else the [ValueError] of
    [update_todo]. *)
Theorem toggle_todo_never_toggles st todo_id :
  let found := snd (TodoApp.get_todo like_match st todo_id) in
  let after := TodoApp.toggle_todo like_match st todo_id in
  tables (fst after) = tables st /\ disk (fst after) = disk st
  /\ snd after
     = match found with
       | Raise e => Raise e
       | Ok None => Ok None
       | Ok (Some todo) =>
           match todo, row_get todo "completed" with
           | [], _ => Ok None
           | _ :: _, None => Raise (KeyError "completed")
           | _ :: _, Some _ => Raise (ValueError "Invalid UPDATE syntax")
           end
       end
  /\ (forall todo, snd after <> Ok (Some todo)).
Proof.
  unfold TodoApp.toggle_todo. cbv zeta.
  destruct (get_todo_reads st todo_id) as [T D].
  destruct (TodoApp.get_todo like_match st todo_id) as [st1 [[todo|]|e]];
    cbn [fst snd] in *.
  - destruct todo as [|kv todo]; [repeat split; auto; discriminate|].
    destruct (row_get (kv :: todo) "completed") as [completed|] eqn:C.
    + destruct (update_todo_always_raises_aux st1 todo_id
                  ("completed",
                   TodoApp.NotStr (if negb (py_truth completed)
                                   then "True" else "False")) [])
        as (R & T1 & D1).
      rewrite R, T1, D1. repeat split; auto; discriminate.
    + cbn [fst snd]. repeat split; auto; discriminate.
  - repeat split; auto; discriminate.
  - repeat split; auto; discriminate.
Qed.

Lemma create_users_is_refused st :
  execute_sql like_match st Main.create_users
  = (log_statement st (normalize Main.create_users),
     Raise (ValueError "Invalid CREATE TABLE syntax")).
Proof. reflexivity. Qed.

(** X23.  The sample data of the web mode is never created: the first
    statement, CREATE TABLE IF NOT EXISTS users, does not match the
    pattern of CREATE TABLE, the error is swallowed, and the INSERT
    after it is not run.  The engine stays as it was loaded. *)
Theorem web_sample_data_is_never_created files :
  Main.sample_data like_match (init files) = init files.
Proof. unfold Main.sample_data. rewrite create_users_is_refused. reflexivity. Qed.

End Callers.

(** *** ORDER BY: keys that compare alike sort alike *)

Lemma sort_fold_raise (key : row -> list value) e : forall rs,
  fold_left (fun acc r => do a <- acc; insert_sorted (key r, r) a) rs (Raise e)
  = Raise e.
Proof. induction rs as [|r rs IH]; simpl; auto. Qed.

Section SameOrder.

Variables key key' : row -> list value.
Variable P : row -> Prop.
Hypothesis same : forall x y, P x -> P y ->
  tuple_lt (key x) (key y) = tuple_lt (key' x) (key' y).

Lemma insert_sorted_same_order x : P x -> forall l, Forall P l ->
  match insert_sorted (key x, x) (map (fun r => (key r, r)) l),
        insert_sorted (key' x, x) (map (fun r => (key' r, r)) l) with
  | Ok a, Ok b =>
      exists l', a = map (fun r => (key r, r)) l'
                 /\ b = map (fun r => (key' r, r)) l' /\ Forall P l'
  | Raise e, Raise e' => e = e'
  | _, _ => False
  end.
Proof using same.
  intros Px. induction l as [|y l IH]; intros F.
  - simpl. exists [x]. auto.
  - inversion F as [|? ? Py F']; subst. cbn [map insert_sorted fst].
    rewrite (same x y Px Py).
    destruct (tuple_lt (key' x) (key' y)) as [[|]|e]; cbn [bind].
    + exists (x :: y :: l). auto.
    + specialize (IH F').
      destruct (insert_sorted (key x, x) _) as [a|e];
        destruct (insert_sorted (key' x, x) _) as [b|e']; cbn [bind];
        try contradiction; [|exact IH].
      destruct IH as (l' & -> & -> & F2). exists (y :: l'). auto.
    + reflexivity.
Qed.

Lemma sort_fold_same_order : forall rs acc, Forall P rs -> Forall P acc ->
  match fold_left (fun a r => do a <- a; insert_sorted (key r, r) a) rs
          (Ok (map (fun r => (key r, r)) acc)),
        fold_left (fun a r => do a <- a; insert_sorted (key' r, r) a) rs
          (Ok (map (fun r => (key' r, r)) acc)) with
  | Ok a, Ok b =>
      exists l', a = map (fun r => (key r, r)) l'
                 /\ b = map (fun r => (key' r, r)) l'
  | Raise e, Raise e' => e = e'
  | _, _ => False
  end.
Proof using same.
  induction rs as [|r rs IH]; intros acc Fr Fa.
  - simpl. exists acc. auto.
  - inversion Fr as [|? ? Pr Fr']; subst. cbn [fold_left bind].
    generalize (insert_sorted_same_order r Pr acc Fa).
    destruct (insert_sorted (key r, r) _) as [a|e];
      destruct (insert_sorted (key' r, r) _) as [b|e']; try contradiction.
    + intros (l' & -> & -> & F2). apply (IH l' Fr' F2).
    + intros ->. rewrite !sort_fold_raise. reflexivity.
Qed.

End SameOrder.

Lemma sort_rows_same_order cols cols' (P : row -> Prop) rs :
  (forall x y, P x -> P y ->
     tuple_lt (sort_key cols x) (sort_key cols y)
     = tuple_lt (sort_key cols' x) (sort_key cols' y)) ->
  Forall P rs ->
  sort_rows cols rs = sort_rows cols' rs.
Proof.
  intros S F. unfold sort_rows.
  generalize (sort_fold_same_order (sort_key cols) (sort_key cols') P S
                rs [] F (Forall_nil _)).
  cbn [map].
  destruct (fold_left _ rs (Ok [])) as [a|e];
    destruct (fold_left _ rs (Ok [])) as [b|e']; try contradiction.
  - intros (l' & -> & ->). cbn [bind]. rewrite !map_map. reflexivity.
  - intros ->. reflexivity.
Qed.

Lemma priority_decides x y :
  (row_get x "CASE WHEN completed THEN 1 ELSE 0 END" = None
   /\ row_get x "created_at DESC" = None) ->
  (row_get y "CASE WHEN completed THEN 1 ELSE 0 END" = None
   /\ row_get y "created_at DESC" = None) ->
  tuple_lt
    (sort_key ["CASE WHEN completed THEN 1 ELSE 0 END"; "priority";
               "created_at DESC"] x)
    (sort_key ["CASE WHEN completed THEN 1 ELSE 0 END"; "priority";
               "created_at DESC"] y)
  = tuple_lt (sort_key ["priority"] x) (sort_key ["priority"] y).
Proof.
  intros [X1 X3] [Y1 Y3]. unfold sort_key. cbn [map].
  rewrite X1, X3, Y1, Y3. cbn [tuple_lt].
  change (py_eq (VText EmptyString) (VText EmptyString)) with true. cbn iota.
  destruct (py_eq _ _); reflexivity.
Qed.

Section Todos.

Variable like_match : string -> value -> outcome bool.

Lemma get_all_todos_is_select st :
  TodoApp.get_all_todos like_match st
  = (log_statement st (normalize TodoApp.select_todos),
     select_groups like_match
       (log_statement st (normalize TodoApp.select_todos)) "*" "todos" None
       (Some "                 CASE WHEN completed THEN 1 ELSE 0 END,                 priority,                 created_at DESC")).
Proof. reflexivity. Qed.

(** X24.  [get_all_todos] returns the todos ordered by priority alone:
    the first and the last item of its ORDER BY clause are no columns,
    so that every row has the empty text as their sort key, and
    neither completed nor created_at takes part in the order. *)
Theorem get_all_todos_orders_by_priority_only st tb :
  get_table st "todos" = Some tb ->
  Forall (fun r => row_get r "CASE WHEN completed THEN 1 ELSE 0 END" = None
                   /\ row_get r "created_at DESC" = None) (Table.rows tb) ->
  snd (TodoApp.get_all_todos like_match st)
  = do sorted <- sort_rows ["priority"] (Table.rows tb);
    Ok (map (project_row (map Column.name (Table.columns tb))) sorted).
Proof.
  intros G F. rewrite get_all_todos_is_select. cbn [snd].
  unfold select_groups.
  change (parse_from "todos") with (Ok (A := list string * list string)
                                      (["todos"], [])).
  cbn [bind fst get_table_objs].
  unfold get_table in *. rewrite (proj1 (log_statement_tables st _)), G.
  cbn [bind select_columns String.eqb Ascii.eqb Bool.eqb materialize truthy
       group_or_empty].
  change (map PyStr.strip (PyStr.split_char "," _))
    with ["CASE WHEN completed THEN 1 ELSE 0 END"; "priority"; "created_at DESC"].
  rewrite (sort_rows_same_order _ ["priority"] _ (Table.rows tb)
             priority_decides F).
  reflexivity.
Qed.

End Todos.

(** ** The callers: statements with a name or a number in them *)

Lemma rep_greedy_to_end {R} k (cont : string -> option R) r : forall s,
  PyStr.all_chars (Re.cls_match k) s = true ->
  cont EmptyString = Some r ->
  Re.rep k true s cont = Some r.
Proof.
  induction s as [|c s IH]; intros A H; [exact H|].
  cbn [PyStr.all_chars] in A. apply andb_prop in A. destruct A as [Hc Hs].
  cbn [Re.rep]. rewrite Hc, (IH Hs H). reflexivity.
Qed.

Lemma rep_lazy_to_end {R} k (p : ascii -> bool) (cont : string -> option R) :
  (forall c t, p c = true -> cont (String c t) = None) ->
  forall s,
    PyStr.all_chars (fun c => Re.cls_match k c && p c) s = true ->
    Re.rep k false s cont = cont EmptyString.
Proof.
  intros F. induction s as [|c s IH]; intros A; [reflexivity|].
  cbn [PyStr.all_chars] in A. apply andb_prop in A. destruct A as [Hc Hs].
  apply andb_prop in Hc. destruct Hc as [Hk Hp].
  cbn [Re.rep]. rewrite Hk, (F c s Hp). exact (IH Hs).
Qed.

Lemma substring_all s : String.substring 0 (String.length s) s = s.
Proof. induction s as [|c s IH]; simpl; [reflexivity | rewrite IH; reflexivity]. Qed.

Lemma consumed_all s : Re.consumed s EmptyString = s.
Proof. unfold Re.consumed. simpl. rewrite Nat.sub_0_r. apply substring_all. Qed.

Lemma digits_are_dots d :
  PyStr.all_chars PyStr.isdigit_char d = true ->
  PyStr.all_chars (Re.cls_match (Re.CDot false)) d = true.
Proof.
  induction d as [|c d IH]; [reflexivity|]. cbn [PyStr.all_chars]. intros H.
  apply andb_prop in H. destruct H as [Hc Hd]. rewrite (IH Hd), andb_true_r.
  revert Hc. destruct c as [[] [] [] [] [] [] [] []]; vm_compute; congruence.
Qed.


Lemma rep_step_greedy {R} k c s (cont : string -> option R) :
  Re.cls_match k c = true ->
  Re.rep k true (String c s) cont
  = match Re.rep k true s cont with
    | Some r => Some r
    | None => cont (String c s)
    end.
Proof. intros H. cbn [Re.rep]. rewrite H. reflexivity. Qed.

Lemma rep_step_lazy {R} k c s (cont : string -> option R) :
  Re.cls_match k c = true ->
  Re.rep k false (String c s) cont
  = match cont (String c s) with
    | Some r => Some r
    | None => Re.rep k false s cont
    end.
Proof. intros H. cbn [Re.rep]. rewrite H. reflexivity. Qed.

Lemma rep_stop {R} k g c s (cont : string -> option R) :
  Re.cls_match k c = false ->
  Re.rep k g (String c s) cont = cont (String c s).
Proof. intros H. cbn [Re.rep]. rewrite H. reflexivity. Qed.

Lemma substring_prefix w t :
  String.substring 0 (String.length w) (w ++ t) = w.
Proof. induction w as [|c w IH]; simpl; [destruct t; reflexivity | rewrite IH; reflexivity]. Qed.

Lemma consumed_prefix w t : Re.consumed (w ++ t) t = w.
Proof.
  unfold Re.consumed. rewrite length_append.
  replace (String.length w + String.length t - String.length t)
    with (String.length w) by lia.
  apply substring_prefix.
Qed.

Ltac re_steps :=
  repeat first
    [ rewrite rep_step_greedy by reflexivity
    | rewrite rep_step_lazy by reflexivity
    | rewrite rep_stop by reflexivity ].

Lemma delete_by_id_matches d :
  PyStr.all_chars PyStr.isdigit_char d = true ->
  Re.rmatch delete_pattern ("DELETE FROM todos WHERE id = " ++ d)
  = Some [(2, ("id = " ++ d)%string); (1, "todos")].
Proof.
  intros D. unfold Re.rmatch, delete_pattern.
  cbv -[Re.rep Re.consumed]. re_steps.
  cbv -[Re.rep Re.consumed]. re_steps.
  erewrite rep_greedy_to_end; [|apply digits_are_dots, D | reflexivity].
  cbv iota.
  change (String "i" (String "d" (String " " (String "=" (String " " d)))))
    with ("id = " ++ d)%string.
  rewrite consumed_all.
  change (String "t" (String "o" (String "d" (String "o" (String "s"
            (String " " (String "W" (String "H" (String "E" (String "R"
               (String "E" (String " " ("id = " ++ d)%string))))))))))))
    with ("todos" ++ (" WHERE " ++ "id = " ++ d))%string.
  change (String " " (String "W" (String "H" (String "E" (String "R"
               (String "E" (String " " ("id = " ++ d)%string)))))))
    with (" WHERE " ++ "id = " ++ d)%string.
  rewrite consumed_prefix. reflexivity.
Qed.


(** *** [str(n)] is a text of digits, read back by [int] *)

Lemma uint_digits d :
  PyStr.all_chars PyStr.isdigit_char (NilEmpty.string_of_uint d) = true.
Proof. induction d; simpl; auto. Qed.

Lemma of_nat_digits n :
  PyStr.all_chars PyStr.isdigit_char (PyStr.of_nat n) = true
  /\ PyStr.of_nat n <> EmptyString.
Proof.
  unfold PyStr.of_nat, NilZero.string_of_uint.
  generalize (uint_digits (Nat.to_uint n)).
  destruct (Nat.to_uint n) as [|u|u|u|u|u|u|u|u|u|u]; intros H;
    (split; [first [exact H | reflexivity] | simpl; discriminate]).
Qed.

Lemma int_acc_uint d : forall acc,
  PyStr.int_acc (NilEmpty.string_of_uint d) (Z.of_nat acc)
  = Z.of_nat (Nat.of_uint_acc d acc).
Proof.
  induction d; intros acc; cbn [NilEmpty.string_of_uint PyStr.int_acc Nat.of_uint_acc];
    [reflexivity|..];
    rewrite <- IHd; f_equal; rewrite Nat.tail_mul_spec;
    unfold PyStr.digit_val;
    match goal with
    | |- context [PyStr.nat_of ?c - 48] =>
        let v := eval vm_compute in (PyStr.nat_of c - 48) in
        change (PyStr.nat_of c - 48) with v
    end; lia.
Qed.

Lemma int_of_uint u :
  PyStr.int_of (NilZero.string_of_uint u) = Z.of_nat (Nat.of_uint u).
Proof.
  unfold PyStr.int_of, NilZero.string_of_uint, Nat.of_uint.
  generalize (int_acc_uint u 0).
  destruct u; intros H; first [exact H | reflexivity].
Qed.

Lemma int_of_of_nat n : PyStr.int_of (PyStr.of_nat n) = Z.of_nat n.
Proof.
  unfold PyStr.of_nat. rewrite int_of_uint, Unsigned.of_to. reflexivity.
Qed.

Lemma str_int_of_nat n : str_int (Z.of_nat n) = PyStr.of_nat n.
Proof.
  unfold str_int. destruct (Z.ltb_spec (Z.of_nat n) 0); [lia|].
  rewrite Nat2Z.id. reflexivity.
Qed.

Lemma all_chars_last q : forall s c,
  PyStr.all_chars q (String c s) = true ->
  exists s0 z, String c s = (s0 ++ String z EmptyString)%string /\ q z = true.
Proof.
  induction s as [|x s IH]; intros c H.
  - exists EmptyString, c. cbn [PyStr.all_chars] in H.
    apply andb_prop in H. split; [reflexivity | apply H].
  - cbn [PyStr.all_chars] in H. apply andb_prop in H. destruct H as [_ H].
    destruct (IH x H) as (s0 & z & E & Hz).
    exists (String c s0), z. rewrite E. auto.
Qed.

Lemma digit_is_not_space c :
  PyStr.isdigit_char c = true -> PyStr.isspace_char c = false.
Proof. destruct c as [[] [] [] [] [] [] [] []]; vm_compute; congruence. Qed.

Lemma digit_is_plain c :
  PyStr.isdigit_char c = true ->
  Ascii.eqb c "010" = false /\ Ascii.eqb c "009" = false
  /\ Ascii.eqb "'" c = false.
Proof. destruct c as [[] [] [] [] [] [] [] []]; vm_compute; intuition congruence. Qed.

Lemma replace_char_digits a b d :
  (a = "010" \/ a = "009")%char ->
  PyStr.all_chars PyStr.isdigit_char d = true ->
  PyStr.replace_char a b d = d.
Proof.
  intros Ha. induction d as [|c d IH]; [reflexivity|].
  cbn [PyStr.all_chars PyStr.replace_char]. intros H.
  apply andb_prop in H. destruct H as [Hc Hd]. rewrite (IH Hd).
  destruct (digit_is_plain c Hc) as (N & T & _).
  destruct Ha as [-> | ->]; [rewrite N | rewrite T]; reflexivity.
Qed.

(** A statement that begins with a letter and ends with a number is
    its own normal form. *)
Lemma normalize_with_number a body d :
  PyStr.isspace_char a = false ->
  PyStr.replace_char "009" " " (PyStr.replace_char "010" " " (String a body))
  = String a body ->
  PyStr.all_chars PyStr.isdigit_char d = true -> d <> EmptyString ->
  normalize (String a body ++ d) = (String a body ++ d)%string.
Proof.
  intros Ha R D N. unfold normalize.
  destruct d as [|c d]; [congruence|].
  destruct (all_chars_last _ d c D) as (s0 & z & E & Hz).
  rewrite E at 1.
  change (String a body ++ s0 ++ String z EmptyString)%string
    with (String a (body ++ s0 ++ String z EmptyString)).
  rewrite <- append_assoc.
  rewrite (strip_id a (body ++ s0) z Ha (digit_is_not_space z Hz)).
  rewrite append_assoc, <- E.
  change (String a (body ++ String c d)) with (String a body ++ String c d)%string.
  rewrite !replace_char_app, R.
  rewrite (replace_char_digits "010" " " _ (or_introl eq_refl) D).
  rewrite (replace_char_digits "009" " " _ (or_intror eq_refl) D).
  reflexivity.
Qed.

Lemma digits_word d :
  PyStr.all_chars PyStr.isdigit_char d = true -> d <> EmptyString ->
  is_word d = true.
Proof.
  intros D N. unfold is_word. destruct d as [|c d]; [congruence|].
  cbn [String.length Nat.ltb Nat.leb andb].
  revert D. generalize (String c d). clear. intros s.
  induction s as [|x s IH]; [reflexivity|]. cbn [PyStr.all_chars]. intros H.
  apply andb_prop in H. destruct H as [Hx Hs].
  rewrite (digit_is_not_space x Hx), (IH Hs). reflexivity.
Qed.

Lemma strip_quote_digits d :
  PyStr.all_chars PyStr.isdigit_char d = true -> PyStr.strip_quote d = d.
Proof.
  intros D. unfold PyStr.strip_quote, PyStr.strip_by.
  destruct d as [|c d]; [reflexivity|].
  destruct (all_chars_last _ d c D) as (s0 & z & E & Hz).
  cbn [PyStr.all_chars] in D. apply andb_prop in D. destruct D as [Hc _].
  destruct (digit_is_plain c Hc) as (_ & _ & Qc).
  destruct (digit_is_plain z Hz) as (_ & _ & Qz).
  cbn [PyStr.lstrip_by]. rewrite Qc. rewrite E at 1.
  rewrite rev_app. change (PyStr.rev (String z EmptyString)) with (String z EmptyString).
  cbn [String.append PyStr.lstrip_by]. rewrite Qz.
  change (String z (PyStr.rev s0)) with (String z EmptyString ++ PyStr.rev s0)%string.
  rewrite rev_app, rev_involutive. symmetry. exact E.
Qed.

Lemma where_value_digits d :
  PyStr.all_chars PyStr.isdigit_char d = true -> d <> EmptyString ->
  where_value d = VInt (PyStr.int_of d).
Proof.
  intros D N. unfold where_value, PyStr.isdigit.
  destruct d; [congruence|]. rewrite D. reflexivity.
Qed.

Section TodoById.

Variable like_match : string -> value -> outcome bool.

Lemma rows_to_delete_returns w : forall rs i,
  (forall r, exists b, _evaluate_where like_match r w = Ok b) ->
  exists ps, rows_to_delete like_match (Some w) i rs = Ok ps.
Proof.
  intros rs i T. revert i. induction rs as [|r rs IH]; intros i.
  - exists []. reflexivity.
  - cbn [rows_to_delete]. destruct (IH (S i)) as [ps ->].
    destruct (T r) as [b E].
    destruct w as [|c w]; cbn [truthy negb group_or_empty]; [cbn [bind]; eauto|].
    rewrite E. cbn [bind]. eauto.
Qed.

Lemma delete_returns st sql m tb ps :
  Re.rmatch delete_pattern sql = Some m ->
  get_table st (group_str m 1) = Some tb ->
  rows_to_delete like_match (Re.group m 2) 0 (Table.rows tb) = Ok ps ->
  exists st' res, _execute_delete like_match st sql = (st', Ok res).
Proof.
  intros M G R. unfold _execute_delete. rewrite M, G, R.
  destruct (Nat.ltb 0 _); [|eexists; eexists; reflexivity].
  unfold _save_table. rewrite get_table_put. eexists; eexists; reflexivity.
Qed.

Lemma where_id_is r d :
  PyStr.all_chars PyStr.isdigit_char d = true -> d <> EmptyString ->
  _evaluate_where like_match r ("id = " ++ d)
  = Ok (py_eq (row_get_none r "id") (VInt (PyStr.int_of d))).
Proof.
  intros D N.
  change ("id = " ++ d)%string with ("id" ++ " " ++ "=" ++ " " ++ d)%string.
  rewrite (comparison_scan like_match r "id" "=" d eq_refl (digits_word d D N)
             (or_introl eq_refl)).
  rewrite (strip_quote_digits d D), (where_value_digits d D N). reflexivity.
Qed.

Lemma delete_by_id_is_a_delete st tail :
  dispatch like_match st ("DELETE FROM todos WHERE id = " ++ tail)
  = _execute_delete like_match st ("DELETE FROM todos WHERE id = " ++ tail).
Proof. reflexivity. Qed.

(** X25.  [delete_todo] of a non-negative id removes exactly the todos
    whose id equals it, keeps the others in their order, and returns
    True, also when there is no such todo. *)
Theorem delete_todo_removes_the_id st n tb :
  get_table st "todos" = Some tb ->
  let after := TodoApp.delete_todo like_match st (Z.of_nat n) in
  snd after = Ok true
  /\ exists tb',
       get_table (fst after) "todos" = Some tb'
       /\ Table.rows tb'
          = filter (fun r => negb (py_eq (row_get_none r "id")
                                     (VInt (Z.of_nat n))))
              (Table.rows tb).
Proof.
  intros G. unfold TodoApp.delete_todo, SimpleRDBMS.execute_sql.
  rewrite str_int_of_nat.
  destruct (of_nat_digits n) as [D N].
  rewrite (normalize_with_number "D" "ELETE FROM todos WHERE id = " _
             eq_refl eq_refl D N).
  rewrite delete_by_id_is_a_delete.
  assert (M := delete_by_id_matches (PyStr.of_nat n) D).
  change (String "D" "ELETE FROM todos WHERE id = " ++ PyStr.of_nat n)%string
    with ("DELETE FROM todos WHERE id = " ++ PyStr.of_nat n)%string.
  set (sql := ("DELETE FROM todos WHERE id = " ++ PyStr.of_nat n)%string) in *.
  set (st0 := log_statement st sql).
  assert (G0 : get_table st0 "todos" = Some tb).
  { unfold get_table, st0. rewrite (proj1 (log_statement_tables st sql)).
    exact G. }
  destruct (rows_to_delete_returns ("id = " ++ PyStr.of_nat n) (Table.rows tb) 0)
    as [ps R].
  { intros r. rewrite (where_id_is r _ D N). eauto. }
  destruct (delete_returns st0 sql _ tb ps M G0 R) as (st' & res & E).
  destruct (delete_outcome like_match st0 sql _ tb st' res M G0 E)
    as (tb' & G' & Rows & _).
  rewrite E. cbn [fst snd bind]. split; [reflexivity|].
  exists tb'. split; [exact G'|]. rewrite Rows.
  apply filter_ext. intros r. f_equal.
  unfold selected. cbn [Re.group Dict.get Nat.eqb group_or_empty].
  change (truthy (Some ("id = " ++ PyStr.of_nat n)%string)) with true.
  cbn [negb]. rewrite (where_id_is r _ D N), int_of_of_nat. reflexivity.
Qed.

End TodoById.

Lemma word_char_facts c :
  PyStr.isword_char c = true ->
  Re.cls_match (Re.CDot false) c = true
  /\ Re.cls_match (Re.CLit " ") c = false
  /\ Ascii.eqb c "010" = false
  /\ Ascii.eqb c "/" = false
  /\ PyStr.isspace_char c = false.
Proof.
  destruct c as [[] [] [] [] [] [] [] []]; vm_compute; intuition congruence.
Qed.

(** What follows the FROM clause in the pattern of SELECT: the optional
    WHERE and ORDER BY groups and the end of the text. *)
Lemma select_tail_at_end c0 :
  Re.run (Re.seq [Re.Opt (Re.seq [Re.lit " WHERE ";
                                  Re.Grp 3 (Re.plus (Re.CDot false) false)]);
                  Re.Opt (Re.seq [Re.lit " ORDER BY ";
                                  Re.Grp 4 (Re.plus (Re.CDot false) false)]);
                  Re.Eos]) EmptyString c0 (fun _ c => Some c)
  = Some c0.
Proof. reflexivity. Qed.

Lemma select_tail_at_word_char x t c0 :
  PyStr.isword_char x = true ->
  Re.run (Re.seq [Re.Opt (Re.seq [Re.lit " WHERE ";
                                  Re.Grp 3 (Re.plus (Re.CDot false) false)]);
                  Re.Opt (Re.seq [Re.lit " ORDER BY ";
                                  Re.Grp 4 (Re.plus (Re.CDot false) false)]);
                  Re.Eos]) (String x t) c0 (fun _ c => Some c)
  = None.
Proof.
  intros W. destruct (word_char_facts x W) as (_ & S & N & _).
  cbn [Re.seq Re.run Re.lit]. rewrite S, N. destruct t; reflexivity.
Qed.

Lemma select_star_matches name :
  PyStr.all_chars PyStr.isword_char name = true -> name <> EmptyString ->
  Re.rmatch select_pattern ("SELECT * FROM " ++ name)
  = Some [(2, name); (1, "*")].
Proof.
  intros W N. destruct name as [|x name]; [congruence|].
  cbn [PyStr.all_chars] in W. apply andb_prop in W. destruct W as [Wx Wn].
  destruct (word_char_facts x Wx) as (Dx & _).
  unfold Re.rmatch, select_pattern.
  change (Re.seq (Re.lit "SELECT "
                  :: Re.Grp 1 (Re.plus (Re.CDot false) false)
                  :: Re.lit " FROM "
                  :: Re.Grp 2 (Re.plus (Re.CDot false) false) :: ?tl))
    with (Re.Seq (Re.lit "SELECT ")
            (Re.Seq (Re.Grp 1 (Re.plus (Re.CDot false) false))
               (Re.Seq (Re.lit " FROM ")
                  (Re.Seq (Re.Grp 2 (Re.plus (Re.CDot false) false))
                     (Re.seq tl))))).
  set (tail := Re.seq _).
  cbn [Re.run]. rewrite run_lit.
  change (ci_prefix "SELECT " ("SELECT * FROM " ++ String x name)) with true.
  cbv iota.
  change (PyStr.drop (String.length "SELECT ")
            ("SELECT * FROM " ++ String x name))
    with (String "*" (" FROM " ++ String x name)).
  unfold Re.plus at 1. cbn [Re.run].
  change (Re.cls_match (Re.CDot false) "*") with true. cbv iota.
  change (" FROM " ++ String x name)%string
    with (String " " ("FROM " ++ String x name)).
  rewrite rep_step_lazy by reflexivity.
  rewrite run_lit.
  change (ci_prefix " FROM " (String " " ("FROM " ++ String x name))) with true.
  cbv iota.
  change (PyStr.drop (String.length " FROM ")
            (String " " ("FROM " ++ String x name)))
    with (String x name).
  unfold Re.plus. cbn [Re.run]. rewrite Dx.
  rewrite (rep_lazy_to_end (Re.CDot false) PyStr.isword_char).
  - unfold tail. rewrite select_tail_at_end.
    rewrite consumed_all.
    change (String "*" (String " " ("FROM " ++ String x name)))
      with ("*" ++ String " " ("FROM " ++ String x name))%string.
    rewrite consumed_prefix. reflexivity.
  - intros c t Wc. unfold tail. apply select_tail_at_word_char, Wc.
  - clear -Wn. induction name as [|c name IH]; [reflexivity|].
    cbn [PyStr.all_chars] in *. apply andb_prop in Wn. destruct Wn as [Wc Wn].
    destruct (word_char_facts c Wc) as (Dc & _).
    rewrite Dc, Wc, (IH Wn). reflexivity.
Qed.

Lemma split_char_no_sep sep : forall s,
  PyStr.all_chars (fun c => negb (Ascii.eqb c sep)) s = true ->
  PyStr.split_char sep s = [s].
Proof.
  induction s as [|c s IH]; [reflexivity|]. cbn [PyStr.all_chars PyStr.split_char].
  intros H. apply andb_prop in H. destruct H as [Hc Hs].
  apply negb_true_iff in Hc. rewrite Hc, (IH Hs). reflexivity.
Qed.

Lemma word_chars_no_slash s :
  PyStr.all_chars PyStr.isword_char s = true ->
  PyStr.all_chars (fun c => negb (Ascii.eqb c "/")) s = true.
Proof.
  induction s as [|c s IH]; [reflexivity|]. cbn [PyStr.all_chars]. intros H.
  apply andb_prop in H. destruct H as [Hc Hs].
  destruct (word_char_facts c Hc) as (_ & _ & _ & S & _).
  rewrite S, (IH Hs). reflexivity.
Qed.

Lemma word_chars_word s :
  PyStr.all_chars PyStr.isword_char s = true -> s <> EmptyString ->
  is_word s = true.
Proof.
  intros W N. unfold is_word. destruct s as [|c s]; [congruence|].
  cbn [String.length Nat.ltb Nat.leb andb].
  revert W. generalize (String c s). clear. intros s.
  induction s as [|x s IH]; [reflexivity|]. cbn [PyStr.all_chars]. intros H.
  apply andb_prop in H. destruct H as [Hx Hs].
  destruct (word_char_facts x Hx) as (_ & _ & _ & _ & S).
  rewrite S, (IH Hs). reflexivity.
Qed.

Lemma replace_char_word a b w :
  PyStr.isspace_char a = true -> is_word w = true ->
  PyStr.replace_char a b w = w.
Proof.
  intros Ha W. apply word_chars in W.
  induction w as [|c w IH]; [reflexivity|].
  cbn [PyStr.all_chars PyStr.replace_char] in *.
  apply andb_prop in W. destruct W as [Hc Hw]. rewrite (IH Hw).
  destruct (Ascii.eqb c a) eqn:E; [|reflexivity].
  apply Ascii.eqb_eq in E. subst c. rewrite Ha in Hc. discriminate Hc.
Qed.

(** A statement that begins with a character that is no whitespace and
    ends with a word is its own normal form. *)
Lemma normalize_with_word a body w :
  PyStr.isspace_char a = false ->
  PyStr.replace_char "009" " " (PyStr.replace_char "010" " " (String a body))
  = String a body ->
  is_word w = true ->
  normalize (String a body ++ w) = (String a body ++ w)%string.
Proof.
  intros Ha R W. unfold normalize.
  destruct (word_last w W) as (s0 & z & E & Hz).
  rewrite E at 1.
  change (String a body ++ s0 ++ String z EmptyString)%string
    with (String a (body ++ s0 ++ String z EmptyString)).
  rewrite <- append_assoc.
  rewrite (strip_id a (body ++ s0) z Ha Hz).
  rewrite append_assoc, <- E.
  change (String a (body ++ w)) with (String a body ++ w)%string.
  rewrite !replace_char_app, R.
  rewrite (replace_char_word "010" " " w eq_refl W).
  rewrite (replace_char_word "009" " " w eq_refl W).
  reflexivity.
Qed.

Section Web.

Variable like_match : string -> value -> outcome bool.

Lemma normalize_select_all table_name :
  exists tail,
    normalize ("SELECT * FROM " ++ table_name)
    = ("SELECT * FROM" ++ tail)%string.
Proof.
  unfold normalize.
  destruct (strip_core "S" "ELECT * FRO" "M" (" " ++ table_name)
              eq_refl eq_refl) as [rest' E].
  change ("SELECT * FROM " ++ table_name)%string
    with (String "S" ("ELECT * FRO" ++ String "M" (" " ++ table_name))).
  rewrite E. eexists.
  change (String "S" ("ELECT * FRO" ++ String "M" rest'))
    with ("SELECT * FROM" ++ rest')%string.
  rewrite !replace_char_app. reflexivity.
Qed.

Lemma select_all_is_a_select st tail :
  dispatch like_match st ("SELECT * FROM" ++ tail)
  = _execute_select like_match st ("SELECT * FROM" ++ tail).
Proof. reflexivity. Qed.

Lemma select_all_reads st table_name :
  tables (fst (execute_sql like_match st ("SELECT * FROM " ++ table_name)))
  = tables st
  /\ disk (fst (execute_sql like_match st ("SELECT * FROM " ++ table_name)))
     = disk st.
Proof.
  unfold SimpleRDBMS.execute_sql.
  destruct (normalize_select_all table_name) as [tail ->].
  rewrite select_all_is_a_select, select_same_state.
  apply log_statement_tables.
Qed.

(** X26.  Only a POST to /api/query can change a table or a snapshot:
    after any other request the catalog and the snapshot directory are
    as before.  (A GET of a table view runs a SELECT, which an open
    transaction logs.) *)
Theorem only_queries_change_tables st path method data :
  path <> "/api/query" \/ method <> "POST" ->
  tables (fst (WebRDBMS.handle_request like_match st path method data))
  = tables st
  /\ disk (fst (WebRDBMS.handle_request like_match st path method data))
     = disk st.
Proof.
  intros H. unfold WebRDBMS.handle_request.
  destruct (String.eqb path "/api/tables" && String.eqb method "GET");
    [split; reflexivity|].
  destruct (String.eqb path "/api/query" && String.eqb method "POST") eqn:Q.
  - apply andb_prop in Q. destruct Q as [Q1 Q2].
    apply String.eqb_eq in Q1, Q2. destruct H; contradiction.
  - destruct (PyStr.startswith "/api/table/" path && String.eqb method "GET");
      [|split; reflexivity].
    destruct (negb _); [split; reflexivity|].
    generalize (select_all_reads st
                  (List.last (PyStr.split_char "/" path) EmptyString)).
    destruct (execute_sql like_match st _) as [st1 [results|e]]; cbn [fst].
    + destruct (get_table st1 _); auto.
    + auto.
Qed.

Lemma view_path_name table_name :
  PyStr.all_chars PyStr.isword_char table_name = true ->
  List.last (PyStr.split_char "/" ("/api/table/" ++ table_name)) EmptyString
  = table_name.
Proof.
  intros W. cbn [String.append PyStr.split_char Ascii.eqb Bool.eqb].
  rewrite (split_char_no_sep "/" table_name (word_chars_no_slash _ W)).
  reflexivity.
Qed.

Lemma select_all_rows st table_name tb :
  PyStr.all_chars PyStr.isword_char table_name = true ->
  table_name <> EmptyString ->
  get_table st table_name = Some tb ->
  execute_sql like_match st ("SELECT * FROM " ++ table_name)
  = (log_statement st ("SELECT * FROM " ++ table_name),
     Ok (map (project_row (map Column.name (Table.columns tb)))
           (Table.rows tb))).
Proof.
  intros W N G. assert (Ww := word_chars_word table_name W N).
  unfold SimpleRDBMS.execute_sql.
  rewrite (normalize_with_word "S" "ELECT * FROM " table_name
             eq_refl eq_refl Ww).
  change (String "S" "ELECT * FROM " ++ table_name)%string
    with ("SELECT * FROM" ++ (" " ++ table_name))%string.
  rewrite select_all_is_a_select.
  change ("SELECT * FROM" ++ (" " ++ table_name))%string
    with ("SELECT * FROM " ++ table_name)%string.
  unfold _execute_select. rewrite (select_star_matches table_name W N).
  f_equal.
  change (group_str [(2, table_name); (1, "*")] 1) with "*".
  change (group_str [(2, table_name); (1, "*")] 2) with table_name.
  change (Re.group [(2, table_name); (1, "*")] 3) with (@None string).
  change (Re.group [(2, table_name); (1, "*")] 4) with (@None string).
  change (PyStr.strip "*") with "*". rewrite (strip_word table_name Ww).
  unfold select_groups, parse_from.
  rewrite (contains_no_blank _ _ (upper_no_blank _ (word_no_blank _ Ww))).
  cbn [bind fst get_table_objs]. unfold get_table in *.
  rewrite (proj1 (log_statement_tables st _)), G.
  reflexivity.
Qed.

(** X27.  GET /api/table/NAME, for a table of the catalog whose name is
    made of word characters, answers 200 with the declared column names
    and every row of the table, in order, projected on these columns. *)
Theorem table_view_shows_every_row st table_name tb data :
  PyStr.all_chars PyStr.isword_char table_name = true ->
  table_name <> EmptyString ->
  get_table st table_name = Some tb ->
  snd (WebRDBMS.handle_request like_match st ("/api/table/" ++ table_name)
         "GET" data)
  = (200,
     WebRDBMS.TableRows table_name (map Column.name (Table.columns tb))
       (map (project_row (map Column.name (Table.columns tb)))
          (Table.rows tb))).
Proof.
  intros W N G. unfold WebRDBMS.handle_request.
  change (String.eqb ("/api/table/" ++ table_name) "/api/tables") with false.
  change (String.eqb ("/api/table/" ++ table_name) "/api/query") with false.
  rewrite startswith_app, (view_path_name table_name W).
  cbn [andb String.eqb Ascii.eqb Bool.eqb].
  unfold Dict.mem. unfold get_table in G. rewrite G. cbn [negb].
  rewrite (select_all_rows st table_name tb W N G).
  unfold get_table. rewrite (proj1 (log_statement_tables st _)), G.
  reflexivity.
Qed.

End Web.

(** *** SELECT by id *)

Lemma digit_char_facts c :
  PyStr.isdigit_char c = true ->
  Re.cls_match (Re.CDot false) c = true
  /\ Re.cls_match (Re.CLit " ") c = false
  /\ Re.cls_match (Re.CLit "O") c = false
  /\ Ascii.eqb c "010" = false.
Proof.
  destruct c as [[] [] [] [] [] [] [] []]; vm_compute; intuition congruence.
Qed.

Lemma order_tail_at_end c0 :
  Re.run (Re.seq [Re.Opt (Re.seq [Re.lit " ORDER BY ";
                                  Re.Grp 4 (Re.plus (Re.CDot false) false)]);
                  Re.Eos]) EmptyString c0 (fun _ c => Some c)
  = Some c0.
Proof. reflexivity. Qed.

Lemma order_tail_fails x y t c0 :
  Re.cls_match (Re.CLit " ") x = false
  \/ (x = " "%char /\ Re.cls_match (Re.CLit "O") y = false) ->
  Re.run (Re.seq [Re.Opt (Re.seq [Re.lit " ORDER BY ";
                                  Re.Grp 4 (Re.plus (Re.CDot false) false)]);
                  Re.Eos]) (String x (String y t)) c0 (fun _ c => Some c)
  = None.
Proof.
  intros [H|[-> H]]; cbn [Re.seq Re.run Re.lit]; rewrite H; reflexivity.
Qed.

Lemma order_tail_at_digit x t c0 :
  PyStr.isdigit_char x = true ->
  Re.run (Re.seq [Re.Opt (Re.seq [Re.lit " ORDER BY ";
                                  Re.Grp 4 (Re.plus (Re.CDot false) false)]);
                  Re.Eos]) (String x t) c0 (fun _ c => Some c)
  = None.
Proof.
  intros D. destruct (digit_char_facts x D) as (_ & S & _ & N).
  cbn [Re.seq Re.run Re.lit]. rewrite S, N. destruct t; reflexivity.
Qed.

Lemma select_tail_at_where d c0 :
  PyStr.all_chars PyStr.isdigit_char d = true -> d <> EmptyString ->
  Re.run (Re.seq [Re.Opt (Re.seq [Re.lit " WHERE ";
                                  Re.Grp 3 (Re.plus (Re.CDot false) false)]);
                  Re.Opt (Re.seq [Re.lit " ORDER BY ";
                                  Re.Grp 4 (Re.plus (Re.CDot false) false)]);
                  Re.Eos]) (" WHERE id = " ++ d) c0 (fun _ c => Some c)
  = Some ((3, ("id = " ++ d)%string) :: c0).
Proof.
  intros D N. destruct d as [|x d]; [congruence|].
  assert (Dx : PyStr.isdigit_char x = true)
    by (cbn [PyStr.all_chars] in D; apply andb_prop in D; apply D).
  destruct (digit_char_facts x Dx) as (Dot & _ & NotO & _).
  change (Re.seq (Re.Opt (Re.seq [Re.lit " WHERE ";
                                  Re.Grp 3 (Re.plus (Re.CDot false) false)])
                  :: ?tl))
    with (Re.Seq (Re.Opt (Re.Seq (Re.lit " WHERE ")
                            (Re.Seq (Re.Grp 3 (Re.Seq (Re.Chr (Re.CDot false))
                                                 (Re.Star (Re.CDot false) false)))
                               Re.Eps)))
            (Re.seq tl)).
  set (tail := Re.seq _).
  cbn [Re.run]. rewrite run_lit.
  change (ci_prefix " WHERE " (" WHERE id = " ++ String x d)) with true.
  cbv iota.
  change (PyStr.drop (String.length " WHERE ") (" WHERE id = " ++ String x d))
    with (String "i" (String "d" (String " " (String "="
            (String " " (String x d)))))).
  change (Re.cls_match (Re.CDot false) "i") with true. cbv iota.
  rewrite rep_step_lazy by reflexivity.
  unfold tail at 1. rewrite order_tail_fails by (left; reflexivity).
  rewrite rep_step_lazy by reflexivity.
  unfold tail at 1. rewrite order_tail_fails by (right; split; reflexivity).
  rewrite rep_step_lazy by reflexivity.
  unfold tail at 1. rewrite order_tail_fails by (left; reflexivity).
  rewrite rep_step_lazy by reflexivity.
  unfold tail at 1. rewrite order_tail_fails by (right; split; [reflexivity | exact NotO]).
  rewrite (rep_lazy_to_end (Re.CDot false) PyStr.isdigit_char).
  - unfold tail. rewrite order_tail_at_end, consumed_all. reflexivity.
  - intros c t Dc. unfold tail. apply order_tail_at_digit, Dc.
  - clear -D. revert D. generalize (String x d). intros s.
    induction s as [|c s IH]; [reflexivity|].
    cbn [PyStr.all_chars]. intros D. apply andb_prop in D. destruct D as [Dc Ds].
    destruct (digit_char_facts c Dc) as (Dot & _).
    rewrite Dot, Dc, (IH Ds). reflexivity.
Qed.

Lemma select_by_id_matches d :
  PyStr.all_chars PyStr.isdigit_char d = true -> d <> EmptyString ->
  Re.rmatch select_pattern ("SELECT * FROM todos WHERE id = " ++ d)
  = Some [(3, ("id = " ++ d)%string); (2, "todos"); (1, "*")].
Proof.
  intros D N. unfold Re.rmatch, select_pattern.
  change (Re.seq (Re.lit "SELECT "
                  :: Re.Grp 1 (Re.plus (Re.CDot false) false)
                  :: Re.lit " FROM "
                  :: Re.Grp 2 (Re.plus (Re.CDot false) false) :: ?tl))
    with (Re.Seq (Re.lit "SELECT ")
            (Re.Seq (Re.Grp 1 (Re.plus (Re.CDot false) false))
               (Re.Seq (Re.lit " FROM ")
                  (Re.Seq (Re.Grp 2 (Re.plus (Re.CDot false) false))
                     (Re.seq tl))))).
  set (tail := Re.seq _).
  cbn [Re.run]. rewrite run_lit.
  change (ci_prefix "SELECT " ("SELECT * FROM todos WHERE id = " ++ d))
    with true.
  cbv iota.
  change (PyStr.drop (String.length "SELECT ")
            ("SELECT * FROM todos WHERE id = " ++ d))
    with (String "*" (String " " ("FROM todos WHERE id = " ++ d))).
  unfold Re.plus at 1. cbn [Re.run].
  change (Re.cls_match (Re.CDot false) "*") with true. cbv iota.
  rewrite rep_step_lazy by reflexivity.
  rewrite run_lit.
  change (ci_prefix " FROM " (String " " ("FROM todos WHERE id = " ++ d)))
    with true.
  cbv iota.
  change (PyStr.drop (String.length " FROM ")
            (String " " ("FROM todos WHERE id = " ++ d)))
    with (String "t" (String "o" (String "d" (String "o" (String "s"
            (" WHERE id = " ++ d)))))).
  unfold Re.plus. cbn [Re.run].
  change (Re.cls_match (Re.CDot false) "t") with true. cbv iota.
  rewrite rep_step_lazy by reflexivity.
  unfold tail at 1. rewrite select_tail_at_word_char by reflexivity.
  rewrite rep_step_lazy by reflexivity.
  unfold tail at 1. rewrite select_tail_at_word_char by reflexivity.
  rewrite rep_step_lazy by reflexivity.
  unfold tail at 1. rewrite select_tail_at_word_char by reflexivity.
  rewrite rep_step_lazy by reflexivity.
  unfold tail at 1. rewrite select_tail_at_word_char by reflexivity.
  change (" WHERE id = " ++ d)%string with (String " " ("WHERE id = " ++ d)).
  rewrite rep_step_lazy by reflexivity.
  change (String " " ("WHERE id = " ++ d)) with (" WHERE id = " ++ d)%string.
  unfold tail at 1. rewrite (select_tail_at_where d _ D N).
  cbv iota.
  change (String "t" (String "o" (String "d" (String "o" (String "s"
            (" WHERE id = " ++ d))))))
    with ("todos" ++ (" WHERE id = " ++ d))%string.
  rewrite consumed_prefix.
  change (String "*" (String " " ("FROM todos WHERE id = " ++ d)))
    with ("*" ++ String " " ("FROM todos WHERE id = " ++ d))%string.
  rewrite consumed_prefix. reflexivity.
Qed.

Section TodoLookup.

Variable like_match : string -> value -> outcome bool.

Lemma filter_where_returns w : forall rs,
  (forall r, exists b, _evaluate_where like_match r w = Ok b) ->
  exists out, filter_where like_match w rs = Ok out.
Proof.
  intros rs T. induction rs as [|r rs [out IH]].
  - exists []. reflexivity.
  - cbn [filter_where]. destruct (T r) as [b ->]. rewrite IH.
    cbn [bind]. eauto.
Qed.

(** X28.  [get_todo] of a non-negative id returns the first todo, in the
    order of the table, whose id equals it, projected on the declared
    columns, and None when there is none. *)
Theorem get_todo_finds_the_id st n tb :
  get_table st "todos" = Some tb ->
  snd (TodoApp.get_todo like_match st (Z.of_nat n))
  = Ok (hd_error
          (map (project_row (map Column.name (Table.columns tb)))
             (filter (fun r => py_eq (row_get_none r "id") (VInt (Z.of_nat n)))
                (Table.rows tb)))).
Proof.
  intros G. unfold TodoApp.get_todo, SimpleRDBMS.execute_sql.
  rewrite str_int_of_nat.
  destruct (of_nat_digits n) as [D N].
  rewrite (normalize_with_number "S" "ELECT * FROM todos WHERE id = " _
             eq_refl eq_refl D N).
  change (String "S" "ELECT * FROM todos WHERE id = " ++ PyStr.of_nat n)%string
    with ("SELECT * FROM todos WHERE id =" ++ (" " ++ PyStr.of_nat n))%string.
  rewrite select_by_id_is_a_select.
  change ("SELECT * FROM todos WHERE id =" ++ (" " ++ PyStr.of_nat n))%string
    with ("SELECT * FROM todos WHERE id = " ++ PyStr.of_nat n)%string.
  unfold _execute_select.
  rewrite (select_by_id_matches _ D N). cbn [snd].
  set (sql := ("SELECT * FROM todos WHERE id = " ++ PyStr.of_nat n)%string).
  change (group_str _ 1) with "*". change (group_str _ 2) with "todos".
  change (Re.group _ 3) with (Some ("id = " ++ PyStr.of_nat n)%string).
  change (Re.group _ 4) with (@None string).
  change (PyStr.strip "*") with "*". change (PyStr.strip "todos") with "todos".
  destruct (filter_where_returns ("id = " ++ PyStr.of_nat n) (Table.rows tb))
    as [out F].
  { intros r. rewrite (where_id_is like_match r _ D N). eauto. }
  assert (G0 : get_table (log_statement st sql) "todos" = Some tb).
  { unfold get_table. rewrite (proj1 (log_statement_tables st sql)). exact G. }
  destruct (select_outcome like_match (log_statement st sql) "*" "todos" tb
              ("id = " ++ PyStr.of_nat n)
              (map (project_row (map Column.name (Table.columns tb))) out))
    as (columns & C & E); [reflexivity | exact G0 | reflexivity | |].
  - unfold select_groups.
    change (parse_from "todos")
      with (Ok (A := list string * list string) (["todos"], [])).
    cbn [bind fst get_table_objs]. rewrite G0.
    cbn [bind select_columns String.eqb Ascii.eqb Bool.eqb materialize].
    change (truthy (Some ("id = " ++ PyStr.of_nat n)%string)) with true.
    cbn [group_or_empty]. rewrite F. reflexivity.
  - unfold select_groups.
    change (parse_from "todos")
      with (Ok (A := list string * list string) (["todos"], [])).
    cbn [bind fst get_table_objs]. rewrite G0.
    cbn [bind select_columns String.eqb Ascii.eqb Bool.eqb materialize].
    change (truthy (Some ("id = " ++ PyStr.of_nat n)%string)) with true.
    cbn [group_or_empty]. rewrite F. cbn [bind truthy].
    rewrite E. injection C as <-. do 3 f_equal.
    apply filter_ext. intros r. unfold selected.
    change (truthy (Some ("id = " ++ PyStr.of_nat n)%string)) with true.
    cbn [negb group_or_empty].
    rewrite (where_id_is like_match r _ D N), int_of_of_nat. reflexivity.
Qed.

End TodoLookup.

(** *** The table of the todo application *)

Section TodoInit.

Variable like_match : string -> value -> outcome bool.

Lemma create_todos_is_a_create st :
  execute_sql like_match st TodoApp.create_todos
  = _execute_create_table (log_statement st (normalize TodoApp.create_todos))
      (normalize TodoApp.create_todos).
Proof. reflexivity. Qed.

Lemma create_todos_parsed :
  exists m,
    Re.rmatch create_table_pattern (normalize TodoApp.create_todos) = Some m
    /\ group_str m 1 = "todos"
    /\ parse_columns (PyStr.split_char "," (PyStr.strip (group_str m 2)))
       = Ok todos_columns.
Proof.
  eexists. split; [vm_compute; reflexivity|].
  split; vm_compute; reflexivity.
Qed.

(** X29.  [TodoApp()] keeps a table todos that its data directory
    already holds, rows and all: the CREATE TABLE raises and the error
    is swallowed.  On a directory without one it creates and saves the
    table with its six columns, of which only title is NOT NULL and id
    alone is unique; the DEFAULT clauses leave no trace. *)
Theorem new_todo_app_keeps_existing_todos files :
  NoDup (map fst files) ->
  (Dict.mem String.eqb files "todos" = true ->
   TodoApp.new like_match files = init files)
  /\ (Dict.mem String.eqb files "todos" = false ->
      tables (TodoApp.new like_match files)
      = files ++ [("todos", Table.new "todos" todos_columns)]
      /\ disk (TodoApp.new like_match files)
         = files ++ [("todos", Table.new "todos" todos_columns)]).
Proof.
  intros N.
  assert (T : init files = mk files files [] false).
  { unfold init, _load_tables. cbn [tables disk set_tables transaction_log
                                     _in_transaction].
    rewrite (dict_assign_new files [] N). reflexivity. }
  unfold TodoApp.new, TodoApp._init_database.
  rewrite create_todos_is_a_create, T.
  change (log_statement (mk files files [] false) _)
    with (mk files files [] false).
  unfold _execute_create_table.
  destruct create_todos_parsed as (m & -> & -> & ->).
  cbn [tables].
  split; intros M; rewrite M; [reflexivity|].
  apply dict_mem_get in M.
  unfold _save_table. rewrite get_table_put.
  cbn [fst tables disk put_table set_tables set_disk].
  rewrite (dict_set_absent files "todos" _ M). split; reflexivity.
Qed.

End TodoInit.

(** *** The statement of [add_todo] *)

Lemma all_chars_rev q s :
  PyStr.all_chars q s = true -> PyStr.all_chars q (PyStr.rev s) = true.
Proof.
  intros H. induction s as [|c s IH]; [reflexivity|].
  cbn [PyStr.all_chars] in H. apply andb_prop in H. destruct H as [Hc Hs].
  rewrite rev_cons.
  assert (A : forall a b, PyStr.all_chars q a = true ->
                          PyStr.all_chars q b = true ->
                          PyStr.all_chars q (a ++ b) = true).
  { induction a as [|x a IHa]; intros b Ha Hb; [exact Hb|].
    cbn [PyStr.all_chars String.append] in *.
    apply andb_prop in Ha. destruct Ha as [Hx Ha].
    rewrite Hx, (IHa b Ha Hb). reflexivity. }
  apply A; [exact (IH Hs)|]. cbn [PyStr.all_chars]. rewrite Hc. reflexivity.
Qed.

(** Stripping a text framed by whitespace. *)
Lemma strip_framed lead a body z trail :
  PyStr.all_chars PyStr.isspace_char lead = true ->
  PyStr.all_chars PyStr.isspace_char trail = true ->
  PyStr.isspace_char a = false -> PyStr.isspace_char z = false ->
  PyStr.strip (lead ++ String a (body ++ String z trail))
  = String a (body ++ String z EmptyString).
Proof.
  intros Hl Ht Ha Hz. rewrite (strip_lead lead _ Hl).
  unfold PyStr.strip, PyStr.strip_by. cbn [PyStr.lstrip_by]. rewrite Ha.
  rewrite rev_cons, rev_app, rev_cons, !append_assoc.
  rewrite (lstrip_spaces (PyStr.rev trail) _ (all_chars_rev _ _ Ht)).
  cbn [String.append PyStr.lstrip_by]. rewrite Hz.
  change (String z (PyStr.rev body ++ String a EmptyString))
    with (String z EmptyString ++ (PyStr.rev body ++ String a EmptyString))%string.
  rewrite rev_app, rev_app, rev_involutive. reflexivity.
Qed.

Lemma normalize_insert_statement next_id title description created_at priority :
  normalize (TodoApp.insert_statement next_id title description created_at priority)
  = ("INSERT INTO todos (id, title, description, completed, created_at, priority)             VALUES ("
     ++ blanked (insert_fields next_id title description created_at priority)
     ++ ")")%string.
Proof.
  unfold normalize.
  assert (E : TodoApp.insert_statement next_id title description created_at priority
              = (String "010" "            "
                 ++ String "I"
                      (("NSERT INTO todos (id, title, description, completed, created_at, priority)"
                        ++ String "010" "            VALUES ("
                        ++ insert_fields next_id title description created_at
                             priority)
                       ++ String ")" (String "010" "        ")))%string).
  { unfold TodoApp.insert_statement, insert_fields, lines.
    rewrite !append_assoc. cbn [String.append]. rewrite ?append_assoc.
    cbn [String.append]. reflexivity. }
  rewrite E, strip_framed by reflexivity.
  rewrite !append_assoc.
  set (F := insert_fields next_id title description created_at priority).
  change (String "I"
            ("NSERT INTO todos (id, title, description, completed, created_at, priority)"
             ++ String "010" "            VALUES (" ++ F ++ ")"))%string
    with (("INSERT INTO todos (id, title, description, completed, created_at, priority)"
           ++ String "010" "            VALUES (") ++ (F ++ ")"))%string.
  unfold blanked.
  rewrite (replace_char_app "010"), (replace_char_app "009").
  rewrite (replace_char_app "010" " " F), (replace_char_app "009").
  rewrite ?append_assoc. reflexivity.
Qed.

(** *** The pattern of INSERT on the statement of [add_todo] *)

Lemma run_ext {R} r : forall s c (k1 k2 : string -> Re.caps -> option R),
  (forall s' c', k1 s' c' = k2 s' c') -> Re.run r s c k1 = Re.run r s c k2.
Proof.
  induction r; intros s c k1 k2 E; cbn [Re.run].
  - apply E.
  - destruct s as [|x s]; [reflexivity|]. destruct (Re.cls_match k x); auto.
  - apply IHr1. intros s' c'. apply IHr2, E.
  - apply rep_ext. intros t. apply E.
  - apply IHr. intros s' c'. apply E.
  - rewrite (IHr s c k1 k2 E), E. reflexivity.
  - destruct s as [|x [|y s]]; try reflexivity; [apply E|].
    destruct (Ascii.eqb x "010"); [apply E | reflexivity].
Qed.

Lemma run_seq_app {R} l1 l2 : forall s c (k : string -> Re.caps -> option R),
  Re.run (Re.seq (l1 ++ l2)) s c k
  = Re.run (Re.seq l1) s c (fun s1 c1 => Re.run (Re.seq l2) s1 c1 k).
Proof.
  induction l1 as [|r l1 IH]; intros s c k; [reflexivity|].
  cbn [app Re.seq Re.run]. apply run_ext. intros s' c'. apply IH.
Qed.

Lemma rep_greedy_stop {R} k x rest (cont : string -> option R) r : forall w,
  PyStr.all_chars (Re.cls_match k) w = true ->
  Re.cls_match k x = false ->
  cont (String x rest) = Some r ->
  Re.rep k true (w ++ String x rest) cont = Some r.
Proof.
  induction w as [|c w IH]; intros A Hx H.
  - cbn [String.append Re.rep]. rewrite Hx. exact H.
  - cbn [PyStr.all_chars] in A. apply andb_prop in A. destruct A as [Hc Hw].
    cbn [String.append Re.rep]. rewrite Hc, (IH Hw Hx H). reflexivity.
Qed.

Ltac prefix_of s t :=
  match s with
  | t => constr:(EmptyString)
  | String ?a ?s' => let w := prefix_of s' t in constr:(String a w)
  end.

Ltac consumed_steps :=
  repeat match goal with
  | |- context [Re.consumed ?s ?t] =>
      let w := prefix_of s t in
      change (Re.consumed s t) with (Re.consumed (w ++ t) t);
      rewrite (consumed_prefix w t)
  end.

Lemma insert_todo_prefix {R} T (k1 : string -> Re.caps -> option R) r :
  (forall c, k1 T c = Some (r c)) ->
  Re.run
    (Re.seq
       [Re.lit "INSERT INTO "; Re.Grp 1 (Re.plus Re.CWord true);
        Re.Star Re.CSpace true;
        Re.Opt (Re.seq [Re.lit "(";
                        Re.Grp 2 (Re.plus (Re.CNot ")") true);
                        Re.lit ")"]);
        Re.Star Re.CSpace true; Re.lit "VALUES"; Re.Star Re.CSpace true;
        Re.lit "("])
    ("INSERT INTO todos (id, title, description, completed, created_at, priority)             VALUES ("
     ++ T) [] k1
  = Some (r [(2, "id, title, description, completed, created_at, priority");
             (1, "todos")]).
Proof.
  intros H. cbv -[Re.consumed]. rewrite H. cbv iota.
  consumed_steps. reflexivity.
Qed.

Lemma insert_todo_matches F :
  F <> EmptyString ->
  PyStr.all_chars (fun c => negb (Ascii.eqb c ")")) F = true ->
  Re.rmatch insert_pattern
    ("INSERT INTO todos (id, title, description, completed, created_at, priority)             VALUES ("
     ++ F ++ ")")
  = Some [(3, F);
          (2, "id, title, description, completed, created_at, priority");
          (1, "todos")].
Proof.
  intros N A. unfold Re.rmatch, insert_pattern.
  change (Re.seq [?a; ?b; ?c; ?d; ?e; ?f; ?g; ?h; ?i; ?j])
    with (Re.seq ([a; b; c; d; e; f; g; h] ++ [i; j])).
  rewrite run_seq_app.
  rewrite (insert_todo_prefix (F ++ ")") _ (fun c => (3, F) :: c)); [reflexivity|].
  intros c. destruct F as [|x F]; [contradiction N; reflexivity|].
  cbn [PyStr.all_chars] in A. apply andb_prop in A. destruct A as [Hx HF].
  cbn [Re.seq Re.run Re.plus String.append Re.cls_match]. rewrite Hx.
  erewrite (rep_greedy_stop (Re.CNot ")") ")" EmptyString _ _ F HF eq_refl).
  - reflexivity.
  - cbv beta. rewrite run_lit. cbn [ci_prefix]. cbv -[Re.consumed String.append].
    change (String x (F ++ ")")) with ((String x F) ++ ")")%string.
    rewrite consumed_prefix. reflexivity.
Qed.

(** *** Counting the parts of a split *)

Lemma split_char_length_pos sep s : 1 <= List.length (PyStr.split_char sep s).
Proof.
  induction s as [|c s IH]; cbn [PyStr.split_char]; [simpl; lia|].
  destruct (Ascii.eqb c sep); [simpl; lia|].
  destruct (PyStr.split_char sep s); simpl in *; lia.
Qed.

Lemma cons_head_length c l :
  1 <= List.length l -> List.length (PyStr.cons_head c l) = List.length l.
Proof. destruct l; simpl; [lia | reflexivity]. Qed.

Lemma split_char_length_app sep a b :
  List.length (PyStr.split_char sep (a ++ b))
  = List.length (PyStr.split_char sep a) + List.length (PyStr.split_char sep b) - 1.
Proof.
  induction a as [|c a IH]; cbn [String.append PyStr.split_char].
  - simpl. lia.
  - pose proof (split_char_length_pos sep (a ++ b)) as P1.
    pose proof (split_char_length_pos sep a) as P2.
    pose proof (split_char_length_pos sep b) as P3.
    destruct (Ascii.eqb c sep).
    + cbn [List.length]. lia.
    + rewrite !cons_head_length by assumption. exact IH.
Qed.

Lemma split_char_length_replace x y sep : forall s,
  Ascii.eqb x sep = false -> Ascii.eqb y sep = false ->
  List.length (PyStr.split_char sep (PyStr.replace_char x y s))
  = List.length (PyStr.split_char sep s).
Proof.
  intros s Hx Hy. induction s as [|c s IH]; [reflexivity|].
  cbn [PyStr.replace_char PyStr.split_char].
  pose proof (split_char_length_pos sep s) as P1.
  pose proof (split_char_length_pos sep (PyStr.replace_char x y s)) as P2.
  destruct (Ascii.eqb c x) eqn:E.
  - apply Ascii.eqb_eq in E. subst c. rewrite Hx, Hy.
    rewrite !cons_head_length by assumption. exact IH.
  - destruct (Ascii.eqb c sep).
    + cbn [List.length]. rewrite IH. reflexivity.
    + rewrite !cons_head_length by assumption. exact IH.
Qed.

Lemma all_chars_app p a b :
  PyStr.all_chars p (a ++ b)
  = PyStr.all_chars p a && PyStr.all_chars p b.
Proof.
  induction a as [|c a IH]; [reflexivity|].
  cbn [String.append PyStr.all_chars]. rewrite IH, andb_assoc. reflexivity.
Qed.

Lemma all_chars_replace p x y : forall s,
  p y = true -> PyStr.all_chars p s = true ->
  PyStr.all_chars p (PyStr.replace_char x y s) = true.
Proof.
  intros s Hy. induction s as [|c s IH]; [reflexivity|].
  cbn [PyStr.all_chars PyStr.replace_char]. intros H.
  apply andb_prop in H. destruct H as [Hc Hs]. rewrite (IH Hs).
  destruct (Ascii.eqb c x); [rewrite Hy | rewrite Hc]; reflexivity.
Qed.

Section AddTodo.

Variable like_match : string -> value -> outcome bool.

(** X30.  The INSERT statement that [add_todo] builds puts the title
    between quotes as it is, and [_execute_insert] splits the values at
    every comma.  With a comma in the title, and no closing parenthesis
    in the five texts, the statement has more values than the six
    columns it names: it raises ValueError, column count against value
    count, and the engine is left as it was but for the log. *)
Theorem add_todo_title_with_comma_raises st tb
    next_id a b description created_at priority :
  get_table st "todos" = Some tb ->
  no_paren (next_id ++ a ++ b ++ description ++ created_at ++ priority) = true ->
  let sql := TodoApp.insert_statement next_id (a ++ "," ++ b) description
               created_at priority in
  execute_sql like_match st sql
  = (log_statement st (normalize sql),
     Raise (ValueError "Column count doesn't match value count")).
Proof.
  intros G P sql. unfold SimpleRDBMS.execute_sql. subst sql.
  rewrite normalize_insert_statement.
  set (F := blanked _).
  set (S := ("INSERT INTO todos (id, title, description, completed, created_at, priority)             VALUES (" ++ F ++ ")")%string).
  change (dispatch like_match (log_statement st S) S)
    with (_execute_insert (log_statement st S) S).
  unfold no_paren in P. rewrite !all_chars_app in P.
  repeat (apply andb_prop in P; destruct P as [? P]).
  assert (A : PyStr.all_chars (fun c => negb (Ascii.eqb c ")")) F = true).
  { unfold F, blanked, insert_fields.
    apply all_chars_replace; [reflexivity|].
    apply all_chars_replace; [reflexivity|].
    rewrite !all_chars_app.
    repeat (apply andb_true_intro; split); try assumption; reflexivity. }
  assert (N : F <> EmptyString).
  { unfold F, blanked, insert_fields. destruct next_id; discriminate. }
  assert (L : 7 <= List.length (PyStr.split_char "," F)).
  { unfold F, blanked, insert_fields.
    rewrite !split_char_length_replace by reflexivity.
    rewrite !split_char_length_app.
    pose proof (split_char_length_pos "," next_id).
    pose proof (split_char_length_pos "," a).
    pose proof (split_char_length_pos "," b).
    pose proof (split_char_length_pos "," description).
    pose proof (split_char_length_pos "," created_at).
    pose proof (split_char_length_pos "," priority).
    cbn [PyStr.split_char Ascii.eqb Bool.eqb PyStr.cons_head List.length].
    lia. }
  pose proof (insert_todo_matches F N A) as M. fold S in M.
  unfold _execute_insert. rewrite M.
  change (group_str _ 1) with "todos".
  assert (G0 : get_table (log_statement st S) "todos" = Some tb).
  { unfold get_table. rewrite (proj1 (log_statement_tables st S)). exact G. }
  rewrite G0.
  change (group_str _ 3) with F.
  change (Re.group _ 2)
    with (Some "id, title, description, completed, created_at, priority").
  unfold insert_values. rewrite length_map.
  change (List.length (insert_col_names tb _)) with 6.
  destruct (Nat.eqb_spec 6 (List.length (PyStr.split_char "," F))) as [E|E];
    [lia | reflexivity].
Qed.

End AddTodo.

(** ** Literals and conditions, from the text to the row *)

(** *** Stripping a text between characters of the stripped kind *)

Lemma lstrip_by_all p lead s :
  PyStr.all_chars p lead = true ->
  PyStr.lstrip_by p (lead ++ s) = PyStr.lstrip_by p s.
Proof.
  induction lead as [|c lead IH]; [reflexivity|].
  cbn [PyStr.all_chars String.append PyStr.lstrip_by]. intros H.
  apply andb_prop in H. destruct H as [Hc Hl]. rewrite Hc. apply IH, Hl.
Qed.

Lemma lstrip_by_head p s t :
  match s with
  | EmptyString => true
  | String a _ => negb (p a)
  end = true ->
  s <> EmptyString ->
  PyStr.lstrip_by p (s ++ t) = (s ++ t)%string.
Proof.
  destruct s as [|a s]; [intros _ N; contradiction N; reflexivity|].
  intros H _. apply negb_true_iff in H.
  cbn [String.append PyStr.lstrip_by]. rewrite H. reflexivity.
Qed.

Lemma rev_not_empty s : s <> EmptyString -> PyStr.rev s <> EmptyString.
Proof.
  intros N E. apply N.
  assert (L := rev_length s). rewrite E in L. destruct s; [reflexivity|].
  discriminate L.
Qed.

Lemma strip_by_bare p lead s trail :
  PyStr.all_chars p lead = true -> PyStr.all_chars p trail = true ->
  bare p s = true ->
  PyStr.strip_by p (lead ++ s ++ trail) = s.
Proof.
  intros Hl Ht B. unfold bare in B. apply andb_prop in B. destruct B as [B1 B2].
  unfold PyStr.strip_by. rewrite (lstrip_by_all p lead _ Hl).
  destruct (string_dec s EmptyString) as [->|N].
  - cbn [String.append].
    replace trail with (trail ++ EmptyString)%string by apply append_empty_r.
    rewrite (lstrip_by_all p trail _ Ht). reflexivity.
  - rewrite (lstrip_by_head p s trail B1 N), rev_app.
    rewrite (lstrip_by_all p _ _ (all_chars_rev p trail Ht)).
    replace (PyStr.rev s) with (PyStr.rev s ++ EmptyString)%string
      by apply append_empty_r.
    rewrite (lstrip_by_head p (PyStr.rev s) EmptyString B2 (rev_not_empty s N)).
    rewrite append_empty_r. apply rev_involutive.
Qed.

Lemma strip_between lead q1 w q2 trail :
  PyStr.all_chars PyStr.isspace_char lead = true ->
  PyStr.all_chars PyStr.isspace_char trail = true ->
  PyStr.all_chars (Ascii.eqb "'") q1 = true ->
  PyStr.all_chars (Ascii.eqb "'") q2 = true ->
  bare (Ascii.eqb "'") w = true ->
  bare PyStr.isspace_char (q1 ++ w ++ q2) = true ->
  PyStr.strip_quote (PyStr.strip (lead ++ q1 ++ w ++ q2 ++ trail)) = w.
Proof.
  intros Hl Ht H1 H2 Bw Bq. unfold PyStr.strip, PyStr.strip_quote.
  replace (lead ++ q1 ++ w ++ q2 ++ trail)%string
    with (lead ++ (q1 ++ w ++ q2) ++ trail)%string
    by (rewrite !append_assoc; reflexivity).
  rewrite (strip_by_bare _ lead _ trail Hl Ht Bq).
  apply (strip_by_bare _ q1 w q2 H1 H2 Bw).
Qed.

(** *** Comparisons under OR and AND *)

Lemma existsb_eqb_In op l : existsb (String.eqb op) l = true -> In op l.
Proof.
  intros H. apply existsb_exists in H. destruct H as (x & I & E).
  apply String.eqb_eq in E. subst x. exact I.
Qed.

Lemma comparison_words a op b :
  comparison a op b = true ->
  plain_words "AND" [a; op; b] = true /\ plain_words "OR" [a; op; b] = true
  /\ is_word a = true /\ is_word b = true /\ In op comparison_ops.
Proof.
  unfold comparison. intros H.
  apply andb_prop in H. destruct H as [H O].
  apply andb_prop in H. destruct H as [PA PO].
  repeat split; try assumption.
  - unfold plain_words in PA. cbn [forallb] in PA.
    apply andb_prop in PA. destruct PA as [X _].
    apply andb_prop in X. apply X.
  - unfold plain_words in PA. cbn [forallb] in PA.
    apply andb_prop in PA. destruct PA as [_ X].
    apply andb_prop in X. destruct X as [_ X].
    apply andb_prop in X. destruct X as [X _].
    apply andb_prop in X. apply X.
  - apply existsb_eqb_In, O.
Qed.

Section Literals.

Variable like_match : string -> value -> outcome bool.

Abbreviation _evaluate_where := (SimpleRDBMS._evaluate_where like_match).

Lemma comparison_holds r a op b :
  comparison a op b = true ->
  _evaluate_where r (join_words [a; op; b]) = holds r a op b.
Proof.
  intros H. destruct (comparison_words a op b H) as (_ & _ & Wa & Wb & I).
  cbn [join_words]. unfold holds.
  rewrite (comparison_scan like_match r a op b Wa Wb I).
  rewrite (proj2 (proj2 (coercion_literal (PyStr.strip_quote b)))).
  reflexivity.
Qed.

Lemma or_and_of_comparisons r a1 o1 b1 a2 o2 b2 a3 o3 b3 or_word and_word :
  comparison a1 o1 b1 = true -> comparison a2 o2 b2 = true ->
  comparison a3 o3 b3 = true ->
  is_keyword "OR" or_word = true -> is_keyword "AND" and_word = true ->
  _evaluate_where r
    (a1 ++ " " ++ o1 ++ " " ++ b1 ++ " " ++ or_word ++ " "
     ++ a2 ++ " " ++ o2 ++ " " ++ b2 ++ " " ++ and_word ++ " "
     ++ a3 ++ " " ++ o3 ++ " " ++ b3)
  = and_then (or_else (holds r a1 o1 b1) (holds r a2 o2 b2)) (holds r a3 o3 b3)
  /\ _evaluate_where r
       (a1 ++ " " ++ o1 ++ " " ++ b1 ++ " " ++ or_word ++ " "
        ++ a2 ++ " " ++ o2 ++ " " ++ b2)
     = or_else (holds r a1 o1 b1) (holds r a2 o2 b2).
Proof.
  intros C1 C2 C3 Hor Hand.
  destruct (comparison_words _ _ _ C1) as (A1 & O1 & _).
  destruct (comparison_words _ _ _ C2) as (A2 & O2 & _).
  destruct (comparison_words _ _ _ C3) as (A3 & _).
  destruct (or_and_form like_match r [a1; o1; b1] [a2; o2; b2] [a3; o3; b3]
              or_word and_word A1 O1 ltac:(discriminate)
              A2 O2 ltac:(discriminate) A3 ltac:(discriminate) Hor Hand)
    as [D C].
  rewrite (comparison_holds r a1 o1 b1 C1), (comparison_holds r a2 o2 b2 C2) in D.
  rewrite (comparison_holds r a1 o1 b1 C1), (comparison_holds r a2 o2 b2 C2),
    (comparison_holds r a3 o3 b3 C3) in C.
  cbn [join_words] in D, C.
  rewrite ?append_assoc in D. rewrite ?append_assoc in C.
  split; [exact C | exact D].
Qed.

(** C8.  AND is looked for first: a condition whose stripped text holds
    AND between spaces (whatever the case) is the conjunction of the
    pieces of its split at AND, evaluated from left to right until one
    is false, whether or not the pieces hold OR; a condition with OR and
    no AND is the disjunction of the pieces of its split at OR.  So for
    runs of words [A], [B], [C] without these keywords, [A OR B AND C]
    is ([A] or [B]) and [C], and [A OR B] is [A] or [B].  With
    comparisons of a column and a literal for [A], [B] and [C] the
    result is read off the row: for equalities it is the boolean
    (a or b) and c of the three equality tests, and a or b for
    [A OR B]. *)
Theorem and_is_the_outer_split r :
  (forall c,
      PyStr.contains " AND " (PyStr.upper (PyStr.strip c)) = true ->
      _evaluate_where r c
      = conj_lazy (_evaluate_where r)
          (Re.split (Re.spaced "AND") (PyStr.strip c)))
  /\ (forall c,
        PyStr.contains " AND " (PyStr.upper (PyStr.strip c)) = false ->
        PyStr.contains " OR " (PyStr.upper (PyStr.strip c)) = true ->
        _evaluate_where r c
        = disj_lazy (_evaluate_where r)
            (Re.split (Re.spaced "OR") (PyStr.strip c)))
  /\ (forall wa wb wc or_word and_word,
        plain_words "AND" wa = true -> plain_words "OR" wa = true -> wa <> [] ->
        plain_words "AND" wb = true -> plain_words "OR" wb = true -> wb <> [] ->
        plain_words "AND" wc = true -> wc <> [] ->
        is_keyword "OR" or_word = true -> is_keyword "AND" and_word = true ->
        _evaluate_where r
          (join_words wa ++ " " ++ or_word ++ " " ++ join_words wb
           ++ " " ++ and_word ++ " " ++ join_words wc)
        = and_then
            (or_else (_evaluate_where r (join_words wa))
               (_evaluate_where r (join_words wb)))
            (_evaluate_where r (join_words wc))
        /\ _evaluate_where r
             (join_words wa ++ " " ++ or_word ++ " " ++ join_words wb)
           = or_else (_evaluate_where r (join_words wa))
               (_evaluate_where r (join_words wb)))
  /\ (forall a1 o1 b1 a2 o2 b2 a3 o3 b3 or_word and_word,
        comparison a1 o1 b1 = true -> comparison a2 o2 b2 = true ->
        comparison a3 o3 b3 = true ->
        is_keyword "OR" or_word = true -> is_keyword "AND" and_word = true ->
        _evaluate_where r
          (a1 ++ " " ++ o1 ++ " " ++ b1 ++ " " ++ or_word ++ " "
           ++ a2 ++ " " ++ o2 ++ " " ++ b2 ++ " " ++ and_word ++ " "
           ++ a3 ++ " " ++ o3 ++ " " ++ b3)
        = and_then (or_else (holds r a1 o1 b1) (holds r a2 o2 b2))
            (holds r a3 o3 b3)
        /\ _evaluate_where r
             (a1 ++ " " ++ o1 ++ " " ++ b1 ++ " " ++ or_word ++ " "
              ++ a2 ++ " " ++ o2 ++ " " ++ b2)
           = or_else (holds r a1 o1 b1) (holds r a2 o2 b2))
  /\ (forall a1 b1 a2 b2 a3 b3 or_word and_word,
        comparison a1 "=" b1 = true -> comparison a2 "=" b2 = true ->
        comparison a3 "=" b3 = true ->
        is_keyword "OR" or_word = true -> is_keyword "AND" and_word = true ->
        let equal a b :=
          py_eq (row_get_none r a) (Spec.coerce (PyStr.strip_quote b)) in
        _evaluate_where r
          (a1 ++ " = " ++ b1 ++ " " ++ or_word ++ " "
           ++ a2 ++ " = " ++ b2 ++ " " ++ and_word ++ " "
           ++ a3 ++ " = " ++ b3)
        = Ok ((equal a1 b1 || equal a2 b2) && equal a3 b3)
        /\ _evaluate_where r
             (a1 ++ " = " ++ b1 ++ " " ++ or_word ++ " " ++ a2 ++ " = " ++ b2)
           = Ok (equal a1 b1 || equal a2 b2)).
Proof.
  split; [exact (evaluate_and like_match r)|].
  split; [exact (evaluate_or like_match r)|].
  split.
  { intros wa wb wc or_word and_word HaA HaO Hane HbA HbO Hbne HcA Hcne Hor Hand.
    destruct (or_and_form like_match r wa wb wc or_word and_word
                HaA HaO Hane HbA HbO Hbne HcA Hcne Hor Hand) as [D C].
    split; [exact C | exact D]. }
  split; [exact (or_and_of_comparisons r)|].
  intros a1 b1 a2 b2 a3 b3 or_word and_word C1 C2 C3 Hor Hand equal.
  destruct (or_and_of_comparisons r a1 "=" b1 a2 "=" b2 a3 "=" b3
              or_word and_word C1 C2 C3 Hor Hand) as [C D].
  change (a1 ++ " = " ++ b1 ++ " " ++ or_word ++ " "
          ++ a2 ++ " = " ++ b2 ++ " " ++ and_word ++ " "
          ++ a3 ++ " = " ++ b3)%string
    with (a1 ++ " " ++ "=" ++ " " ++ b1 ++ " " ++ or_word ++ " "
          ++ a2 ++ " " ++ "=" ++ " " ++ b2 ++ " " ++ and_word ++ " "
          ++ a3 ++ " " ++ "=" ++ " " ++ b3)%string.
  change (a1 ++ " = " ++ b1 ++ " " ++ or_word ++ " " ++ a2 ++ " = " ++ b2)%string
    with (a1 ++ " " ++ "=" ++ " " ++ b1 ++ " " ++ or_word ++ " "
          ++ a2 ++ " " ++ "=" ++ " " ++ b2)%string.
  rewrite C, D. unfold holds, compare_by. cbn [String.eqb Ascii.eqb Bool.eqb].
  cbn [or_else and_then bind]. fold (equal a1 b1) (equal a2 b2) (equal a3 b3).
  split.
  - destruct (equal a1 b1), (equal a2 b2), (equal a3 b3); reflexivity.
  - destruct (equal a1 b1), (equal a2 b2); reflexivity.
Qed.

(** C7.  At its three sites (the value list of INSERT, the SET clause
    of UPDATE, the right-hand side of a comparison) the code first
    strips the token of the blanks around it and then of the single
    quotes around it, and coerces what is left, [w], in the order of the
    specification: integer if all-digit, else real if digits with one
    dot, else boolean, else null, else text.  A quoted token is coerced
    like the unquoted one.  The token 5 is the integer 5 and the token
    5.0 the real 5.0 (50 / 10), not the reverse.  The token is ASCII
    text within the length that [int] converts. *)
Theorem coercion_order lead q1 w q2 trail :
  PyStr.all_chars PyStr.isspace_char lead = true ->
  PyStr.all_chars PyStr.isspace_char trail = true ->
  PyStr.all_chars (Ascii.eqb "'") q1 = true ->
  PyStr.all_chars (Ascii.eqb "'") q2 = true ->
  bare (Ascii.eqb "'") w = true ->
  bare PyStr.isspace_char (q1 ++ w ++ q2) = true ->
  ascii_text w = true -> String.length w <= 4300 ->
  insert_value (lead ++ q1 ++ w ++ q2 ++ trail) = Spec.coerce w
  /\ update_value (lead ++ q1 ++ w ++ q2 ++ trail) = Spec.coerce w
  /\ (forall r a op,
        is_word a = true -> is_word (q1 ++ w ++ q2) = true ->
        In op comparison_ops ->
        _evaluate_where r (a ++ " " ++ op ++ " " ++ q1 ++ w ++ q2)
        = compare_by op (row_get_none r a) (Spec.coerce w))
  /\ Spec.coerce "5" = VInt 5
  /\ Spec.coerce "5.0" = VFloat 50 1
  /\ insert_value "5" = VInt 5 /\ insert_value "5.0" = VFloat 50 1
  /\ update_value "5" = VInt 5 /\ update_value "5.0" = VFloat 50 1
  /\ where_value "5" = VInt 5 /\ where_value "5.0" = VFloat 50 1.
Proof.
  intros Hl Ht H1 H2 Bw Bq _ _.
  destruct (coercion_literal (lead ++ q1 ++ w ++ q2 ++ trail)) as (A & B & _).
  rewrite (strip_between lead q1 w q2 trail Hl Ht H1 H2 Bw Bq) in A, B.
  split; [exact A|]. split; [exact B|]. split; [|repeat split].
  intros r a op Wa Wb I.
  rewrite (comparison_scan like_match r a op (q1 ++ w ++ q2) Wa Wb I).
  rewrite (proj2 (proj2 (coercion_literal (PyStr.strip_quote (q1 ++ w ++ q2))))).
  unfold PyStr.strip_quote. rewrite (strip_by_bare _ q1 w q2 H1 H2 Bw).
  reflexivity.
Qed.

End Literals.

(** ** The further properties at concrete inputs *)

Lemma clean_session_memory_is_disk_witness :
  let st := Demo.run Demo.fresh Sample.session in
  clean_run Like.percent (init []) Sample.session = true
  /\ snd (Demo.execute_sql Demo.two_rows "INSERT INTO t VALUES (1,'c')")
     = Raise (ValueError "Duplicate value for unique column 'id'")
  /\ tables st = disk st
  /\ tables (_rollback_transaction st) = tables st.
Proof.
  intros st.
  assert (C : clean_run Like.percent (init []) Sample.session = true)
    by (vm_compute; reflexivity).
  destruct (clean_session_memory_is_disk Like.percent [] Sample.session
              (NoDup_nil _) (Forall_nil _) C) as (A & _ & B & _).
  split; [exact C|]. split; [reflexivity|]. split; [exact A | exact B].
Defined.

Lemma clean_session_indexes_consistent_witness :
  clean_run Like.percent (init []) Sample.session = true
  /\ index_consistent
       (Demo.table_of (Demo.run Demo.fresh Sample.session) "t").
Proof.
  assert (C : clean_run Like.percent (init []) Sample.session = true)
    by (vm_compute; reflexivity).
  split; [exact C|].
  apply (clean_session_indexes_consistent Like.percent [] Sample.session
           (NoDup_nil _) (Forall_nil _) C "t").
  vm_compute. reflexivity.
Defined.

Lemma comparison_of_column_and_literal_witness :
  is_word "id" = true /\ is_word "1" = true
  /\ _evaluate_where Like.percent Demo.row_1a "id >= 1" = Ok true
  /\ _evaluate_where Like.percent Demo.row_2b "name != 'b'" = Ok false.
Proof.
  split; [reflexivity|]. split; [reflexivity|]. split.
  - exact (comparison_of_column_and_literal Like.percent Demo.row_1a
             "id" ">=" "1" eq_refl eq_refl
             (or_intror (or_intror (or_intror (or_intror (or_intror
                (or_introl eq_refl))))))).
  - reflexivity.
Defined.

Lemma ordering_of_null_raises_witness :
  row_get_none Demo.row_1a "age" = VNone
  /\ _evaluate_where Like.percent Demo.row_1a "age < 30" = Raise TypeError.
Proof.
  split; [reflexivity|].
  exact (ordering_of_null_raises Like.percent Demo.row_1a "age" "<" "30"
           eq_refl eq_refl (or_introl eq_refl) eq_refl).
Defined.

Lemma equals_null_tests_for_null_witness :
  is_word "age" = true
  /\ _evaluate_where Like.percent Demo.row_1a "age = NULL" = Ok true
  /\ _evaluate_where Like.percent Demo.row_1a "age != NULL" = Ok false.
Proof.
  split; [reflexivity|].
  exact (equals_null_tests_for_null Like.percent Demo.row_1a "age" eq_refl).
Defined.

Lemma null_test_at_the_end_is_false_witness :
  is_word "name" = true
  /\ _evaluate_where Like.percent [("id", VInt 3); ("name", VNone)]
       "name IS NULL" = Ok false
  /\ _evaluate_where Like.percent [("id", VInt 3); ("name", VNone)]
       "name IS NOT NULL" = Ok false.
Proof.
  split; [reflexivity|].
  exact (null_test_at_the_end_is_false Like.percent
           [("id", VInt 3); ("name", VNone)] "name" eq_refl).
Defined.

Lemma like_in_lower_case_raises_witness :
  is_keyword "LIKE" "like" = true
  /\ _evaluate_where Like.percent Demo.row_1a "name like a%"
     = Raise unpack_error
  /\ _evaluate_where Like.percent Demo.row_1a "name LIKE a%" = Ok true.
Proof.
  split; [reflexivity|]. split; [|reflexivity].
  refine (like_in_lower_case_raises Like.percent Demo.row_1a "name" "like" "a%"
            eq_refl eq_refl eq_refl _).
  discriminate.
Defined.

Lemma delete_keeps_the_unselected_witness :
  let sql := "DELETE FROM t WHERE id = 1" in
  let after := _execute_delete Like.percent Demo.two_rows sql in
  Re.rmatch delete_pattern sql = Some [(2, "id = 1"); (1, "t")]
  /\ snd after = Ok (rows_status 1 "deleted")
  /\ exists tb',
       get_table (fst after) "t" = Some tb'
       /\ Table.rows tb' = [Demo.row_2b]
       /\ filter_where Like.percent "id = 1" (Table.rows tb') = Ok [].
Proof.
  intros sql after.
  assert (M : Re.rmatch delete_pattern sql = Some [(2, "id = 1"); (1, "t")])
    by reflexivity.
  assert (H : _execute_delete Like.percent Demo.two_rows sql
              = (fst after, Ok (rows_status 1 "deleted")))
    by (vm_compute; reflexivity).
  destruct (delete_keeps_the_unselected Like.percent Demo.two_rows sql _
              (Demo.table_of Demo.two_rows "t") _ _ M eq_refl H)
    as (tb' & G & R & _ & _ & F & _).
  split; [exact M|]. split; [reflexivity|].
  exists tb'. split; [exact G|]. split; [exact R | exact (F eq_refl)].
Defined.

Lemma update_rewrites_the_selected_witness :
  let sql := "UPDATE t SET name = 'z' WHERE id = 1" in
  let after := _execute_update Like.percent Demo.two_rows sql in
  Re.rmatch update_pattern sql
  = Some [(3, "id = 1"); (2, "name = 'z'"); (1, "t")]
  /\ snd after = Ok (rows_status 1 "updated")
  /\ exists tb',
       get_table (fst after) "t" = Some tb'
       /\ Table.rows tb'
          = [[("id", VInt 1); ("name", VText "z")]; Demo.row_2b].
Proof.
  intros sql after.
  assert (M : Re.rmatch update_pattern sql
              = Some [(3, "id = 1"); (2, "name = 'z'"); (1, "t")])
    by reflexivity.
  assert (H : _execute_update Like.percent Demo.two_rows sql
              = (fst after, Ok (rows_status 1 "updated")))
    by (vm_compute; reflexivity).
  destruct (update_rewrites_the_selected Like.percent Demo.two_rows sql _
              (Demo.table_of Demo.two_rows "t") [("name", VText "z")] _ _
              M eq_refl eq_refl H)
    as (tb' & G & R & _).
  split; [exact M|]. split; [reflexivity|].
  exists tb'. split; [exact G | exact R].
Defined.

Lemma update_checks_no_type_witness :
  Column.data_type Demo.n_column = INTEGER
  /\ check_updates [Demo.id_not_null; Demo.n_column] [[("id", VInt 7)]] 0
       [("n", VText "seven")] = Ok tt
  /\ (exists rows,
        snd (Demo.execute_sql
               (Demo.run Demo.with_u ["INSERT INTO u VALUES (7, 8)"])
               "UPDATE u SET n = 'seven', id = NULL") = Ok rows).
Proof.
  split; [reflexivity|]. split.
  - apply update_checks_no_type.
    intros c v [E|[]]. injection E as <- <-.
    exists Demo.n_column. split; reflexivity.
  - eexists. vm_compute. reflexivity.
Defined.

Lemma insert_keeps_unique_columns_distinct_witness :
  let sql := "INSERT INTO t VALUES (3,'c')" in
  distinct_on "name" [Demo.row_1a; Demo.row_2b]
  /\ exists tb',
       get_table (fst (_execute_insert Demo.two_rows sql)) "t" = Some tb'
       /\ distinct_on "name" (Table.rows tb').
Proof.
  intros sql.
  assert (D : distinct_on "name" [Demo.row_1a; Demo.row_2b]).
  { intros i j ri rj Hi Hj Hij _.
    destruct i as [|[|i]]; destruct j as [|[|j]]; simpl in Hi, Hj;
      try (destruct i; discriminate Hi); try (destruct j; discriminate Hj);
      try (exfalso; apply Hij; reflexivity);
      injection Hi as <-; injection Hj as <-; reflexivity. }
  split; [exact D|].
  destruct (insert_keeps_unique_columns_distinct Demo.two_rows sql
              [(3, "3,'c'"); (1, "t")] (Demo.table_of Demo.two_rows "t")
              Sample.name_column (fst (_execute_insert Demo.two_rows sql))
              (snd (_execute_insert Demo.two_rows sql))
              eq_refl eq_refl (or_intror (or_introl eq_refl)) eq_refl D
              (surjective_pairing _))
    as (tb' & G & _ & D').
  exists tb'. split; [exact G | exact D'].
Defined.

Lemma explicit_null_passes_validation_witness :
  Column.is_nullable Demo.id_not_null = false
  /\ Table.columns (Demo.table_of Demo.with_u "u")
     = [Demo.id_not_null; Demo.n_column]
  /\ _validate_row (Demo.table_of Demo.with_u "u")
       [("id", VNone); ("n", VNone)] = Ok tt
  /\ snd (Demo.execute_sql Demo.with_u "INSERT INTO u VALUES (NULL, NULL)")
     = Ok [[("status", VText "Row inserted successfully");
            ("row_id", VInt 1)]].
Proof.
  split; [reflexivity|]. split; [reflexivity|]. split; [|reflexivity].
  apply explicit_null_passes_validation.
  intros col [E|[E|[]]]; rewrite <- E; reflexivity.
Defined.

Lemma validation_ignores_other_keys_witness :
  let t := Demo.table_of Demo.two_rows "t" in
  ~ In "nosuch" (map Column.name (Table.columns t))
  /\ _validate_row t [("id", VInt 3); ("nosuch", VInt 1)]
     = _validate_row t [("id", VInt 3)]
  /\ snd (Demo.execute_sql Demo.two_rows "INSERT INTO t (id, nosuch) VALUES (3, 1)")
     = Ok [[("status", VText "Row inserted successfully");
            ("row_id", VInt 3)]].
Proof.
  intros t.
  assert (N : ~ In "nosuch" (map Column.name (Table.columns t)))
    by (intros [E|[E|[]]]; discriminate E).
  split; [exact N|]. split; [|reflexivity].
  exact (validation_ignores_other_keys t [("id", VInt 3)] "nosuch" (VInt 1) N).
Defined.

Lemma insert_then_select_star_witness :
  let sql := "INSERT INTO t VALUES (3,'c')" in
  let after := _execute_insert Demo.two_rows sql in
  Re.rmatch insert_pattern sql = Some [(3, "3,'c'"); (1, "t")]
  /\ select_groups Like.percent (fst after) "*" "t" None None
     = Ok [Demo.row_1a; Demo.row_2b; Demo.row_3c].
Proof.
  intros sql after. split; [reflexivity|].
  refine (proj1 (insert_then_select_star Like.percent Demo.two_rows sql
                   [(3, "3,'c'"); (1, "t")] (Demo.table_of Demo.two_rows "t")
                   (fst after)
                   [[("status", VText "Row inserted successfully");
                     ("row_id", VInt 3)]]
                   eq_refl eq_refl eq_refl _ eq_refl _)).
  - repeat constructor; simpl; intuition discriminate.
  - vm_compute. reflexivity.
Defined.

Lemma create_then_drop_restores_witness :
  let created := _execute_create_table Demo.two_rows "CREATE TABLE v (a INTEGER)" in
  Dict.mem String.eqb (tables (fst created)) "v" = true
  /\ fst (_execute_drop_table (fst created) "DROP TABLE v") = Demo.two_rows.
Proof.
  intros created. split; [reflexivity|].
  rewrite (create_then_drop_restores Demo.two_rows "CREATE TABLE v (a INTEGER)"
             [(2, "a INTEGER"); (1, "v")] (fst created)
             [[("status", VText "Table 'v' created successfully");
               ("columns", VInt 1)]]
             "DROP TABLE v" [(1, "v")]
             eq_refl eq_refl eq_refl eq_refl eq_refl).
  reflexivity.
Defined.

Lemma unique_columns_are_indexed_witness :
  exists index_name,
    Dict.get String.eqb
      (Table.indexes (Table.new "t" [Demo.id_column; Sample.name_column]))
      index_name
    = Some (Index.mk ["name"] [])
    /\ (index_name = "__primary" \/ index_name = "__unique_name").
Proof.
  exact (unique_columns_are_indexed "t" [Demo.id_column; Sample.name_column]
           Sample.name_column (or_intror (or_introl eq_refl)) eq_refl).
Defined.

Lemma create_index_stops_at_missing_key_witness :
  let after :=
    _execute_create_index Sample.partial "CREATE INDEX ix ON t (name)" in
  Demo.rows_of Sample.partial "t"
  = [Demo.row_1a; Demo.row_2b; [("id", VInt 3)]]
  /\ snd after = Raise (KeyError "name")
  /\ disk (fst after) = disk Sample.partial
  /\ Dict.get String.eqb (Table.indexes (Demo.table_of (fst after) "t")) "ix"
     = Some (Index.mk ["name"] [([VText "a"], [0]); ([VText "b"], [1])]).
Proof.
  intros after. split; [reflexivity|]. split; [reflexivity|].
  split; [|reflexivity].
  refine (proj1 (create_index_stops_at_missing_key Sample.partial
                   "CREATE INDEX ix ON t (name)" (fst after) "name" _)).
  vm_compute. reflexivity.
Defined.

Lemma create_index_builds_on_all_rows_witness :
  let after :=
    _execute_create_index Demo.two_rows "CREATE INDEX ix ON t (name)" in
  exists m tb tb',
    Re.rmatch create_index_pattern "CREATE INDEX ix ON t (name)" = Some m
    /\ get_table Demo.two_rows (group_str m 2) = Some tb
    /\ get_table (fst after) (group_str m 2) = Some tb'
    /\ Dict.get String.eqb (Table.indexes tb') (group_str m 1)
       = Some (_rebuild_index (Table.rows tb)
                 (Index.new (map PyStr.strip
                               (PyStr.split_char "," (group_str m 3))))).
Proof.
  intros after.
  destruct (create_index_builds_on_all_rows Demo.two_rows
              "CREATE INDEX ix ON t (name)" (fst after)
              [[("status", VText "Index 'ix' created on 't'")]])
    as (m & tb & tb' & M & G & G' & _ & _ & I & _).
  - vm_compute. reflexivity.
  - exists m, tb, tb'. auto.
Defined.

Lemma select_returns_the_selected_witness :
  select_groups Like.percent Demo.two_rows "*" "t" (Some "id = 1") None
  = Ok [Demo.row_1a]
  /\ exists columns,
       select_columns "*" [Demo.table_of Demo.two_rows "t"] = Ok columns
       /\ [Demo.row_1a]
          = map (project_row columns)
              (filter (selected Like.percent (Some "id = 1"))
                 (Table.rows (Demo.table_of Demo.two_rows "t"))).
Proof.
  split; [vm_compute; reflexivity|].
  exact (select_returns_the_selected Like.percent Demo.two_rows "*" "t"
           (Demo.table_of Demo.two_rows "t") "id = 1" [Demo.row_1a]
           eq_refl eq_refl eq_refl eq_refl).
Defined.

Lemma raising_statement_changes_nothing_witness :
  let sql := "INSERT INTO t VALUES (1,'c')" in
  execute_sql Like.percent Demo.two_rows sql
  = (Demo.two_rows, Raise (ValueError "Duplicate value for unique column 'id'"))
  /\ Demo.two_rows = log_statement Demo.two_rows (normalize sql).
Proof.
  intros sql.
  assert (E : execute_sql Like.percent Demo.two_rows sql
              = (Demo.two_rows,
                 Raise (ValueError "Duplicate value for unique column 'id'")))
    by (vm_compute; reflexivity).
  split; [exact E|].
  exact (raising_statement_changes_nothing Like.percent Demo.two_rows sql
           Demo.two_rows _ E eq_refl).
Defined.

Lemma get_all_todos_orders_by_priority_only_witness :
  get_table TodoDemo.app "todos" = Some (Demo.table_of TodoDemo.app "todos")
  /\ snd (TodoApp.get_all_todos Like.percent TodoDemo.app)
     = Ok [TodoDemo.eggs; TodoDemo.milk].
Proof.
  split; [reflexivity|].
  rewrite (get_all_todos_orders_by_priority_only Like.percent TodoDemo.app
             (Demo.table_of TodoDemo.app "todos") eq_refl).
  - vm_compute. reflexivity.
  - repeat constructor.
Defined.

Lemma delete_todo_removes_the_id_witness :
  let after := TodoApp.delete_todo Like.percent TodoDemo.app 1 in
  snd after = Ok true
  /\ exists tb',
       get_table (fst after) "todos" = Some tb'
       /\ Table.rows tb' = [TodoDemo.eggs].
Proof.
  intros after.
  destruct (delete_todo_removes_the_id Like.percent TodoDemo.app 1
              (Demo.table_of TodoDemo.app "todos") eq_refl)
    as [O [tb' [G R]]].
  split; [exact O|]. exists tb'. split; [exact G|].
  rewrite R. vm_compute. reflexivity.
Defined.

Lemma only_queries_change_tables_witness :
  tables (fst (WebRDBMS.handle_request Like.percent Demo.two_rows
                 "/api/query" "GET" [("sql", "DROP TABLE t")]))
  = tables Demo.two_rows
  /\ disk (fst (WebRDBMS.handle_request Like.percent Demo.two_rows
                  "/api/query" "GET" [("sql", "DROP TABLE t")]))
     = disk Demo.two_rows.
Proof.
  apply (only_queries_change_tables Like.percent Demo.two_rows "/api/query"
           "GET" [("sql", "DROP TABLE t")]).
  right. discriminate.
Defined.

Lemma table_view_shows_every_row_witness :
  snd (WebRDBMS.handle_request Like.percent Demo.two_rows "/api/table/t"
         "GET" [])
  = (200, WebRDBMS.TableRows "t" ["id"; "name"] [Demo.row_1a; Demo.row_2b]).
Proof.
  change "/api/table/t" with ("/api/table/" ++ "t")%string.
  rewrite (table_view_shows_every_row Like.percent Demo.two_rows "t"
             (Demo.table_of Demo.two_rows "t") []); try reflexivity.
  discriminate.
Defined.

Lemma get_todo_finds_the_id_witness :
  get_table TodoDemo.app "todos" = Some (Demo.table_of TodoDemo.app "todos")
  /\ snd (TodoApp.get_todo Like.percent TodoDemo.app 2)
     = Ok (Some TodoDemo.eggs).
Proof.
  split; [reflexivity|].
  change (TodoApp.get_todo Like.percent TodoDemo.app 2)
    with (TodoApp.get_todo Like.percent TodoDemo.app (Z.of_nat 2)).
  rewrite (get_todo_finds_the_id Like.percent TodoDemo.app 2
             (Demo.table_of TodoDemo.app "todos") eq_refl).
  vm_compute. reflexivity.
Defined.

Lemma new_todo_app_keeps_existing_todos_witness :
  tables (TodoApp.new Like.percent [])
  = [("todos", Table.new "todos" todos_columns)]
  /\ TodoApp.new Like.percent (tables TodoDemo.app) = init (tables TodoDemo.app).
Proof.
  split.
  - exact (proj1 (proj2 (new_todo_app_keeps_existing_todos Like.percent []
                           (NoDup_nil _)) eq_refl)).
  - apply (new_todo_app_keeps_existing_todos Like.percent (tables TodoDemo.app)).
    + vm_compute. repeat constructor; simpl; intuition discriminate.
    + reflexivity.
Defined.

Lemma add_todo_title_with_comma_raises_witness :
  let sql := TodoApp.insert_statement "3" "milk, eggs" EmptyString
               "2026-01-01 10:00:00" "3" in
  get_table TodoDemo.app "todos" = Some (Demo.table_of TodoDemo.app "todos")
  /\ execute_sql Like.percent TodoDemo.app sql
     = (log_statement TodoDemo.app (normalize sql),
        Raise (ValueError "Column count doesn't match value count")).
Proof.
  intros sql. split; [reflexivity|].
  exact (add_todo_title_with_comma_raises Like.percent TodoDemo.app
           (Demo.table_of TodoDemo.app "todos") "3" "milk" " eggs" EmptyString
           "2026-01-01 10:00:00" "3" eq_refl eq_refl).
Defined.

(** C7, as the specification states it, does not hold: the quotes are
    stripped before the tests, not only from a token kept as text.  The
    quoted tokens '5', 'NULL' and 'true' are the integer 5, null and
    the boolean true, where the order of the specification, applied to
    the token, keeps them as the texts 5, NULL and true. *)
Lemma quoted_token_is_coerced_like_unquoted :
  insert_value "'5'" = VInt 5
  /\ Spec.coerce_token "'5'" = VText "5"
  /\ update_value "'NULL'" = VNone
  /\ Spec.coerce_token "'NULL'" = VText "NULL"
  /\ SimpleRDBMS._evaluate_where Like.percent [("done", VBool true)]
       "done = 'true'" = Ok true
  /\ SimpleRDBMS._evaluate_where Like.percent [("done", VText "true")]
       "done = 'true'" = Ok false
  /\ Spec.coerce_token "'true'" = VText "true"
  /\ insert_value "'5'" <> Spec.coerce_token "'5'"
  /\ update_value "'NULL'" <> Spec.coerce_token "'NULL'".
Proof. vm_compute. repeat split; discriminate. Qed.

Lemma coercion_order_witness :
  insert_value " '5' " = VInt 5
  /\ update_value " '5' " = VInt 5
  /\ SimpleRDBMS._evaluate_where Like.percent [("id", VInt 5)] "id = '5'"
     = Ok true
  /\ SimpleRDBMS._evaluate_where Like.percent [("id", VText "5")] "id = '5'"
     = Ok false.
Proof.
  destruct (coercion_order Like.percent " " "'" "5" "'" " "
              eq_refl eq_refl eq_refl eq_refl eq_refl eq_refl eq_refl
              ltac:(simpl; lia))
    as (A & B & C & _).
  split; [exact A|]. split; [exact B|]. split.
  - exact (C [("id", VInt 5)] "id" "=" eq_refl eq_refl (or_introl eq_refl)).
  - exact (C [("id", VText "5")] "id" "=" eq_refl eq_refl (or_introl eq_refl)).
Defined.

Lemma and_is_the_outer_split_witness :
  comparison "id" "=" "1" = true /\ comparison "name" "=" "'b'" = true
  /\ is_keyword "OR" "or" = true /\ is_keyword "AND" "AND" = true
  /\ SimpleRDBMS._evaluate_where Like.percent Demo.row_1a "id = 1 or name = 'b'"
     = Ok true
  /\ SimpleRDBMS._evaluate_where Like.percent Demo.row_1a
       "id = 2 or id = 1 AND name = 'a'" = Ok true
  /\ SimpleRDBMS._evaluate_where Like.percent Demo.row_1a
       "id = 1 or name = 'b' AND name = 'c'" = Ok false
  /\ or_else (holds Demo.row_1a "id" "=" "1")
       (and_then (holds Demo.row_1a "name" "=" "'b'")
          (holds Demo.row_1a "name" "=" "'c'")) = Ok true.
Proof.
  split; [reflexivity|]. split; [reflexivity|].
  split; [reflexivity|]. split; [reflexivity|].
  destruct (and_is_the_outer_split Like.percent Demo.row_1a)
    as (_ & _ & _ & _ & E).
  split.
  - exact (proj2 (E "id" "1" "name" "'b'" "name" "'c'" "or" "AND"
                    eq_refl eq_refl eq_refl eq_refl eq_refl)).
  - split.
    + exact (proj1 (E "id" "2" "id" "1" "name" "'a'" "or" "AND"
                      eq_refl eq_refl eq_refl eq_refl eq_refl)).
    + split; [|reflexivity].
      exact (proj1 (E "id" "1" "name" "'b'" "name" "'c'" "or" "AND"
                      eq_refl eq_refl eq_refl eq_refl eq_refl)).
Defined.

Lemma toggle_todo_never_toggles_witness :
  snd (TodoApp.toggle_todo Like.percent TodoDemo.app 1)
  = Raise (ValueError "Invalid UPDATE syntax")
  /\ snd (TodoApp.get_todo Like.percent TodoDemo.odd 1) = Ok (Some [])
  /\ snd (TodoApp.toggle_todo Like.percent TodoDemo.odd 1) = Ok None
  /\ tables (fst (TodoApp.toggle_todo Like.percent TodoDemo.app 1))
     = tables TodoDemo.app.
Proof.
  destruct (toggle_todo_never_toggles Like.percent TodoDemo.app 1)
    as (T & _ & R & _).
  destruct (toggle_todo_never_toggles Like.percent TodoDemo.odd 1)
    as (_ & _ & R' & _).
  split; [exact R|]. split; [reflexivity|]. split; [exact R'| exact T].
Defined.
